(** * monitoring-lab: the e-commerce service mesh and its traffic generator

    A shallow embedding of the Go services of the repository
    (user-service, product-service, order-service, traffic-generator) and
    the properties of their request handlers.

    Conventions.
    - A Go [int] is a 64-bit two's-complement integer: a [Z] kept in range
      by [GoInt.wrap] wherever the source does arithmetic on it.
    - A Go [float64] is a primitive binary64 [float].
    - Every effect of the processes (spans, log lines, outbound HTTP
      requests, stores to the in-memory tables) is recorded in the event
      list of the [World], newest first.
    - What the processes cannot decide themselves (random draws, the
      transport, the clock) is read from oracles carried by the [World]. *)

From Stdlib Require Import ZArith List String Ascii Bool Lia Floats.
From Stdlib Require Import DecimalString DecimalPos DecimalZ.
Import ListNotations.

Set Warnings "-inexact-float,-register-all".

Open Scope string_scope.
Open Scope Z_scope.

(* ================================================================== *)
(** ** Go integers *)

Module GoInt.

Definition min_int : Z := - 2 ^ 63.
Definition max_int : Z := 2 ^ 63 - 1.

Definition in_range (z : Z) : Prop := min_int <= z <= max_int.

(** Two's-complement wrap-around of an [int] result. *)
Definition wrap (z : Z) : Z := (z + 2 ^ 63) mod 2 ^ 64 - 2 ^ 63.

Definition add (a b : Z) : Z := wrap (a + b).
Definition sub (a b : Z) : Z := wrap (a - b).

(** [float64(n)]: conversion to the nearest binary64, ties to even. *)
Definition to_float64 (z : Z) : float :=
  SF2Prim (binary_normalize prec emax z 0 false).

End GoInt.

(* ================================================================== *)
(** ** strconv and fmt *)

Module strconv.

(** [fmt.Sprintf("%d", z)]. *)
Definition Itoa (z : Z) : string := NilZero.string_of_int (Z.to_int z).

(** [strconv.Atoi]: an optional sign, at least one decimal digit, and a
    value that fits an [int]; [None] is the error result. *)
Definition Atoi (s : string) : option Z :=
  let parsed :=
    match s with
    | String "+"%char rest =>
        option_map Decimal.Pos (NilZero.uint_of_string rest)
    | _ => NilZero.int_of_string s
    end in
  match parsed with
  | Some d =>
      let z := Z.of_int d in
      if (GoInt.min_int <=? z) && (z <=? GoInt.max_int) then Some z else None
  | None => None
  end.

End strconv.

(* ================================================================== *)
(** ** Domain records *)

(** user-service: [type User struct]. *)
Module User.
Record t : Type := mk
  { ID : Z; Email : string; Name : string; Password : string }.
End User.

(** product-service: [type Product struct]. *)
Module Product.
Record t : Type := mk
  { ID : Z; Name : string; Description : string; Price : float;
    Category : string; Stock : Z; ImageURL : string }.
End Product.

(** order-service: [type OrderItem struct]. *)
Module OrderItem.
Record t : Type := mk
  { ProductID : Z; Quantity : Z; Price : float; Name : string }.
End OrderItem.

(** order-service: [type Order struct]. *)
Module Order.
Record t : Type := mk
  { ID : Z; UserID : Z; Items : list OrderItem.t; Status : string;
    Total : float; CreatedAt : Z; UpdatedAt : Z;
    PaymentID : string; ShippingID : string }.
End Order.

(** user-service: [type LoginRequest struct]. *)
Module LoginRequest.
Record t : Type := mk { Email : string; Password : string }.
End LoginRequest.

(** user-service: [type RegisterRequest struct]. *)
Module RegisterRequest.
Record t : Type := mk { Email : string; Name : string; Password : string }.
End RegisterRequest.

(** order-service: the anonymous item struct of [CreateOrderRequest]. *)
Module RequestItem.
Record t : Type := mk { ProductID : Z; Quantity : Z }.
End RequestItem.

(** order-service: [type CreateOrderRequest struct]. *)
Module CreateOrderRequest.
Record t : Type := mk { UserID : Z; Items : list RequestItem.t }.
End CreateOrderRequest.

(** product-service: the anonymous request struct of the reserve and
    release handlers. *)
Module InventoryRequest.
Record t : Type := mk { Quantity : Z; OrderID : Z }.
End InventoryRequest.

(** order-service: [type ProductResponse struct]. *)
Module ProductResponse.
Record t : Type := mk { ID : Z; Name : string; Price : float; Stock : Z }.
End ProductResponse.

(** Attribute, log-field and payload values. [VTrace t] is
    [span.SpanContext().TraceID().String()], [VTime t] a [time.Time],
    [VNull] a slice that is [nil] and [VSprintf format args] the string
    [fmt.Sprintf(format, args...)] where its verbs format a [float64]. *)
Inductive Value : Type :=
| VStr (s : string)
| VInt (z : Z)
| VFloat (f : float)
| VBool (b : bool)
| VTrace (t : nat)
| VList (items : list Value)
| VMap (entries : list (string * Value))
| VTime (t : Z)
| VNull
| VSprintf (format : string) (args : list Value).

Definition Fields : Type := list (string * Value).

(** The value under a key: of a field of a log line, of a member of a
    JSON object. *)
Fixpoint field (key : string) (fields : Fields) : option Value :=
  match fields with
  | [] => None
  | (k, v) :: rest => if String.eqb k key then Some v else field key rest
  end.

(** The JSON documents the handlers write with [c.JSON], by shape;
    [JObject] is a [gin.H], or a struct by its [json] tags. *)
Inductive JSON : Type :=
| JError (msg : string)
| JUser (u : User.t)
| JProduct (p : Product.t)
| JOrder (o : Order.t)
| JReserve (product_id reserved_quantity remaining_stock order_id : Z)
    (reservation_id : string)
| JRelease (product_id released_quantity total_stock order_id : Z)
| JLogin (token : string) (user_id : Z) (email name : string)
| JRegister (user_id : Z) (email name message : string)
| JHealth (service : string) (trace : nat)
| JObject (fields : Fields)
| JNone.

(** An HTTP response: status code and body. *)
Record Response : Type := mkResponse { StatusCode : Z; Body : JSON }.

Module http.
Definition StatusOK : Z := 200.
Definition StatusCreated : Z := 201.
Definition StatusAccepted : Z := 202.
Definition StatusBadRequest : Z := 400.
Definition StatusUnauthorized : Z := 401.
Definition StatusPaymentRequired : Z := 402.
Definition StatusNotFound : Z := 404.
Definition StatusConflict : Z := 409.
Definition StatusUnprocessableEntity : Z := 422.
Definition StatusInternalServerError : Z := 500.
Definition StatusServiceUnavailable : Z := 503.
End http.

(* ================================================================== *)
(** ** Effects *)

(** A span handle: its own identifier and the trace it belongs to. *)
Record Span : Type := mkSpan { span_id : nat; trace_id : nat }.

(** A [context.Context], reduced to the span that is active in it. *)
Definition Ctx : Type := option Span.

Inductive Level : Type := InfoLevel | WarnLevel | ErrorLevel.

(** A request URL: scheme, host and port, then the path by segment
    (a query string stays with the last segment). *)
Record URL : Type := mkURL { Host : string; Path : list string }.

Definition url_String (u : URL) : string :=
  Host u ++ fold_right (fun seg rest => "/" ++ seg ++ rest) "" (Path u).

(** The in-memory tables of the three services. *)
Inductive Table : Type := UsersTable | ProductsTable | OrdersTable.

(** What a process does that an observer can see.  [MutexLock] and
    [MutexUnlock] stand for [sync.Mutex] calls around a table; the
    services declare no mutex, so no operation below emits them. *)
Inductive Event : Type :=
| SpanStart (s : Span) (parent : option nat) (name : string)
| SpanAttr (s : Span) (key : string) (v : Value)
| SpanEnd (s : Span)
| LogLine (lvl : Level) (msg : string) (fields : Fields)
| HTTPDo (method : string) (url : URL)
| HTTPGet (url : URL)
| HTTPResult (url : URL) (status : option Z)
| Store (t : Table)
| MutexLock (t : Table)
| MutexUnlock (t : Table)
| Sleep (milliseconds : Z)
| Spawn (name : string).

(** The state all processes run in.  [events] and [ginWrites] are kept
    newest first.  The oracles are read at position [tick]: [randSrc]
    (random draws), [netSrc] (does a request between two services reach
    its peer), [peerSrc] (what a request of the traffic generator is
    answered: a status code, or a transport error), [clockSrc] (the
    clock), [signSrc] (the result of signing a token) and [schedSrc]
    (which goroutine runs next). *)
Record World : Type := mkWorld
  { users : list User.t;
    products : list Product.t;
    orders : list Order.t;
    orderCounter : Z;
    events : list Event;
    ginWrites : list Response;
    nextID : nat;
    tick : nat;
    randSrc : nat -> Z;
    netSrc : nat -> bool;
    peerSrc : nat -> option Z;
    clockSrc : nat -> Z;
    signSrc : nat -> option string;
    schedSrc : nat -> nat }.

Definition set_users (v : list User.t) (w : World) : World :=
  mkWorld v (products w) (orders w) (orderCounter w) (events w)
    (ginWrites w) (nextID w) (tick w) (randSrc w) (netSrc w) (peerSrc w)
    (clockSrc w) (signSrc w) (schedSrc w).

Definition set_products (v : list Product.t) (w : World) : World :=
  mkWorld (users w) v (orders w) (orderCounter w) (events w)
    (ginWrites w) (nextID w) (tick w) (randSrc w) (netSrc w) (peerSrc w)
    (clockSrc w) (signSrc w) (schedSrc w).

Definition set_orders (v : list Order.t) (w : World) : World :=
  mkWorld (users w) (products w) v (orderCounter w) (events w)
    (ginWrites w) (nextID w) (tick w) (randSrc w) (netSrc w) (peerSrc w)
    (clockSrc w) (signSrc w) (schedSrc w).

Definition set_orderCounter (v : Z) (w : World) : World :=
  mkWorld (users w) (products w) (orders w) v (events w)
    (ginWrites w) (nextID w) (tick w) (randSrc w) (netSrc w) (peerSrc w)
    (clockSrc w) (signSrc w) (schedSrc w).

Definition set_events (v : list Event) (w : World) : World :=
  mkWorld (users w) (products w) (orders w) (orderCounter w) v
    (ginWrites w) (nextID w) (tick w) (randSrc w) (netSrc w) (peerSrc w)
    (clockSrc w) (signSrc w) (schedSrc w).

Definition set_ginWrites (v : list Response) (w : World) : World :=
  mkWorld (users w) (products w) (orders w) (orderCounter w) (events w)
    v (nextID w) (tick w) (randSrc w) (netSrc w) (peerSrc w)
    (clockSrc w) (signSrc w) (schedSrc w).

Definition set_nextID (v : nat) (w : World) : World :=
  mkWorld (users w) (products w) (orders w) (orderCounter w) (events w)
    (ginWrites w) v (tick w) (randSrc w) (netSrc w) (peerSrc w)
    (clockSrc w) (signSrc w) (schedSrc w).

Definition set_tick (v : nat) (w : World) : World :=
  mkWorld (users w) (products w) (orders w) (orderCounter w) (events w)
    (ginWrites w) (nextID w) v (randSrc w) (netSrc w) (peerSrc w)
    (clockSrc w) (signSrc w) (schedSrc w).

(** The events in the order they happened. *)
Definition history (w : World) : list Event := rev (events w).

(* ================================================================== *)
(** ** The monad of Go function bodies

    A statement either falls through to the next one ([Next]), leaves
    the enclosing function with its result ([Return]), or panics.
    [Running] is the outcome of a loop without an exit that was observed
    for a bounded number of rounds: the function has not been left. *)

Inductive flow (R A : Type) : Type :=
| Next (a : A)
| Return (r : R)
| Panic
| Running.

Arguments Next {R A} a.
Arguments Return {R A} r.
Arguments Panic {R A}.
Arguments Running {R A}.

Definition Go (R A : Type) : Type := World -> flow R A * World.

Definition ret {R A} (a : A) : Go R A := fun w => (Next a, w).

Definition bind {R A B} (m : Go R A) (k : A -> Go R B) : Go R B :=
  fun w =>
    match m w with
    | (Next a, w') => k a w'
    | (Return r, w') => (Return r, w')
    | (Panic, w') => (Panic, w')
    | (Running, w') => (Running, w')
    end.

(** The [return] statement. *)
Definition return_ {R A} (r : R) : Go R A := fun w => (Return r, w).

Definition panic {R A} : Go R A := fun w => (Panic, w).

Definition gets {R A} (f : World -> A) : Go R A := fun w => (Next (f w), w).

(** Dereferencing a pointer: [nil] panics. *)
Definition deref {R A} (p : option A) : Go R A :=
  fun w => match p with Some a => (Next a, w) | None => (Panic, w) end.

Definition modify {R} (f : World -> World) : Go R unit :=
  fun w => (Next tt, f w).

Definition emit {R} (e : Event) : Go R unit :=
  modify (fun w => set_events (e :: events w) w).

(** [defer d] followed by the rest of the function body: [d] runs when
    the function is left, whichever way the rest leaves it (falling off
    the end, [return] or a panic). *)
Definition with_defer {R A} (d : Go unit unit) (rest : Go R A) : Go R A :=
  fun w =>
    match rest w with
    | (Running, w') => (Running, w')
    | (r, w') =>
        match d w' with
        | (Panic, w'') => (Panic, w'')
        | (Running, w'') => (Running, w'')
        | (_, w'') => (r, w'')
        end
    end.

(** A call: the callee's [return] becomes the value of the call
    expression; falling off the end of the body returns its last value. *)
Definition call {R R'} (body : Go R R) : Go R' R :=
  fun w =>
    match body w with
    | (Next r, w') => (Next r, w')
    | (Return r, w') => (Next r, w')
    | (Panic, w') => (Panic, w')
    | (Running, w') => (Running, w')
    end.

Declare Scope go_scope.
Delimit Scope go_scope with go.
Notation "x <- m ;; k" := (bind m (fun x => k))
  (at level 61, m at next level, right associativity) : go_scope.
Notation "' pat <- m ;; k" := (bind m (fun x => match x with pat => k end))
  (at level 61, pat pattern, m at next level, right associativity) : go_scope.
Notation "m ;; k" := (bind m (fun _ => k))
  (at level 61, right associativity) : go_scope.
Notation "'defer' d ;; k" := (with_defer d k)
  (at level 61, d at next level, right associativity) : go_scope.
Open Scope go_scope.

(** [for i, x := range xs { body }]. *)
Fixpoint for_range_from {R T} (i : nat) (xs : list T)
    (body : nat -> T -> Go R unit) : Go R unit :=
  match xs with
  | [] => ret tt
  | x :: rest => body i x ;; for_range_from (S i) rest body
  end.

Definition for_range {R T} (xs : list T) (body : nat -> T -> Go R unit)
    : Go R unit :=
  for_range_from 0%nat xs body.

(** Reading an oracle advances [tick]. *)
Definition next_tick {R} : Go R nat :=
  fun w => (Next (tick w), set_tick (S (tick w)) w).

(** [rand.Intn(n)] for a positive constant [n]. *)
Definition rand_Intn {R} (n : Z) : Go R Z :=
  t <- next_tick ;;
  src <- gets randSrc ;;
  ret (src t mod n).

(** [rand.Float64()]. *)
Definition rand_Float64 {R} : Go R float :=
  t <- next_tick ;;
  src <- gets randSrc ;;
  ret (PrimFloat.div (GoInt.to_float64 (src t mod 2 ^ 53))
         (GoInt.to_float64 (2 ^ 53))).

(** [xs[i]] as an operand; an index out of range panics. *)
Definition at_index {R T} (xs : list T) (i : Z) : Go R T :=
  if i <? 0 then panic
  else match nth_error xs (Z.to_nat i) with
       | Some x => ret x
       | None => panic
       end.

(** [time.Now()], as a number. *)
Definition time_Now {R} : Go R Z :=
  t <- next_tick ;;
  src <- gets clockSrc ;;
  ret (src t).

Definition time_Sleep {R} (milliseconds : Z) : Go R unit :=
  emit (Sleep milliseconds).

(* ------------------------------------------------------------------ *)
(** *** OpenTelemetry: tracer and spans *)

Definition fresh_id {R} : Go R nat :=
  fun w => (Next (nextID w), set_nextID (S (nextID w)) w).

(** [tracer.Start(ctx, name)]: a child of the span active in [ctx], in
    its trace; the root span of a fresh trace when there is none.  Span
    and trace identifiers are separate name spaces, so a root span takes
    the same fresh number for both. *)
Definition tracer_Start {R} (ctx : Ctx) (name : string) : Go R (Ctx * Span) :=
  n <- fresh_id ;;
  let s :=
    mkSpan n (match ctx with Some parent => trace_id parent | None => n end) in
  emit (SpanStart s (option_map span_id ctx) name) ;;
  ret (Some s, s).

Definition span_End {R} (s : Span) : Go R unit := emit (SpanEnd s).

Fixpoint span_SetAttributes {R} (s : Span) (kvs : Fields) : Go R unit :=
  match kvs with
  | [] => ret tt
  | (k, v) :: rest => emit (SpanAttr s k v) ;; span_SetAttributes s rest
  end.

Definition TraceID (s : Span) : Value := VTrace (trace_id s).

(* ------------------------------------------------------------------ *)
(** *** otelhttp: the transport of [httpClient]

    Every [httpClient] of the sources is built on
    [otelhttp.NewTransport]: around each request it sends, the
    transport starts a client span named after the method, child of the
    span of the request's context, puts the context of that span in the
    headers of the request, and sets the status code of the response on
    it.  The span is ended by the transport when the request fails, and
    otherwise by the body of the response, when it is read to its end
    or closed. *)

Definition otelhttp_Start {R} (ctx : Ctx) (method : string)
    : Go R (Ctx * Span) :=
  tracer_Start ctx ("HTTP " ++ method).

(** The body of a response, reduced to the client span it holds. *)
Definition ReadCloser : Type := Span.

(** [resp.Body.Close()], where the source defers it: the client span
    ends when the function is left.  A body that is decoded before is
    taken not to have ended its span by then. *)
Definition Body_Close {R} (body : ReadCloser) : Go R unit := span_End body.

(** [io.Copy(io.Discard, resp.Body)]: the body is read to its end. *)
Definition io_Copy_Discard {R} (body : ReadCloser) : Go R unit :=
  span_End body.

(* ------------------------------------------------------------------ *)
(** *** logrus *)

(** [logrus.WithFields(fields).<Level>(msg)]; the level is set to Info in
    every [init], so the three levels used are all written. *)
Definition logrus_log {R} (lvl : Level) (fields : Fields) (msg : string)
    : Go R unit :=
  emit (LogLine lvl msg fields).

Definition logrus_Info {R} := @logrus_log R InfoLevel.
Definition logrus_Warn {R} := @logrus_log R WarnLevel.
Definition logrus_Error {R} := @logrus_log R ErrorLevel.

(* ------------------------------------------------------------------ *)
(** *** gin *)

(** [c.JSON(code, body)]. *)
Definition c_JSON {R} (code : Z) (body : JSON) : Go R unit :=
  modify (fun w => set_ginWrites (mkResponse code body :: ginWrites w) w).

(** The response a client receives: what the handler chain wrote first,
    and an empty 200 if it wrote nothing. *)
Definition response_of (writes : list Response) : Response :=
  last writes (mkResponse http.StatusOK JNone).

(** What a request carries besides its route: the trace context
    propagated in its headers, and what the access log reads. *)
Record RequestInfo : Type := mkRequestInfo
  { Propagated : Ctx; ClientIP : string; UserAgent : string;
    RequestID : string }.

(** [otelgin.Middleware(service)]: a server span around the rest of the
    chain, child of the propagated context, ended when the chain is left. *)
Definition otelgin_Middleware (info : RequestInfo) (path : string)
    (next : Ctx -> Go unit unit) : Go unit unit :=
  ' (ctx, span) <- tracer_Start (Propagated info) path ;;
  defer span_End span ;;
  call (next ctx) ;;
  code <- gets (fun w => StatusCode (response_of (ginWrites w))) ;;
  span_SetAttributes span [("http.status_code", VInt code)].

(** One request through a [gin] engine: a fresh response writer, the
    handler chain, and the response read back. *)
Definition gin_serve {R} (chain : Go unit unit) : Go R Response :=
  saved <- gets ginWrites ;;
  modify (set_ginWrites []) ;;
  call chain ;;
  written <- gets ginWrites ;;
  modify (set_ginWrites saved) ;;
  ret (response_of written).

(** What a client receives of a peer whose handler chain panics:
    [gin.Recovery], the outermost middleware of every engine, recovers
    the panic and answers 500. *)
Definition recovered {R} (served : Go R Response) : Go R Response :=
  fun w =>
    match served w with
    | (Panic, w') =>
        (Next (mkResponse http.StatusInternalServerError JNone), w')
    | other => other
    end.

(** [httpClient.Do(req)] for a request to a peer.  The transport oracle
    says whether the request reaches its peer; one that does is served
    by the peer's engine, in the context of the client span, and the
    response comes back with its body. *)
Definition httpClient_Do {R} (ctx : Ctx) (method : string) (url : URL)
    (peer : Ctx -> Go R Response) : Go R (option (Response * ReadCloser)) :=
  ' (clientCtx, client) <- otelhttp_Start ctx method ;;
  emit (HTTPDo method url) ;;
  t <- next_tick ;;
  reaches <- gets netSrc ;;
  if reaches t then
    resp <- recovered (peer clientCtx) ;;
    span_SetAttributes client
      [("http.status_code", VInt (StatusCode resp))] ;;
    ret (Some (resp, client))
  else
    span_End client ;;
    ret None.

(* ================================================================== *)
(** ** product-service *)

Module ProductService.

Definition serviceName : string := "product-service".

(** [var products = []Product{...}]. *)
Definition initial_products : list Product.t :=
  [ Product.mk 1 "Laptop Gaming" "High-performance gaming laptop"
      1299.99%float "Electronics" 15 "https://example.com/laptop.jpg";
    Product.mk 2 "Smartphone Pro" "Latest smartphone with AI camera"
      899.99%float "Electronics" 8 "https://example.com/phone.jpg";
    Product.mk 3 "Running Shoes" "Professional running shoes"
      159.99%float "Sports" 25 "https://example.com/shoes.jpg";
    Product.mk 4 "Coffee Maker" "Automatic espresso machine"
      299.99%float "Home" 12 "https://example.com/coffee.jpg";
    Product.mk 5 "Wireless Headphones" "Noise-cancelling headphones"
      199.99%float "Electronics" 20 "https://example.com/headphones.jpg";
    Product.mk 6 "Yoga Mat" "Premium yoga mat"
      49.99%float "Sports" 30 "https://example.com/yoga.jpg";
    Product.mk 7 "Smart Watch" "Fitness tracking smartwatch"
      249.99%float "Electronics" 5 "https://example.com/watch.jpg";
    Product.mk 8 "Backpack" "Travel backpack"
      79.99%float "Travel" 18 "https://example.com/backpack.jpg" ].

Definition with_Stock (v : Z) (p : Product.t) : Product.t :=
  Product.mk (Product.ID p) (Product.Name p) (Product.Description p)
    (Product.Price p) (Product.Category p) v (Product.ImageURL p).

Fixpoint replace_nth {T} (i : nat) (v : T) (xs : list T) : list T :=
  match xs, i with
  | [], _ => []
  | _ :: rest, O => v :: rest
  | x :: rest, S j => x :: replace_nth j v rest
  end.

(** [products[i]] as an operand; out of range panics. *)
Definition products_at {R} (i : nat) : Go R Product.t :=
  ps <- gets products ;;
  match nth_error ps i with
  | Some p => ret p
  | None => panic
  end.

(** [products[i].Stock = v]: a store to the table, with no lock around it. *)
Definition products_set_Stock {R} (i : nat) (v : Z) : Go R unit :=
  p <- products_at i ;;
  emit (Store ProductsTable) ;;
  modify (fun w =>
    set_products (replace_nth i (with_Stock v p) (products w)) w).

(** [loggingMiddleware]: after the rest of the chain, one Info line. *)
Definition loggingMiddleware (info : RequestInfo) (method path : string)
    (next : Go unit unit) : Go unit unit :=
  start <- time_Now ;;
  call next ;;
  stop <- time_Now ;;
  code <- gets (fun w => StatusCode (response_of (ginWrites w))) ;;
  logrus_Info
    [ ("service", VStr serviceName);
      ("method", VStr method);
      ("path", VStr path);
      ("status", VInt code);
      ("latency", VInt (stop - start));
      ("client_ip", VStr (ClientIP info));
      ("user_agent", VStr (UserAgent info));
      ("request_id", VStr (RequestID info)) ]
    "HTTP request".

(** [getProductHandler]; [id] is [c.Param("id")]. *)
Definition getProductHandler (ctx : Ctx) (id : string) : Go unit unit :=
  ' (_, span) <- tracer_Start ctx "get_product" ;;
  defer span_End span ;;
  match strconv.Atoi id with
  | None =>
      span_SetAttributes span [("error", VStr "invalid_product_id")] ;;
      c_JSON http.StatusBadRequest (JError "Invalid product ID") ;;
      return_ tt
  | Some productID =>
      span_SetAttributes span
        [ ("product.id", VInt productID);
          ("endpoint", VStr "/products/:id") ] ;;
      ps <- gets products ;;
      for_range ps (fun _ product =>
        if Product.ID product =? productID then
          logrus_Info
            [ ("service", VStr serviceName);
              ("endpoint", VStr "/products/:id");
              ("product_id", VInt productID);
              ("trace_id", TraceID span) ]
            "Product retrieved successfully" ;;
          c_JSON http.StatusOK (JProduct product) ;;
          return_ tt
        else ret tt) ;;
      span_SetAttributes span [("error", VStr "product_not_found")] ;;
      logrus_Warn
        [ ("service", VStr serviceName);
          ("endpoint", VStr "/products/:id");
          ("product_id", VInt productID);
          ("error", VStr "product_not_found");
          ("trace_id", TraceID span) ]
        "Product not found" ;;
      c_JSON http.StatusNotFound (JError "Product not found")
  end.

(** [reserveInventoryHandler]; [body] is the request as bound by
    [c.ShouldBindJSON], [None] when binding fails. *)
Definition reserveInventoryHandler (ctx : Ctx) (id : string)
    (body : option InventoryRequest.t) : Go unit unit :=
  ' (_, span) <- tracer_Start ctx "reserve_inventory" ;;
  defer span_End span ;;
  match strconv.Atoi id with
  | None =>
      span_SetAttributes span [("error", VStr "invalid_product_id")] ;;
      c_JSON http.StatusBadRequest (JError "Invalid product ID") ;;
      return_ tt
  | Some productID =>
  match body with
  | None =>
      span_SetAttributes span [("error", VStr "invalid_request")] ;;
      c_JSON http.StatusBadRequest (JError "Invalid request") ;;
      return_ tt
  | Some request =>
      let Quantity := InventoryRequest.Quantity request in
      let OrderID := InventoryRequest.OrderID request in
      span_SetAttributes span
        [ ("product.id", VInt productID);
          ("quantity", VInt Quantity);
          ("order.id", VInt OrderID);
          ("endpoint", VStr "/inventory/:id/reserve") ] ;;
      ps <- gets products ;;
      for_range ps (fun i product =>
        if Product.ID product =? productID then
          if Product.Stock product <? Quantity then
            span_SetAttributes span [("error", VStr "insufficient_stock")] ;;
            logrus_Warn
              [ ("service", VStr serviceName);
                ("endpoint", VStr "/inventory/:id/reserve");
                ("product_id", VInt productID);
                ("order_id", VInt OrderID);
                ("requested", VInt Quantity);
                ("available", VInt (Product.Stock product));
                ("error", VStr "insufficient_stock");
                ("trace_id", TraceID span) ]
              "Insufficient stock for reservation" ;;
            c_JSON http.StatusConflict (JError "Insufficient stock") ;;
            return_ tt
          else
            cur <- products_at i ;;
            products_set_Stock i (GoInt.sub (Product.Stock cur) Quantity) ;;
            now_ <- products_at i ;;
            span_SetAttributes span
              [ ("inventory.reserved", VInt Quantity);
                ("inventory.remaining", VInt (Product.Stock now_)) ] ;;
            logrus_Info
              [ ("service", VStr serviceName);
                ("endpoint", VStr "/inventory/:id/reserve");
                ("product_id", VInt productID);
                ("order_id", VInt OrderID);
                ("quantity", VInt Quantity);
                ("remaining", VInt (Product.Stock now_));
                ("trace_id", TraceID span) ]
              "Inventory reserved successfully" ;;
            c_JSON http.StatusOK
              (JReserve productID Quantity (Product.Stock now_) OrderID
                 ("RES-" ++ strconv.Itoa productID ++ "-"
                    ++ strconv.Itoa OrderID)) ;;
            return_ tt
        else ret tt) ;;
      span_SetAttributes span [("error", VStr "product_not_found")] ;;
      c_JSON http.StatusNotFound (JError "Product not found")
  end
  end.

(** [releaseInventoryHandler]. *)
Definition releaseInventoryHandler (ctx : Ctx) (id : string)
    (body : option InventoryRequest.t) : Go unit unit :=
  ' (_, span) <- tracer_Start ctx "release_inventory" ;;
  defer span_End span ;;
  match strconv.Atoi id with
  | None =>
      span_SetAttributes span [("error", VStr "invalid_product_id")] ;;
      c_JSON http.StatusBadRequest (JError "Invalid product ID") ;;
      return_ tt
  | Some productID =>
  match body with
  | None =>
      span_SetAttributes span [("error", VStr "invalid_request")] ;;
      c_JSON http.StatusBadRequest (JError "Invalid request") ;;
      return_ tt
  | Some request =>
      let Quantity := InventoryRequest.Quantity request in
      let OrderID := InventoryRequest.OrderID request in
      span_SetAttributes span
        [ ("product.id", VInt productID);
          ("quantity", VInt Quantity);
          ("endpoint", VStr "/inventory/:id/release") ] ;;
      ps <- gets products ;;
      for_range ps (fun i product =>
        if Product.ID product =? productID then
          cur <- products_at i ;;
          products_set_Stock i (GoInt.add (Product.Stock cur) Quantity) ;;
          now_ <- products_at i ;;
          span_SetAttributes span
            [ ("inventory.released", VInt Quantity);
              ("inventory.total", VInt (Product.Stock now_)) ] ;;
          logrus_Info
            [ ("service", VStr serviceName);
              ("endpoint", VStr "/inventory/:id/release");
              ("product_id", VInt productID);
              ("order_id", VInt OrderID);
              ("quantity", VInt Quantity);
              ("new_total", VInt (Product.Stock now_));
              ("trace_id", TraceID span) ]
            "Inventory released successfully" ;;
          c_JSON http.StatusOK
            (JRelease productID Quantity (Product.Stock now_) OrderID) ;;
          return_ tt
        else ret tt) ;;
      span_SetAttributes span [("error", VStr "product_not_found")] ;;
      c_JSON http.StatusNotFound (JError "Product not found")
  end
  end.

(** Three routes of [main]; the others are in [ProductRoutes]. *)
Inductive Route : Type :=
| GET_products_id (id : string)
| POST_inventory_id_reserve (id : string) (body : option InventoryRequest.t)
| POST_inventory_id_release (id : string) (body : option InventoryRequest.t).

Definition route_method (r : Route) : string :=
  match r with
  | GET_products_id _ => "GET"
  | POST_inventory_id_reserve _ _ => "POST"
  | POST_inventory_id_release _ _ => "POST"
  end.

Definition route_pattern (r : Route) : string :=
  match r with
  | GET_products_id _ => "/products/:id"
  | POST_inventory_id_reserve _ _ => "/inventory/:id/reserve"
  | POST_inventory_id_release _ _ => "/inventory/:id/release"
  end.

Definition route_path (r : Route) : string :=
  match r with
  | GET_products_id id => "/products/" ++ id
  | POST_inventory_id_reserve id _ => "/inventory/" ++ id ++ "/reserve"
  | POST_inventory_id_release id _ => "/inventory/" ++ id ++ "/release"
  end.

Definition handler (r : Route) (ctx : Ctx) : Go unit unit :=
  match r with
  | GET_products_id id => getProductHandler ctx id
  | POST_inventory_id_reserve id body => reserveInventoryHandler ctx id body
  | POST_inventory_id_release id body => releaseInventoryHandler ctx id body
  end.

(** A request through the engine of [main]:
    [otelgin.Middleware], [loggingMiddleware], then the handler. *)
Definition serve {R} (info : RequestInfo) (r : Route) : Go R Response :=
  gin_serve
    (otelgin_Middleware info (route_pattern r) (fun ctx =>
       loggingMiddleware info (route_method r) (route_path r)
         (handler r ctx))).

End ProductService.

(* ================================================================== *)
(** ** user-service *)

Module UserService.

Definition serviceName : string := "user-service".

(** [var users = []User{...}]. *)
Definition initial_users : list User.t :=
  [ User.mk 1 "john@example.com" "John Doe" "password123";
    User.mk 2 "jane@example.com" "Jane Smith" "password123";
    User.mk 3 "alice@example.com" "Alice Johnson" "password123" ].

Definition with_Password (v : string) (u : User.t) : User.t :=
  User.mk (User.ID u) (User.Email u) (User.Name u) v.

(** [loggingMiddleware]: after the rest of the chain, one Info line. *)
Definition loggingMiddleware (info : RequestInfo) (method path : string)
    (next : Go unit unit) : Go unit unit :=
  start <- time_Now ;;
  call next ;;
  stop <- time_Now ;;
  code <- gets (fun w => StatusCode (response_of (ginWrites w))) ;;
  logrus_Info
    [ ("service", VStr serviceName);
      ("method", VStr method);
      ("path", VStr path);
      ("status", VInt code);
      ("latency", VInt (stop - start));
      ("client_ip", VStr (ClientIP info));
      ("user_agent", VStr (UserAgent info));
      ("request_id", VStr (RequestID info)) ]
    "HTTP request".

(** [token.SignedString([]byte(jwtSecret))] of a token with the claims
    [user_id], [email] and [exp]: the signed string, or [None] for an
    error. *)
Definition SignedString {R} (user_id : Z) (email : string) (exp : Z)
    : Go R (option string) :=
  t <- next_tick ;;
  src <- gets signSrc ;;
  ret (src t).

(** The credentials test of the login loop. *)
Definition credentials_match (req : LoginRequest.t) (u : User.t) : bool :=
  String.eqb (User.Email u) (LoginRequest.Email req)
  && String.eqb (User.Password u) (LoginRequest.Password req).

(** [loginHandler]; [body] is the request as bound by
    [c.ShouldBindJSON], [None] when binding fails. *)
Definition loginHandler (ctx : Ctx) (body : option LoginRequest.t)
    : Go unit unit :=
  ' (_, span) <- tracer_Start ctx "user_login" ;;
  defer span_End span ;;
  match body with
  | None =>
      span_SetAttributes span [("error", VStr "invalid_request")] ;;
      logrus_Error
        [ ("service", VStr serviceName);
          ("endpoint", VStr "/auth/login");
          ("error", VStr "invalid_request");
          ("trace_id", TraceID span) ]
        "Invalid login request" ;;
      c_JSON http.StatusBadRequest (JError "Invalid request") ;;
      return_ tt
  | Some req =>
      span_SetAttributes span
        [ ("user.email", VStr (LoginRequest.Email req));
          ("endpoint", VStr "/auth/login") ] ;;
      draw <- rand_Intn 100 ;;
      if draw <? 15 then
        span_SetAttributes span
          [("error", VStr "database_connection_failed")] ;;
        logrus_Error
          [ ("service", VStr serviceName);
            ("endpoint", VStr "/auth/login");
            ("email", VStr (LoginRequest.Email req));
            ("error", VStr "database_connection_failed");
            ("trace_id", TraceID span) ]
          "Database connection failed during login" ;;
        c_JSON http.StatusInternalServerError
          (JError "Internal server error") ;;
        return_ tt
      else
      (* for _, u := range users { if ... { user = &u; break } } *)
      us <- gets users ;;
      match find (credentials_match req) us with
      | None =>
          span_SetAttributes span [("error", VStr "invalid_credentials")] ;;
          logrus_Warn
            [ ("service", VStr serviceName);
              ("endpoint", VStr "/auth/login");
              ("email", VStr (LoginRequest.Email req));
              ("error", VStr "invalid_credentials");
              ("trace_id", TraceID span) ]
            "Invalid login attempt" ;;
          c_JSON http.StatusUnauthorized (JError "Invalid credentials") ;;
          return_ tt
      | Some user =>
          now_ <- time_Now ;;
          signed <- SignedString (User.ID user) (User.Email user)
                      (now_ + 24 * 3600) ;;
          match signed with
          | None =>
              span_SetAttributes span
                [("error", VStr "token_generation_failed")] ;;
              logrus_Error
                [ ("service", VStr serviceName);
                  ("error", VStr "token_generation_failed");
                  ("trace_id", TraceID span) ]
                "Failed to generate JWT token" ;;
              c_JSON http.StatusInternalServerError
                (JError "Internal server error") ;;
              return_ tt
          | Some tokenString =>
              span_SetAttributes span [("user.id", VInt (User.ID user))] ;;
              logrus_Info
                [ ("service", VStr serviceName);
                  ("endpoint", VStr "/auth/login");
                  ("user_id", VInt (User.ID user));
                  ("email", VStr (User.Email user));
                  ("trace_id", TraceID span) ]
                "User logged in successfully" ;;
              c_JSON http.StatusOK
                (JLogin tokenString (User.ID user) (User.Email user)
                   (User.Name user))
          end
      end
  end.

(** [registerHandler]. *)
Definition registerHandler (ctx : Ctx) (body : option RegisterRequest.t)
    : Go unit unit :=
  ' (_, span) <- tracer_Start ctx "user_register" ;;
  defer span_End span ;;
  match body with
  | None =>
      span_SetAttributes span [("error", VStr "invalid_request")] ;;
      c_JSON http.StatusBadRequest (JError "Invalid request") ;;
      return_ tt
  | Some req =>
      span_SetAttributes span
        [ ("user.email", VStr (RegisterRequest.Email req));
          ("endpoint", VStr "/auth/register") ] ;;
      us <- gets users ;;
      for_range us (fun _ u =>
        if String.eqb (User.Email u) (RegisterRequest.Email req) then
          span_SetAttributes span [("error", VStr "user_already_exists")] ;;
          logrus_Warn
            [ ("service", VStr serviceName);
              ("endpoint", VStr "/auth/register");
              ("email", VStr (RegisterRequest.Email req));
              ("error", VStr "user_already_exists");
              ("trace_id", TraceID span) ]
            "Attempt to register existing user" ;;
          c_JSON http.StatusConflict (JError "User already exists") ;;
          return_ tt
        else ret tt) ;;
      len <- gets (fun w => Z.of_nat (List.length (users w))) ;;
      let newUser :=
        User.mk (len + 1) (RegisterRequest.Email req)
          (RegisterRequest.Name req) (RegisterRequest.Password req) in
      (* users = append(users, newUser): a store with no lock around it *)
      emit (Store UsersTable) ;;
      modify (fun w => set_users (users w ++ [newUser])%list w) ;;
      span_SetAttributes span [("user.id", VInt (User.ID newUser))] ;;
      logrus_Info
        [ ("service", VStr serviceName);
          ("endpoint", VStr "/auth/register");
          ("user_id", VInt (User.ID newUser));
          ("email", VStr (User.Email newUser));
          ("trace_id", TraceID span) ]
        "User registered successfully" ;;
      c_JSON http.StatusCreated
        (JRegister (User.ID newUser) (User.Email newUser)
           (User.Name newUser) "User created successfully")
  end.

(** [getUserHandler]; [id] is [c.Param("id")]. *)
Definition getUserHandler (ctx : Ctx) (id : string) : Go unit unit :=
  ' (_, span) <- tracer_Start ctx "get_user" ;;
  defer span_End span ;;
  match strconv.Atoi id with
  | None =>
      span_SetAttributes span [("error", VStr "invalid_user_id")] ;;
      c_JSON http.StatusBadRequest (JError "Invalid user ID") ;;
      return_ tt
  | Some userID =>
      span_SetAttributes span
        [ ("user.id", VInt userID);
          ("endpoint", VStr "/users/:id") ] ;;
      us <- gets users ;;
      for_range us (fun _ user =>
        if User.ID user =? userID then
          logrus_Info
            [ ("service", VStr serviceName);
              ("endpoint", VStr "/users/:id");
              ("user_id", VInt userID);
              ("trace_id", TraceID span) ]
            "User retrieved successfully" ;;
          (* user.Password = "": the loop's copy, not the table *)
          let user := with_Password "" user in
          c_JSON http.StatusOK (JUser user) ;;
          return_ tt
        else ret tt) ;;
      span_SetAttributes span [("error", VStr "user_not_found")] ;;
      logrus_Warn
        [ ("service", VStr serviceName);
          ("endpoint", VStr "/users/:id");
          ("user_id", VInt userID);
          ("error", VStr "user_not_found");
          ("trace_id", TraceID span) ]
        "User not found" ;;
      c_JSON http.StatusNotFound (JError "User not found")
  end.

(** Three routes of [main]; the others are in [UserRoutes]. *)
Inductive Route : Type :=
| POST_auth_login (body : option LoginRequest.t)
| POST_auth_register (body : option RegisterRequest.t)
| GET_users_id (id : string).

Definition route_method (r : Route) : string :=
  match r with
  | POST_auth_login _ => "POST"
  | POST_auth_register _ => "POST"
  | GET_users_id _ => "GET"
  end.

Definition route_pattern (r : Route) : string :=
  match r with
  | POST_auth_login _ => "/auth/login"
  | POST_auth_register _ => "/auth/register"
  | GET_users_id _ => "/users/:id"
  end.

Definition route_path (r : Route) : string :=
  match r with
  | POST_auth_login _ => "/auth/login"
  | POST_auth_register _ => "/auth/register"
  | GET_users_id id => "/users/" ++ id
  end.

Definition handler (r : Route) (ctx : Ctx) : Go unit unit :=
  match r with
  | POST_auth_login body => loginHandler ctx body
  | POST_auth_register body => registerHandler ctx body
  | GET_users_id id => getUserHandler ctx id
  end.

(** A request through the engine of [main]:
    [otelgin.Middleware], [loggingMiddleware], then the handler. *)
Definition serve {R} (info : RequestInfo) (r : Route) : Go R Response :=
  gin_serve
    (otelgin_Middleware info (route_pattern r) (fun ctx =>
       loggingMiddleware info (route_method r) (route_path r)
         (handler r ctx))).

(** Whether the JSON written for a user carries a ["password"] key:
    the field is tagged [omitempty]. *)
Definition json_has_password (body : JSON) : bool :=
  match body with
  | JUser u => negb (String.eqb (User.Password u) "")
  | _ => false
  end.

End UserService.

(* ================================================================== *)
(** ** order-service *)

Module OrderService.

Definition serviceName : string := "order-service".

(** A Go [error] value: [None] is [nil]. *)
Definition error : Type := option string.

Definition user_service : string := "http://user-service:8081".
Definition product_service : string := "http://product-service:8082".

(** What the access log of a peer reads of a request sent by
    [httpClient]; [ctx] is what the propagator injected. *)
Definition outbound (ctx : Ctx) : RequestInfo :=
  mkRequestInfo ctx "order-service" "Go-http-client/1.1" "".

(** [httpClient.Do(req)] for a request to the user service. *)
Definition httpClient_Do_user {R} (ctx : Ctx) (r : UserService.Route)
    (url : URL) : Go R (option (Response * ReadCloser)) :=
  httpClient_Do ctx (UserService.route_method r) url
    (fun clientCtx => UserService.serve (outbound clientCtx) r).

(** [httpClient.Do(req)] for a request to the product service. *)
Definition httpClient_Do_product {R} (ctx : Ctx) (r : ProductService.Route)
    (url : URL) : Go R (option (Response * ReadCloser)) :=
  httpClient_Do ctx (ProductService.route_method r) url
    (fun clientCtx => ProductService.serve (outbound clientCtx) r).

(** [validateUser]. *)
Definition validateUser (ctx : Ctx) (userID : Z)
    : Go (bool * error) (bool * error) :=
  ' (childCtx, span) <- tracer_Start ctx "validate_user_call" ;;
  defer span_End span ;;
  let url := mkURL user_service ["users"; strconv.Itoa userID] in
  span_SetAttributes span
    [ ("http.method", VStr "GET");
      ("http.url", VStr (url_String url));
      ("user.id", VInt userID) ] ;;
  resp <- httpClient_Do_user childCtx
            (UserService.GET_users_id (strconv.Itoa userID)) url ;;
  match resp with
  | None =>
      span_SetAttributes span [("error", VStr "request_failed")] ;;
      return_ (false, Some "request failed")
  | Some (resp, body) =>
      defer Body_Close body ;;
      span_SetAttributes span
        [("http.status_code", VInt (StatusCode resp))] ;;
      return_ (StatusCode resp =? http.StatusOK, None)
  end.

(** [json.NewDecoder(resp.Body).Decode(&product)]: the keys [id],
    [name], [price] and [stock] of the document fill the struct, the
    other keys are ignored, a missing key leaves the zero value; an
    empty body is an error. *)
Definition decode_ProductResponse (body : JSON) : option ProductResponse.t :=
  match body with
  | JProduct p =>
      Some (ProductResponse.mk (Product.ID p) (Product.Name p)
              (Product.Price p) (Product.Stock p))
  | JUser u => Some (ProductResponse.mk (User.ID u) (User.Name u) 0%float 0)
  | JOrder o => Some (ProductResponse.mk (Order.ID o) "" 0%float 0)
  | JLogin _ _ _ name => Some (ProductResponse.mk 0 name 0%float 0)
  | JRegister _ _ name _ => Some (ProductResponse.mk 0 name 0%float 0)
  | JError _ | JReserve _ _ _ _ _ | JRelease _ _ _ _ | JHealth _ _ =>
      Some (ProductResponse.mk 0 "" 0%float 0)
  | JObject fields =>
      match field "id" fields, field "name" fields, field "price" fields,
            field "stock" fields with
      | (Some (VInt _) | None) as id, (Some (VStr _) | None) as name,
        (Some (VFloat _) | Some (VInt _) | None) as price,
        (Some (VInt _) | None) as stock =>
          Some (ProductResponse.mk
                  match id with Some (VInt z) => z | _ => 0 end
                  match name with Some (VStr n) => n | _ => "" end
                  match price with
                  | Some (VFloat f) => f
                  | Some (VInt z) => GoInt.to_float64 z
                  | _ => 0%float
                  end
                  match stock with Some (VInt z) => z | _ => 0 end)
      | _, _, _, _ => None
      end
  | JNone => None
  end.

(** [getProductDetails]. *)
Definition getProductDetails (ctx : Ctx) (productID : Z)
    : Go (option ProductResponse.t * error)
         (option ProductResponse.t * error) :=
  ' (childCtx, span) <- tracer_Start ctx "get_product_details_call" ;;
  defer span_End span ;;
  let url := mkURL product_service ["products"; strconv.Itoa productID] in
  span_SetAttributes span
    [ ("http.method", VStr "GET");
      ("http.url", VStr (url_String url));
      ("product.id", VInt productID) ] ;;
  resp <- httpClient_Do_product childCtx
            (ProductService.GET_products_id (strconv.Itoa productID)) url ;;
  match resp with
  | None =>
      span_SetAttributes span [("error", VStr "request_failed")] ;;
      return_ (None, Some "request failed")
  | Some (resp, body) =>
      defer Body_Close body ;;
      if negb (StatusCode resp =? http.StatusOK) then
        span_SetAttributes span
          [("http.status_code", VInt (StatusCode resp))] ;;
        return_ (None, Some "product not found")
      else
      match decode_ProductResponse (Body resp) with
      | None =>
          span_SetAttributes span [("error", VStr "decode_failed")] ;;
          return_ (None, Some "decode failed")
      | Some product =>
          span_SetAttributes span
            [ ("product.name", VStr (ProductResponse.Name product));
              ("product.price", VFloat (ProductResponse.Price product)) ] ;;
          return_ (Some product, None)
      end
  end.

(** [reserveInventory]. *)
Definition reserveInventory (ctx : Ctx) (productID quantity orderID : Z)
    : Go (bool * error) (bool * error) :=
  ' (childCtx, span) <- tracer_Start ctx "reserve_inventory_call" ;;
  defer span_End span ;;
  let url :=
    mkURL product_service ["inventory"; strconv.Itoa productID; "reserve"] in
  span_SetAttributes span
    [ ("http.method", VStr "POST");
      ("http.url", VStr (url_String url));
      ("product.id", VInt productID);
      ("quantity", VInt quantity);
      ("order.id", VInt orderID) ] ;;
  let payload := InventoryRequest.mk quantity orderID in
  resp <- httpClient_Do_product childCtx
            (ProductService.POST_inventory_id_reserve
               (strconv.Itoa productID) (Some payload)) url ;;
  match resp with
  | None =>
      span_SetAttributes span [("error", VStr "request_failed")] ;;
      return_ (false, Some "request failed")
  | Some (resp, body) =>
      defer Body_Close body ;;
      span_SetAttributes span
        [("http.status_code", VInt (StatusCode resp))] ;;
      return_ (StatusCode resp =? http.StatusOK, None)
  end.

(** [for _, x := range xs { body }] around variables the body updates. *)
Fixpoint for_range_acc {R T S} (xs : list T) (acc : S)
    (body : T -> S -> Go R S) : Go R S :=
  match xs with
  | [] => ret acc
  | x :: rest => acc' <- body x acc ;; for_range_acc rest acc' body
  end.

Definition is_error (err : error) : bool :=
  match err with Some _ => true | None => false end.

(** The body of the item loop of [createOrderHandler], around the
    variables [orderItems] and [total]. *)
Definition createOrder_item (ctx : Ctx) (span : Span) (item : RequestItem.t)
    (acc : list OrderItem.t * float) : Go unit (list OrderItem.t * float) :=
  let '(orderItems, total) := acc in
  let ProductID := RequestItem.ProductID item in
  let Quantity := RequestItem.Quantity item in
  ' (product, err) <- call (getProductDetails ctx ProductID) ;;
  if is_error err then
    span_SetAttributes span [("error", VStr "product_fetch_failed")] ;;
    logrus_Error
      [ ("service", VStr serviceName);
        ("endpoint", VStr "/orders");
        ("product_id", VInt ProductID);
        ("error", VStr "product_fetch_failed");
        ("trace_id", TraceID span) ]
      "Failed to fetch product details" ;;
    c_JSON http.StatusBadRequest
      (JError ("Product " ++ strconv.Itoa ProductID ++ " not found")) ;;
    return_ tt
  else
  counter <- gets orderCounter ;;
  ' (reserved, err) <- call (reserveInventory ctx ProductID Quantity counter) ;;
  if is_error err || negb reserved then
    span_SetAttributes span
      [("error", VStr "inventory_reservation_failed")] ;;
    logrus_Error
      [ ("service", VStr serviceName);
        ("endpoint", VStr "/orders");
        ("product_id", VInt ProductID);
        ("quantity", VInt Quantity);
        ("error", VStr "inventory_reservation_failed");
        ("trace_id", TraceID span) ]
      "Failed to reserve inventory" ;;
    c_JSON http.StatusConflict
      (JError ("Insufficient stock for product "
                 ++ strconv.Itoa ProductID)) ;;
    return_ tt
  else
  (* product.Price, product.Name: a nil [product] would panic *)
  product <- deref product ;;
  let orderItem :=
    OrderItem.mk ProductID Quantity (ProductResponse.Price product)
      (ProductResponse.Name product) in
  ret ((orderItems ++ [orderItem])%list,
       PrimFloat.add total
         (PrimFloat.mul (ProductResponse.Price product)
            (GoInt.to_float64 Quantity))).

(** [createOrderHandler]; [body] is the request as bound by
    [c.ShouldBindJSON], [None] when binding fails. *)
Definition createOrderHandler (ctx0 : Ctx) (body : option CreateOrderRequest.t)
    : Go unit unit :=
  ' (ctx, span) <- tracer_Start ctx0 "create_order" ;;
  defer span_End span ;;
  match body with
  | None =>
      span_SetAttributes span [("error", VStr "invalid_request")] ;;
      c_JSON http.StatusBadRequest (JError "Invalid request") ;;
      return_ tt
  | Some req =>
      let UserID := CreateOrderRequest.UserID req in
      let Items := CreateOrderRequest.Items req in
      span_SetAttributes span
        [ ("user.id", VInt UserID);
          ("items.count", VInt (Z.of_nat (List.length Items)));
          ("endpoint", VStr "/orders") ] ;;
      ' (userValid, err) <- call (validateUser ctx UserID) ;;
      if is_error err || negb userValid then
        span_SetAttributes span [("error", VStr "user_validation_failed")] ;;
        logrus_Error
          [ ("service", VStr serviceName);
            ("endpoint", VStr "/orders");
            ("user_id", VInt UserID);
            ("error", VStr "user_validation_failed");
            ("trace_id", TraceID span) ]
          "User validation failed during order creation" ;;
        c_JSON http.StatusBadRequest (JError "Invalid user") ;;
        return_ tt
      else
      ' (orderItems, total) <-
        for_range_acc Items ([], 0%float) (createOrder_item ctx span) ;;
      counter <- gets orderCounter ;;
      created <- time_Now ;;
      updated <- time_Now ;;
      let order :=
        Order.mk counter UserID orderItems "pending" total created updated
          "" "" in
      (* orders = append(orders, order): a store with no lock around it *)
      emit (Store OrdersTable) ;;
      modify (fun w => set_orders (orders w ++ [order])%list w) ;;
      modify (fun w => set_orderCounter (GoInt.add (orderCounter w) 1) w) ;;
      span_SetAttributes span
        [ ("order.id", VInt (Order.ID order));
          ("order.total", VFloat total);
          ("order.status", VStr (Order.Status order)) ] ;;
      logrus_Info
        [ ("service", VStr serviceName);
          ("endpoint", VStr "/orders");
          ("order_id", VInt (Order.ID order));
          ("user_id", VInt UserID);
          ("item_count", VInt (Z.of_nat (List.length orderItems)));
          ("total", VFloat total);
          ("trace_id", TraceID span) ]
        "Order created successfully" ;;
      c_JSON http.StatusCreated (JOrder order)
  end.

(** [loggingMiddleware]: after the rest of the chain, one Info line. *)
Definition loggingMiddleware (info : RequestInfo) (method path : string)
    (next : Go unit unit) : Go unit unit :=
  start <- time_Now ;;
  call next ;;
  stop <- time_Now ;;
  code <- gets (fun w => StatusCode (response_of (ginWrites w))) ;;
  logrus_Info
    [ ("service", VStr serviceName);
      ("method", VStr method);
      ("path", VStr path);
      ("status", VInt code);
      ("latency", VInt (stop - start));
      ("client_ip", VStr (ClientIP info));
      ("user_agent", VStr (UserAgent info));
      ("request_id", VStr (RequestID info)) ]
    "HTTP request".

(** [POST /orders] through the engine of [main]:
    [otelgin.Middleware], [loggingMiddleware], then the handler. *)
Definition serve_createOrder {R} (info : RequestInfo)
    (body : option CreateOrderRequest.t) : Go R Response :=
  gin_serve
    (otelgin_Middleware info "/orders" (fun ctx =>
       loggingMiddleware info "POST" "/orders"
         (createOrderHandler ctx body))).

End OrderService.

(* ================================================================== *)
(** ** order-service: reading an order and updating its status *)

Module OrderQueries.
Import OrderService.

Definition with_Status (v : string) (o : Order.t) : Order.t :=
  Order.mk (Order.ID o) (Order.UserID o) (Order.Items o) v (Order.Total o)
    (Order.CreatedAt o) (Order.UpdatedAt o) (Order.PaymentID o)
    (Order.ShippingID o).

Definition with_UpdatedAt (v : Z) (o : Order.t) : Order.t :=
  Order.mk (Order.ID o) (Order.UserID o) (Order.Items o) (Order.Status o)
    (Order.Total o) (Order.CreatedAt o) v (Order.PaymentID o)
    (Order.ShippingID o).

(** [orders[i]] as an operand; out of range panics. *)
Definition orders_at {R} (i : nat) : Go R Order.t :=
  os <- gets orders ;;
  match nth_error os i with
  | Some o => ret o
  | None => panic
  end.

(** [orders[i].f = v], written as the change [f] of the element: a store
    to the table, with no lock around it. *)
Definition orders_set {R} (i : nat) (f : Order.t -> Order.t) : Go R unit :=
  o <- orders_at i ;;
  emit (Store OrdersTable) ;;
  modify (fun w =>
    set_orders (ProductService.replace_nth i (f o) (orders w)) w).

(** [getOrderHandler]; [id] is [c.Param("id")]. *)
Definition getOrderHandler (ctx : Ctx) (id : string) : Go unit unit :=
  ' (_, span) <- tracer_Start ctx "get_order" ;;
  defer span_End span ;;
  match strconv.Atoi id with
  | None =>
      span_SetAttributes span [("error", VStr "invalid_order_id")] ;;
      c_JSON http.StatusBadRequest (JError "Invalid order ID") ;;
      return_ tt
  | Some orderID =>
      span_SetAttributes span
        [ ("order.id", VInt orderID);
          ("endpoint", VStr "/orders/:id") ] ;;
      os <- gets orders ;;
      for_range os (fun _ order =>
        if Order.ID order =? orderID then
          logrus_Info
            [ ("service", VStr serviceName);
              ("endpoint", VStr "/orders/:id");
              ("order_id", VInt orderID);
              ("trace_id", TraceID span) ]
            "Order retrieved successfully" ;;
          c_JSON http.StatusOK (JOrder order) ;;
          return_ tt
        else ret tt) ;;
      span_SetAttributes span [("error", VStr "order_not_found")] ;;
      c_JSON http.StatusNotFound (JError "Order not found")
  end.

(** [updateOrderStatusHandler]; [id] is [c.Param("id")] and [body] the
    [status] of the request as bound by [c.ShouldBindJSON], [None] when
    binding fails. *)
Definition updateOrderStatusHandler (ctx : Ctx) (id : string)
    (body : option string) : Go unit unit :=
  ' (_, span) <- tracer_Start ctx "update_order_status" ;;
  defer span_End span ;;
  match strconv.Atoi id with
  | None =>
      span_SetAttributes span [("error", VStr "invalid_order_id")] ;;
      c_JSON http.StatusBadRequest (JError "Invalid order ID") ;;
      return_ tt
  | Some orderID =>
      match body with
      | None =>
          span_SetAttributes span [("error", VStr "invalid_request")] ;;
          c_JSON http.StatusBadRequest (JError "Invalid request") ;;
          return_ tt
      | Some status =>
          span_SetAttributes span
            [ ("order.id", VInt orderID);
              ("order.new_status", VStr status);
              ("endpoint", VStr "/orders/:id/status") ] ;;
          os <- gets orders ;;
          for_range os (fun i order =>
            if Order.ID order =? orderID then
              let oldStatus := Order.Status order in
              orders_set i (with_Status status) ;;
              now_ <- time_Now ;;
              orders_set i (with_UpdatedAt now_) ;;
              span_SetAttributes span
                [("order.old_status", VStr oldStatus)] ;;
              logrus_Info
                [ ("service", VStr serviceName);
                  ("endpoint", VStr "/orders/:id/status");
                  ("order_id", VInt orderID);
                  ("old_status", VStr oldStatus);
                  ("new_status", VStr status);
                  ("trace_id", TraceID span) ]
                "Order status updated successfully" ;;
              updated <- orders_at i ;;
              c_JSON http.StatusOK (JOrder updated) ;;
              return_ tt
            else ret tt) ;;
          span_SetAttributes span [("error", VStr "order_not_found")] ;;
          c_JSON http.StatusNotFound (JError "Order not found")
      end
  end.

(** Two routes of [main]; the others are in [OrderService] and
    [OrderRoutes]. *)
Inductive Route : Type :=
| GET_orders_id (id : string)
| PUT_orders_id_status (id : string) (body : option string).

Definition route_method (r : Route) : string :=
  match r with
  | GET_orders_id _ => "GET"
  | PUT_orders_id_status _ _ => "PUT"
  end.

Definition route_pattern (r : Route) : string :=
  match r with
  | GET_orders_id _ => "/orders/:id"
  | PUT_orders_id_status _ _ => "/orders/:id/status"
  end.

Definition route_path (r : Route) : string :=
  match r with
  | GET_orders_id id => "/orders/" ++ id
  | PUT_orders_id_status id _ => "/orders/" ++ id ++ "/status"
  end.

Definition handler (r : Route) (ctx : Ctx) : Go unit unit :=
  match r with
  | GET_orders_id id => getOrderHandler ctx id
  | PUT_orders_id_status id body => updateOrderStatusHandler ctx id body
  end.

(** A request through the engine of [main]:
    [otelgin.Middleware], [loggingMiddleware], then the handler. *)
Definition serve {R} (info : RequestInfo) (r : Route) : Go R Response :=
  gin_serve
    (otelgin_Middleware info (route_pattern r) (fun ctx =>
       loggingMiddleware info (route_method r) (route_path r)
         (handler r ctx))).

End OrderQueries.

(* ================================================================== *)
(** ** strings, durations and the JSON of structs *)

Module strings.

(** [strings.ToLower] on the ASCII letters; any other byte is kept. *)
Definition lower (c : ascii) : ascii :=
  let n := nat_of_ascii c in
  if ((65 <=? n) && (n <=? 90))%nat then ascii_of_nat (n + 32) else c.

Fixpoint ToLower (s : string) : string :=
  match s with
  | EmptyString => EmptyString
  | String c rest => String (lower c) (ToLower rest)
  end.

(** [strings.Contains(s, substr)]. *)
Fixpoint Contains (s substr : string) : bool :=
  String.prefix substr s
  || match s with
     | EmptyString => false
     | String _ rest => Contains rest substr
     end.

(** [strings.EqualFold], on the ASCII letters. *)
Definition EqualFold (s t : string) : bool :=
  String.eqb (ToLower s) (ToLower t).

End strings.

(** A [time.Duration] of [ms] milliseconds as logrus and [c.JSON] write
    it: a number of nanoseconds. *)
Definition Duration_value (ms : Z) : Value := VInt (ms * 1000000).

(** [d.String()] for a duration [d] of [ms] whole milliseconds, below a
    minute: ["0s"], ["350ms"], ["2s"], ["1.05s"]. *)
Definition Duration_String (ms : Z) : string :=
  if ms =? 0 then "0s"
  else if ms <? 1000 then strconv.Itoa ms ++ "ms"
  else
    let f := ms mod 1000 in
    strconv.Itoa (ms / 1000)
    ++ (if f =? 0 then ""
        else if f mod 100 =? 0 then "." ++ strconv.Itoa (f / 100)
        else if f mod 10 =? 0 then
          "." ++ strconv.Itoa (f / 100) ++ strconv.Itoa (f / 10 mod 10)
        else
          "." ++ strconv.Itoa (f / 100) ++ strconv.Itoa (f / 10 mod 10)
              ++ strconv.Itoa (f mod 10))
    ++ "s".

(** A slice that [append] fills from [nil]: [null] when nothing was
    appended. *)
Definition appended {T} (encode : T -> Value) (xs : list T) : Value :=
  match xs with
  | [] => VNull
  | _ => VList (map encode xs)
  end.

(** A string field tagged [omitempty]. *)
Definition omitempty (key v : string) : Fields :=
  if String.eqb v "" then [] else [(key, VStr v)].

(** A [Product] by its [json] tags. *)
Definition Product_value (p : Product.t) : Value :=
  VMap [ ("id", VInt (Product.ID p));
         ("name", VStr (Product.Name p));
         ("description", VStr (Product.Description p));
         ("price", VFloat (Product.Price p));
         ("category", VStr (Product.Category p));
         ("stock", VInt (Product.Stock p));
         ("image_url", VStr (Product.ImageURL p)) ].

(** An [OrderItem] by its [json] tags. *)
Definition OrderItem_value (i : OrderItem.t) : Value :=
  VMap [ ("product_id", VInt (OrderItem.ProductID i));
         ("quantity", VInt (OrderItem.Quantity i));
         ("price", VFloat (OrderItem.Price i));
         ("name", VStr (OrderItem.Name i)) ].

(** An [Order] by its [json] tags; [createOrderHandler] fills [Items]
    by [append]. *)
Definition Order_value (o : Order.t) : Value :=
  VMap ([ ("id", VInt (Order.ID o));
          ("user_id", VInt (Order.UserID o));
          ("items", appended OrderItem_value (Order.Items o));
          ("status", VStr (Order.Status o));
          ("total", VFloat (Order.Total o));
          ("created_at", VTime (Order.CreatedAt o));
          ("updated_at", VTime (Order.UpdatedAt o)) ]
        ++ omitempty "payment_id" (Order.PaymentID o)
        ++ omitempty "shipping_id" (Order.ShippingID o))%list.

(** What [Decode] stores in an [interface{}] for a value of a document:
    every number is a [float64]. *)
Fixpoint as_interface (v : Value) : Value :=
  match v with
  | VInt z => VFloat (GoInt.to_float64 z)
  | VList items => VList (map as_interface items)
  | VMap entries =>
      VMap (map (fun kv => (fst kv, as_interface (snd kv))) entries)
  | other => other
  end.

(** [for i, x := range xs { if test(x) { p = &xs[i]; break } }]: the
    index taken, [None] when [p] stays [nil]. *)
Fixpoint find_index {T} (test : T -> bool) (xs : list T) : option nat :=
  match xs with
  | [] => None
  | x :: rest =>
      if test x then Some O else option_map S (find_index test rest)
  end.

(** [param.Path] of the access log: the path, and the query if there is
    one. *)
Definition with_query (path rawQuery : string) : string :=
  if String.eqb rawQuery "" then path else path ++ "?" ++ rawQuery.

(* ================================================================== *)
(** ** product-service: the other routes *)

Module ProductRoutes.
Import ProductService.

(** [healthHandler]. *)
Definition healthHandler (ctx : Ctx) : Go unit unit :=
  ' (_, span) <- tracer_Start ctx "health_check" ;;
  defer span_End span ;;
  span_SetAttributes span
    [ ("service.name", VStr serviceName);
      ("endpoint", VStr "/health") ] ;;
  now_ <- time_Now ;;
  c_JSON http.StatusOK
    (JObject [ ("status", VStr "OK");
               ("service", VStr serviceName);
               ("timestamp", VTime now_);
               ("trace_id", TraceID span) ]).

(** [getProductsHandler]. *)
Definition getProductsHandler (ctx : Ctx) : Go unit unit :=
  ' (_, span) <- tracer_Start ctx "get_products" ;;
  defer span_End span ;;
  span_SetAttributes span
    [ ("endpoint", VStr "/products");
      ("http.method", VStr "GET") ] ;;
  n <- rand_Intn 300 ;;
  let queryTime := n + 50 in
  time_Sleep queryTime ;;
  miss <- rand_Intn 100 ;;
  (if miss <? 15 then
     logrus_Warn
       [ ("service", VStr serviceName);
         ("endpoint", VStr "/products");
         ("warning", VStr "cache_miss");
         ("query_time", Duration_value queryTime);
         ("trace_id", TraceID span) ]
       "Cache miss - querying database directly"
   else ret tt) ;;
  failure <- rand_Intn 100 ;;
  if failure <? 5 then
    span_SetAttributes span [("error", VStr "database_timeout")] ;;
    logrus_Error
      [ ("service", VStr serviceName);
        ("endpoint", VStr "/products");
        ("error", VStr "database_timeout");
        ("timeout", VStr "5s");
        ("trace_id", TraceID span) ]
      "Database query timeout" ;;
    c_JSON http.StatusInternalServerError (JError "Database timeout") ;;
    return_ tt
  else
  ps <- gets products ;;
  span_SetAttributes span
    [ ("products.count", VInt (Z.of_nat (List.length ps)));
      ("query.duration", VStr (Duration_String queryTime)) ] ;;
  logrus_Info
    [ ("service", VStr serviceName);
      ("endpoint", VStr "/products");
      ("product_count", VInt (Z.of_nat (List.length ps)));
      ("query_time", Duration_value queryTime);
      ("trace_id", TraceID span) ]
    "Products retrieved successfully" ;;
  cached <- rand_Intn 100 ;;
  c_JSON http.StatusOK
    (JObject [ ("products", VList (map Product_value ps));
               ("total", VInt (Z.of_nat (List.length ps)));
               ("cached", VBool (15 <? cached)) ]).

(** The body of the loop of [searchProductsHandler]: is [product]
    appended to the results. *)
Definition search_match (query category : string) (product : Product.t)
    : bool :=
  let match_ := false in
  let match_ :=
    if negb (String.eqb query "") then
      if strings.Contains (strings.ToLower (Product.Name product))
           (strings.ToLower query)
         || strings.Contains (strings.ToLower (Product.Description product))
              (strings.ToLower query)
      then true else match_
    else match_ in
  let match_ :=
    if negb (String.eqb category "")
       && String.eqb (strings.ToLower (Product.Category product))
            (strings.ToLower category)
    then true else match_ in
  let match_ :=
    if String.eqb query "" && String.eqb category "" then true
    else match_ in
  match_.

(** [searchProductsHandler]; [query] and [category] are [c.Query("q")]
    and [c.Query("category")]. *)
Definition searchProductsHandler (ctx : Ctx) (query category : string)
    : Go unit unit :=
  ' (_, span) <- tracer_Start ctx "search_products" ;;
  defer span_End span ;;
  span_SetAttributes span
    [ ("endpoint", VStr "/products/search");
      ("search.query", VStr query);
      ("search.category", VStr category) ] ;;
  n <- rand_Intn 500 ;;
  let searchTime := n + 100 in
  time_Sleep searchTime ;;
  ps <- gets products ;;
  let results := filter (search_match query category) ps in
  span_SetAttributes span
    [ ("search.results", VInt (Z.of_nat (List.length results)));
      ("search.duration", VStr (Duration_String searchTime)) ] ;;
  logrus_Info
    [ ("service", VStr serviceName);
      ("endpoint", VStr "/products/search");
      ("query", VStr query);
      ("category", VStr category);
      ("result_count", VInt (Z.of_nat (List.length results)));
      ("search_time", Duration_value searchTime);
      ("trace_id", TraceID span) ]
    "Product search completed" ;;
  c_JSON http.StatusOK
    (JObject [ ("products", appended Product_value results);
               ("total", VInt (Z.of_nat (List.length results)));
               ("query", VStr query);
               ("category", VStr category);
               ("search_time", Duration_value searchTime) ]).

(** The loop of [getFavoritesHandler]: [rounds] times, a product drawn
    from the table is appended. *)
Fixpoint draw_favorites {R} (rounds : nat) : Go R (list Product.t) :=
  match rounds with
  | O => ret []
  | S n =>
      ps <- gets products ;;
      i <- rand_Intn (Z.of_nat (List.length ps)) ;;
      favorite <- at_index ps i ;;
      rest <- draw_favorites n ;;
      ret (favorite :: rest)
  end.

(** [getFavoritesHandler]; [user_id] is [c.Param("user_id")].  The loop
    runs while [i < favoriteCount && i < len(products)]. *)
Definition getFavoritesHandler (ctx : Ctx) (user_id : string)
    : Go unit unit :=
  ' (_, span) <- tracer_Start ctx "get_user_favorites" ;;
  defer span_End span ;;
  match strconv.Atoi user_id with
  | None =>
      span_SetAttributes span [("error", VStr "invalid_user_id")] ;;
      c_JSON http.StatusBadRequest (JError "Invalid user ID") ;;
      return_ tt
  | Some userID =>
      span_SetAttributes span
        [ ("user.id", VInt userID);
          ("endpoint", VStr "/products/favorites/:user_id") ] ;;
      n <- rand_Intn 200 ;;
      time_Sleep (n + 50) ;;
      k <- rand_Intn 4 ;;
      let favoriteCount := k + 1 in
      ps <- gets products ;;
      favorites <-
        draw_favorites (Nat.min (Z.to_nat favoriteCount) (List.length ps)) ;;
      span_SetAttributes span
        [("favorites.count", VInt (Z.of_nat (List.length favorites)))] ;;
      logrus_Info
        [ ("service", VStr serviceName);
          ("endpoint", VStr "/products/favorites/:user_id");
          ("user_id", VInt userID);
          ("favorites_count", VInt (Z.of_nat (List.length favorites)));
          ("trace_id", TraceID span) ]
        "User favorites retrieved successfully" ;;
      c_JSON http.StatusOK
        (JObject [ ("user_id", VInt userID);
                   ("favorites", appended Product_value favorites);
                   ("total", VInt (Z.of_nat (List.length favorites))) ])
  end.

(** [getInventoryHandler]; [id] is [c.Param("id")]. *)
Definition getInventoryHandler (ctx : Ctx) (id : string) : Go unit unit :=
  ' (_, span) <- tracer_Start ctx "get_inventory" ;;
  defer span_End span ;;
  match strconv.Atoi id with
  | None =>
      span_SetAttributes span [("error", VStr "invalid_product_id")] ;;
      c_JSON http.StatusBadRequest (JError "Invalid product ID") ;;
      return_ tt
  | Some productID =>
      span_SetAttributes span
        [ ("product.id", VInt productID);
          ("endpoint", VStr "/inventory/:id") ] ;;
      ps <- gets products ;;
      for_range ps (fun _ product =>
        if Product.ID product =? productID then
          n <- rand_Intn 100 ;;
          time_Sleep (n + 20) ;;
          reserved <- rand_Intn 5 ;;
          now_ <- time_Now ;;
          minutes <- rand_Intn 60 ;;
          warehouse <- rand_Intn 5 ;;
          let inventory :=
            JObject
              [ ("product_id", VInt (Product.ID product));
                ("available", VInt (Product.Stock product));
                ("reserved", VInt reserved);
                ("reorder_level", VInt 10);
                ("last_updated", VTime (now_ - minutes * 60));
                ("warehouse", VStr ("WH-" ++ strconv.Itoa (warehouse + 1))) ]
          in
          span_SetAttributes span
            [("inventory.available", VInt (Product.Stock product))] ;;
          logrus_Info
            [ ("service", VStr serviceName);
              ("endpoint", VStr "/inventory/:id");
              ("product_id", VInt productID);
              ("stock", VInt (Product.Stock product));
              ("trace_id", TraceID span) ]
            "Inventory retrieved successfully" ;;
          c_JSON http.StatusOK inventory ;;
          return_ tt
        else ret tt) ;;
      span_SetAttributes span [("error", VStr "product_not_found")] ;;
      c_JSON http.StatusNotFound (JError "Product not found")
  end.

(** [getTrendingProductsHandler]. *)
Definition getTrendingProductsHandler (ctx : Ctx) : Go unit unit :=
  ' (_, span) <- tracer_Start ctx "get_trending_products" ;;
  defer span_End span ;;
  span_SetAttributes span [("endpoint", VStr "/products/trending")] ;;
  miss <- rand_Intn 100 ;;
  (if miss <? 20 then
     span_SetAttributes span [("cache.status", VStr "miss")] ;;
     n <- rand_Intn 500 ;;
     time_Sleep (n + 200)
   else ret tt) ;;
  failure <- rand_Intn 100 ;;
  if failure <? 8 then
    span_SetAttributes span [("error", VStr "analytics_service_error")] ;;
    logrus_Error
      [ ("service", VStr serviceName);
        ("endpoint", VStr "/products/trending");
        ("error", VStr "analytics_calculation_failed");
        ("trace_id", TraceID span) ]
      "Failed to calculate trending products" ;;
    c_JSON http.StatusServiceUnavailable
      (JError "Trending calculation service unavailable") ;;
    return_ tt
  else
  k <- rand_Intn 5 ;;
  let trendingCount := k + 3 in
  t <- rand_Intn 100 ;;
  logrus_Info
    [ ("service", VStr serviceName);
      ("endpoint", VStr "/products/trending");
      ("trending_count", VInt trendingCount);
      ("calculation_time", VStr (strconv.Itoa (t + 50) ++ "ms"));
      ("trace_id", TraceID span) ]
    "Trending products calculated successfully" ;;
  c_JSON http.StatusOK
    (JObject [ ("trending_products", VInt trendingCount);
               ("period", VStr "24h");
               ("products", VList []) ]).

(** [recordProductViewHandler]; [id] is [c.Param("id")]. *)
Definition recordProductViewHandler (info : RequestInfo) (ctx : Ctx)
    (id : string) : Go unit unit :=
  ' (_, span) <- tracer_Start ctx "record_product_view" ;;
  defer span_End span ;;
  match strconv.Atoi id with
  | None =>
      span_SetAttributes span [("error", VStr "invalid_product_id")] ;;
      c_JSON http.StatusBadRequest (JError "Invalid product ID") ;;
      return_ tt
  | Some productID =>
      span_SetAttributes span
        [ ("product.id", VInt productID);
          ("endpoint", VStr "/products/:id/view") ] ;;
      failure <- rand_Intn 100 ;;
      if failure <? 5 then
        span_SetAttributes span [("error", VStr "analytics_service_down")] ;;
        logrus_Error
          [ ("service", VStr serviceName);
            ("endpoint", VStr "/products/:id/view");
            ("product_id", VInt productID);
            ("error", VStr "analytics_service_unavailable");
            ("trace_id", TraceID span) ]
          "Failed to record product view - analytics service down" ;;
        c_JSON http.StatusAccepted
          (JObject [("message", VStr "View recorded offline")]) ;;
        return_ tt
      else
      logrus_Info
        [ ("service", VStr serviceName);
          ("endpoint", VStr "/products/:id/view");
          ("product_id", VInt productID);
          ("user_agent", VStr (UserAgent info));
          ("trace_id", TraceID span) ]
        "Product view recorded successfully" ;;
      now_ <- time_Now ;;
      c_JSON http.StatusOK
        (JObject [ ("product_id", VInt productID);
                   ("view_recorded", VBool true);
                   ("timestamp", VTime now_) ])
  end.

(** [getProductsByCategoryHandler]; [category] is
    [c.Param("category")]. *)
Definition getProductsByCategoryHandler (ctx : Ctx) (category : string)
    : Go unit unit :=
  ' (_, span) <- tracer_Start ctx "get_products_by_category" ;;
  defer span_End span ;;
  span_SetAttributes span
    [ ("product.category", VStr category);
      ("endpoint", VStr "/products/category/:category") ] ;;
  n <- rand_Intn 150 ;;
  time_Sleep (n + 50) ;;
  ps <- gets products ;;
  let categoryProducts :=
    filter (fun product =>
              strings.EqualFold (Product.Category product) category) ps in
  failure <- rand_Intn 100 ;;
  if failure <? 6 then
    span_SetAttributes span [("error", VStr "category_index_error")] ;;
    logrus_Error
      [ ("service", VStr serviceName);
        ("endpoint", VStr "/products/category/:category");
        ("category", VStr category);
        ("error", VStr "category_index_corruption");
        ("trace_id", TraceID span) ]
      "Category index corruption detected" ;;
    c_JSON http.StatusInternalServerError (JError "Category service error") ;;
    return_ tt
  else
  logrus_Info
    [ ("service", VStr serviceName);
      ("endpoint", VStr "/products/category/:category");
      ("category", VStr category);
      ("product_count", VInt (Z.of_nat (List.length categoryProducts)));
      ("trace_id", TraceID span) ]
    "Products retrieved by category" ;;
  c_JSON http.StatusOK
    (JObject
       [ ("category", VStr category);
         ("count", VInt (Z.of_nat (List.length categoryProducts)));
         ("products", appended Product_value categoryProducts) ]).

Definition with_Price (v : float) (p : Product.t) : Product.t :=
  Product.mk (Product.ID p) (Product.Name p) (Product.Description p)
    v (Product.Category p) (Product.Stock p) (Product.ImageURL p).

(** [products[i].Price = v]: a store to the table, with no lock around
    it. *)
Definition products_set_Price {R} (i : nat) (v : float) : Go R unit :=
  p <- products_at i ;;
  emit (Store ProductsTable) ;;
  modify (fun w =>
    set_products (replace_nth i (with_Price v p) (products w)) w).

(** [updateProductPriceHandler]; [id] is [c.Param("id")] and [body] the
    [price] of the request as bound by [c.ShouldBindJSON], [None] when
    binding fails. *)
Definition updateProductPriceHandler (ctx : Ctx) (id : string)
    (body : option float) : Go unit unit :=
  ' (_, span) <- tracer_Start ctx "update_product_price" ;;
  defer span_End span ;;
  match strconv.Atoi id with
  | None =>
      span_SetAttributes span [("error", VStr "invalid_product_id")] ;;
      c_JSON http.StatusBadRequest (JError "Invalid product ID") ;;
      return_ tt
  | Some productID =>
  match body with
  | None =>
      span_SetAttributes span [("error", VStr "invalid_request")] ;;
      c_JSON http.StatusBadRequest (JError "Invalid request") ;;
      return_ tt
  | Some Price =>
      span_SetAttributes span
        [ ("product.id", VInt productID);
          ("price.new", VFloat Price);
          ("endpoint", VStr "/products/:id/price") ] ;;
      failure <- rand_Intn 100 ;;
      if failure <? 10 then
        span_SetAttributes span
          [("error", VStr "pricing_validation_failed")] ;;
        logrus_Error
          [ ("service", VStr serviceName);
            ("endpoint", VStr "/products/:id/price");
            ("product_id", VInt productID);
            ("new_price", VFloat Price);
            ("error", VStr "pricing_policy_violation");
            ("trace_id", TraceID span) ]
          "Price update failed - pricing policy violation" ;;
        c_JSON http.StatusUnprocessableEntity
          (JError "Price violates pricing policy") ;;
        return_ tt
      else
      ps <- gets products ;;
      for_range ps (fun i product =>
        if Product.ID product =? productID then
          let oldPrice := Product.Price product in
          products_set_Price i Price ;;
          span_SetAttributes span [("price.old", VFloat oldPrice)] ;;
          logrus_Info
            [ ("service", VStr serviceName);
              ("endpoint", VStr "/products/:id/price");
              ("product_id", VInt productID);
              ("old_price", VFloat oldPrice);
              ("new_price", VFloat Price);
              ("change_pct",
               VFloat ((Price - oldPrice) / oldPrice * 100)%float);
              ("trace_id", TraceID span) ]
            "Product price updated successfully" ;;
          now_ <- time_Now ;;
          c_JSON http.StatusOK
            (JObject [ ("product_id", VInt productID);
                       ("old_price", VFloat oldPrice);
                       ("new_price", VFloat Price);
                       ("updated_at", VTime now_) ]) ;;
          return_ tt
        else ret tt) ;;
      span_SetAttributes span [("error", VStr "product_not_found")] ;;
      c_JSON http.StatusNotFound (JError "Product not found")
  end
  end.

(** The routes of [main] besides those of [ProductService.Route]; a
    search carries its query string and what [c.Query] reads of it. *)
Inductive Route : Type :=
| GET_health
| GET_products
| GET_products_search (rawQuery q category : string)
| GET_products_favorites_user_id (user_id : string)
| GET_inventory_id (id : string)
| GET_products_trending
| POST_products_id_view (id : string)
| GET_products_category_category (category : string)
| PUT_products_id_price (id : string) (body : option float).

Definition route_method (r : Route) : string :=
  match r with
  | GET_health => "GET"
  | GET_products => "GET"
  | GET_products_search _ _ _ => "GET"
  | GET_products_favorites_user_id _ => "GET"
  | GET_inventory_id _ => "GET"
  | GET_products_trending => "GET"
  | POST_products_id_view _ => "POST"
  | GET_products_category_category _ => "GET"
  | PUT_products_id_price _ _ => "PUT"
  end.

Definition route_pattern (r : Route) : string :=
  match r with
  | GET_health => "/health"
  | GET_products => "/products"
  | GET_products_search _ _ _ => "/products/search"
  | GET_products_favorites_user_id _ => "/products/favorites/:user_id"
  | GET_inventory_id _ => "/inventory/:id"
  | GET_products_trending => "/products/trending"
  | POST_products_id_view _ => "/products/:id/view"
  | GET_products_category_category _ => "/products/category/:category"
  | PUT_products_id_price _ _ => "/products/:id/price"
  end.

Definition route_path (r : Route) : string :=
  match r with
  | GET_health => "/health"
  | GET_products => "/products"
  | GET_products_search rawQuery _ _ =>
      with_query "/products/search" rawQuery
  | GET_products_favorites_user_id user_id =>
      "/products/favorites/" ++ user_id
  | GET_inventory_id id => "/inventory/" ++ id
  | GET_products_trending => "/products/trending"
  | POST_products_id_view id => "/products/" ++ id ++ "/view"
  | GET_products_category_category category =>
      "/products/category/" ++ category
  | PUT_products_id_price id _ => "/products/" ++ id ++ "/price"
  end.

Definition handler (info : RequestInfo) (r : Route) (ctx : Ctx)
    : Go unit unit :=
  match r with
  | GET_health => healthHandler ctx
  | GET_products => getProductsHandler ctx
  | GET_products_search _ q category => searchProductsHandler ctx q category
  | GET_products_favorites_user_id user_id =>
      getFavoritesHandler ctx user_id
  | GET_inventory_id id => getInventoryHandler ctx id
  | GET_products_trending => getTrendingProductsHandler ctx
  | POST_products_id_view id => recordProductViewHandler info ctx id
  | GET_products_category_category category =>
      getProductsByCategoryHandler ctx category
  | PUT_products_id_price id body => updateProductPriceHandler ctx id body
  end.

(** A request through the engine of [main]:
    [otelgin.Middleware], [loggingMiddleware], then the handler. *)
Definition serve {R} (info : RequestInfo) (r : Route) : Go R Response :=
  gin_serve
    (otelgin_Middleware info (route_pattern r) (fun ctx =>
       loggingMiddleware info (route_method r) (route_path r)
         (handler info r ctx))).

End ProductRoutes.

(* ================================================================== *)
(** ** user-service: the other routes *)

Module UserRoutes.
Import UserService.

Definition product_service : string := "http://product-service:8082".

(** What the access log of a peer reads of a request sent by
    [httpClient]; [ctx] is what the propagator injected. *)
Definition outbound (ctx : Ctx) : RequestInfo :=
  mkRequestInfo ctx "user-service" "Go-http-client/1.1" "".

(** [httpClient.Do(req)] for a request to the product service. *)
Definition httpClient_Do_product {R} (ctx : Ctx) (r : ProductRoutes.Route)
    (url : URL) : Go R (option (Response * ReadCloser)) :=
  httpClient_Do ctx (ProductRoutes.route_method r) url
    (fun clientCtx => ProductRoutes.serve (outbound clientCtx) r).

(** [healthHandler]. *)
Definition healthHandler (ctx : Ctx) : Go unit unit :=
  ' (_, span) <- tracer_Start ctx "health_check" ;;
  defer span_End span ;;
  span_SetAttributes span
    [ ("service.name", VStr serviceName);
      ("endpoint", VStr "/health") ] ;;
  now_ <- time_Now ;;
  c_JSON http.StatusOK
    (JObject [ ("status", VStr "OK");
               ("service", VStr serviceName);
               ("timestamp", VTime now_);
               ("trace_id", TraceID span) ]).

(** [getUserProfileHandler]; [id] is [c.Param("id")]. *)
Definition getUserProfileHandler (ctx : Ctx) (id : string) : Go unit unit :=
  ' (_, span) <- tracer_Start ctx "get_user_profile" ;;
  defer span_End span ;;
  match strconv.Atoi id with
  | None =>
      span_SetAttributes span [("error", VStr "invalid_user_id")] ;;
      c_JSON http.StatusBadRequest (JError "Invalid user ID") ;;
      return_ tt
  | Some userID =>
      span_SetAttributes span
        [ ("user.id", VInt userID);
          ("endpoint", VStr "/users/:id/profile") ] ;;
      n <- rand_Intn 200 ;;
      time_Sleep (n + 100) ;;
      us <- gets users ;;
      for_range us (fun _ user =>
        if User.ID user =? userID then
          now_ <- time_Now ;;
          hours <- rand_Intn 24 ;;
          orders_count <- rand_Intn 10 ;;
          spent <- rand_Float64 ;;
          let profile :=
            JObject
              [ ("id", VInt (User.ID user));
                ("email", VStr (User.Email user));
                ("name", VStr (User.Name user));
                ("created_at", VStr "2024-01-01T00:00:00Z");
                ("last_login", VTime (now_ - hours * 3600));
                ("orders_count", VInt orders_count);
                ("total_spent", VFloat (spent * 1000)%float) ] in
          logrus_Info
            [ ("service", VStr serviceName);
              ("endpoint", VStr "/users/:id/profile");
              ("user_id", VInt userID);
              ("trace_id", TraceID span) ]
            "User profile retrieved successfully" ;;
          c_JSON http.StatusOK profile ;;
          return_ tt
        else ret tt) ;;
      span_SetAttributes span [("error", VStr "user_not_found")] ;;
      c_JSON http.StatusNotFound (JError "User not found")
  end.

(** [json.NewDecoder(resp.Body).Decode(&favorites)] for [favorites] an
    [interface{}]: the document of the body, and an error for an empty
    body. *)
Definition decode_interface (body : JSON) : option JSON :=
  match body with
  | JNone => None
  | JObject fields =>
      Some (JObject (map (fun kv => (fst kv, as_interface (snd kv))) fields))
  | other => Some other
  end.

(** [getUserFavoritesHandler]; [id] is [c.Param("id")]. *)
Definition getUserFavoritesHandler (ctx0 : Ctx) (id : string)
    : Go unit unit :=
  ' (ctx, span) <- tracer_Start ctx0 "get_user_favorites" ;;
  defer span_End span ;;
  match strconv.Atoi id with
  | None =>
      span_SetAttributes span [("error", VStr "invalid_user_id")] ;;
      c_JSON http.StatusBadRequest (JError "Invalid user ID") ;;
      return_ tt
  | Some userID =>
      span_SetAttributes span
        [ ("user.id", VInt userID);
          ("endpoint", VStr "/users/:id/favorites") ] ;;
      ' (childCtx, childSpan) <- tracer_Start ctx "call_product_service" ;;
      defer span_End childSpan ;;
      let url :=
        mkURL product_service
          ["products"; "favorites"; strconv.Itoa userID] in
      span_SetAttributes childSpan
        [ ("http.method", VStr "GET");
          ("http.url", VStr (url_String url)) ] ;;
      resp <- httpClient_Do_product childCtx
                (ProductRoutes.GET_products_favorites_user_id
                   (strconv.Itoa userID)) url ;;
      match resp with
      | None =>
          span_SetAttributes childSpan
            [("error", VStr "service_call_failed")] ;;
          logrus_Error
            [ ("service", VStr serviceName);
              ("endpoint", VStr "/users/:id/favorites");
              ("user_id", VInt userID);
              ("error", VStr "product_service_call_failed");
              ("target_service", VStr "product-service");
              ("trace_id", TraceID span) ]
            "Failed to call product service" ;;
          c_JSON http.StatusServiceUnavailable
            (JError "Product service unavailable") ;;
          return_ tt
      | Some (resp, body) =>
          defer Body_Close body ;;
          if negb (StatusCode resp =? http.StatusOK) then
            span_SetAttributes childSpan
              [("http.status_code", VInt (StatusCode resp))] ;;
            logrus_Warn
              [ ("service", VStr serviceName);
                ("user_id", VInt userID);
                ("status_code", VInt (StatusCode resp));
                ("trace_id", TraceID span) ]
              "Product service returned non-200 status" ;;
            c_JSON http.StatusServiceUnavailable
              (JError "Failed to get favorites") ;;
            return_ tt
          else
          match decode_interface (Body resp) with
          | None =>
              span_SetAttributes childSpan
                [("error", VStr "response_decode_failed")] ;;
              c_JSON http.StatusInternalServerError
                (JError "Failed to decode response") ;;
              return_ tt
          | Some favorites =>
              logrus_Info
                [ ("service", VStr serviceName);
                  ("endpoint", VStr "/users/:id/favorites");
                  ("user_id", VInt userID);
                  ("target_service", VStr "product-service");
                  ("trace_id", TraceID span) ]
                "User favorites retrieved successfully" ;;
              c_JSON http.StatusOK favorites
          end
      end
  end.

(** [updateUserPreferencesHandler]; [id] is [c.Param("id")].  The body
    of the request is not read. *)
Definition updateUserPreferencesHandler (ctx : Ctx) (id : string)
    : Go unit unit :=
  ' (_, span) <- tracer_Start ctx "update_user_preferences" ;;
  defer span_End span ;;
  match strconv.Atoi id with
  | None =>
      span_SetAttributes span [("error", VStr "invalid_user_id")] ;;
      c_JSON http.StatusBadRequest (JError "Invalid user ID") ;;
      return_ tt
  | Some userID =>
      span_SetAttributes span
        [ ("user.id", VInt userID);
          ("endpoint", VStr "/users/:id/preferences") ] ;;
      n <- rand_Intn 300 ;;
      time_Sleep (n + 100) ;;
      failure <- rand_Intn 100 ;;
      if failure <? 8 then
        span_SetAttributes span
          [("error", VStr "preference_update_failed")] ;;
        logrus_Error
          [ ("service", VStr serviceName);
            ("endpoint", VStr "/users/:id/preferences");
            ("user_id", VInt userID);
            ("error", VStr "database_constraint_violation");
            ("trace_id", TraceID span) ]
          "Failed to update user preferences due to database constraint" ;;
        c_JSON http.StatusInternalServerError
          (JError "Failed to update preferences") ;;
        return_ tt
      else
      updated <- rand_Intn 5 ;;
      logrus_Info
        [ ("service", VStr serviceName);
          ("endpoint", VStr "/users/:id/preferences");
          ("user_id", VInt userID);
          ("preferences_updated", VInt (updated + 1));
          ("trace_id", TraceID span) ]
        "User preferences updated successfully" ;;
      fields <- rand_Intn 5 ;;
      c_JSON http.StatusOK
        (JObject [ ("message", VStr "Preferences updated");
                   ("user_id", VInt userID);
                   ("updated_fields", VInt (fields + 1)) ])
  end.

(** [searchUsersHandler]; [query] is [c.Query("q")] and [limit] is
    [c.DefaultQuery("limit", "10")]. *)
Definition searchUsersHandler (ctx : Ctx) (query limit : string)
    : Go unit unit :=
  ' (_, span) <- tracer_Start ctx "search_users" ;;
  defer span_End span ;;
  span_SetAttributes span
    [ ("search.query", VStr query);
      ("search.limit", VStr limit);
      ("endpoint", VStr "/users/search") ] ;;
  n <- rand_Intn 200 ;;
  time_Sleep (n + 50) ;;
  failure <- rand_Intn 100 ;;
  if failure <? 5 then
    span_SetAttributes span [("error", VStr "search_service_timeout")] ;;
    logrus_Error
      [ ("service", VStr serviceName);
        ("endpoint", VStr "/users/search");
        ("query", VStr query);
        ("error", VStr "elasticsearch_timeout");
        ("trace_id", TraceID span) ]
      "User search timed out" ;;
    c_JSON http.StatusServiceUnavailable
      (JError "Search service temporarily unavailable") ;;
    return_ tt
  else
  k <- rand_Intn 25 ;;
  let results := k + 1 in
  logrus_Info
    [ ("service", VStr serviceName);
      ("endpoint", VStr "/users/search");
      ("query", VStr query);
      ("results", VInt results);
      ("trace_id", TraceID span) ]
    "User search completed" ;;
  c_JSON http.StatusOK
    (JObject [ ("query", VStr query);
               ("results", VInt results);
               ("users", VList []) ]).

(** [refreshTokenHandler]. *)
Definition refreshTokenHandler (ctx : Ctx) : Go unit unit :=
  ' (_, span) <- tracer_Start ctx "refresh_token" ;;
  defer span_End span ;;
  span_SetAttributes span [("endpoint", VStr "/auth/refresh")] ;;
  failure <- rand_Intn 100 ;;
  if failure <? 12 then
    span_SetAttributes span [("error", VStr "invalid_refresh_token")] ;;
    logrus_Warn
      [ ("service", VStr serviceName);
        ("endpoint", VStr "/auth/refresh");
        ("error", VStr "invalid_refresh_token");
        ("trace_id", TraceID span) ]
      "Token refresh failed - invalid refresh token" ;;
    c_JSON http.StatusUnauthorized (JError "Invalid refresh token") ;;
    return_ tt
  else
  logrus_Info
    [ ("service", VStr serviceName);
      ("endpoint", VStr "/auth/refresh");
      ("trace_id", TraceID span) ]
    "Token refreshed successfully" ;;
  c_JSON http.StatusOK
    (JObject [ ("access_token", VStr "new_jwt_token_here");
               ("expires_in", VInt 3600) ]).

(** The routes of [main] besides those of [UserService.Route]; a search
    carries its query string and what [c.Query] and [c.DefaultQuery]
    read of it. *)
Inductive Route : Type :=
| GET_health
| GET_users_id_profile (id : string)
| GET_users_id_favorites (id : string)
| POST_users_id_preferences (id : string)
| GET_users_search (rawQuery q limit : string)
| POST_auth_refresh.

Definition route_method (r : Route) : string :=
  match r with
  | GET_health => "GET"
  | GET_users_id_profile _ => "GET"
  | GET_users_id_favorites _ => "GET"
  | POST_users_id_preferences _ => "POST"
  | GET_users_search _ _ _ => "GET"
  | POST_auth_refresh => "POST"
  end.

Definition route_pattern (r : Route) : string :=
  match r with
  | GET_health => "/health"
  | GET_users_id_profile _ => "/users/:id/profile"
  | GET_users_id_favorites _ => "/users/:id/favorites"
  | POST_users_id_preferences _ => "/users/:id/preferences"
  | GET_users_search _ _ _ => "/users/search"
  | POST_auth_refresh => "/auth/refresh"
  end.

Definition route_path (r : Route) : string :=
  match r with
  | GET_health => "/health"
  | GET_users_id_profile id => "/users/" ++ id ++ "/profile"
  | GET_users_id_favorites id => "/users/" ++ id ++ "/favorites"
  | POST_users_id_preferences id => "/users/" ++ id ++ "/preferences"
  | GET_users_search rawQuery _ _ => with_query "/users/search" rawQuery
  | POST_auth_refresh => "/auth/refresh"
  end.

Definition handler (r : Route) (ctx : Ctx) : Go unit unit :=
  match r with
  | GET_health => healthHandler ctx
  | GET_users_id_profile id => getUserProfileHandler ctx id
  | GET_users_id_favorites id => getUserFavoritesHandler ctx id
  | POST_users_id_preferences id => updateUserPreferencesHandler ctx id
  | GET_users_search _ q limit => searchUsersHandler ctx q limit
  | POST_auth_refresh => refreshTokenHandler ctx
  end.

(** A request through the engine of [main]:
    [otelgin.Middleware], [loggingMiddleware], then the handler. *)
Definition serve {R} (info : RequestInfo) (r : Route) : Go R Response :=
  gin_serve
    (otelgin_Middleware info (route_pattern r) (fun ctx =>
       loggingMiddleware info (route_method r) (route_path r)
         (handler r ctx))).

End UserRoutes.

(* ================================================================== *)
(** ** order-service: the other routes *)

(** The request of [processPaymentHandler]. *)
Module PaymentRequest.
Record t : Type := mk { PaymentMethod : string; Amount : float }.
End PaymentRequest.

(** The request of [processRefundHandler]. *)
Module RefundRequest.
Record t : Type := mk { Amount : float; Reason : string }.
End RefundRequest.

(** order-service: [type Payment struct]. *)
Module Payment.
Record t : Type := mk
  { ID : string; OrderID : Z; Amount : float; Status : string;
    PaymentMethod : string; ProcessedAt : Z }.
End Payment.

(** A [Payment] by its [json] tags. *)
Definition Payment_value (p : Payment.t) : Fields :=
  [ ("id", VStr (Payment.ID p));
    ("order_id", VInt (Payment.OrderID p));
    ("amount", VFloat (Payment.Amount p));
    ("status", VStr (Payment.Status p));
    ("payment_method", VStr (Payment.PaymentMethod p));
    ("processed_at", VTime (Payment.ProcessedAt p)) ].

Module OrderRoutes.
Import OrderService OrderQueries.

Definition with_PaymentID (v : string) (o : Order.t) : Order.t :=
  Order.mk (Order.ID o) (Order.UserID o) (Order.Items o) (Order.Status o)
    (Order.Total o) (Order.CreatedAt o) (Order.UpdatedAt o) v
    (Order.ShippingID o).

(** [healthHandler]. *)
Definition healthHandler (ctx : Ctx) : Go unit unit :=
  ' (_, span) <- tracer_Start ctx "health_check" ;;
  defer span_End span ;;
  span_SetAttributes span
    [ ("service.name", VStr serviceName);
      ("endpoint", VStr "/health") ] ;;
  now_ <- time_Now ;;
  c_JSON http.StatusOK
    (JObject [ ("status", VStr "OK");
               ("service", VStr serviceName);
               ("timestamp", VTime now_);
               ("trace_id", TraceID span) ]).

(** [getOrdersHandler]. *)
Definition getOrdersHandler (ctx : Ctx) : Go unit unit :=
  ' (_, span) <- tracer_Start ctx "get_orders" ;;
  defer span_End span ;;
  os <- gets orders ;;
  span_SetAttributes span
    [ ("endpoint", VStr "/orders");
      ("orders.count", VInt (Z.of_nat (List.length os))) ] ;;
  logrus_Info
    [ ("service", VStr serviceName);
      ("endpoint", VStr "/orders");
      ("order_count", VInt (Z.of_nat (List.length os)));
      ("trace_id", TraceID span) ]
    "Orders retrieved successfully" ;;
  c_JSON http.StatusOK
    (JObject [ ("orders", VList (map Order_value os));
               ("total", VInt (Z.of_nat (List.length os))) ]).

(** [getUserOrdersHandler]; [user_id] is [c.Param("user_id")]. *)
Definition getUserOrdersHandler (ctx : Ctx) (user_id : string)
    : Go unit unit :=
  ' (_, span) <- tracer_Start ctx "get_user_orders" ;;
  defer span_End span ;;
  match strconv.Atoi user_id with
  | None =>
      span_SetAttributes span [("error", VStr "invalid_user_id")] ;;
      c_JSON http.StatusBadRequest (JError "Invalid user ID") ;;
      return_ tt
  | Some userID =>
      span_SetAttributes span
        [ ("user.id", VInt userID);
          ("endpoint", VStr "/orders/user/:user_id") ] ;;
      os <- gets orders ;;
      let userOrders :=
        filter (fun order => Order.UserID order =? userID) os in
      span_SetAttributes span
        [("user.orders.count", VInt (Z.of_nat (List.length userOrders)))] ;;
      logrus_Info
        [ ("service", VStr serviceName);
          ("endpoint", VStr "/orders/user/:user_id");
          ("user_id", VInt userID);
          ("order_count", VInt (Z.of_nat (List.length userOrders)));
          ("trace_id", TraceID span) ]
        "User orders retrieved successfully" ;;
      c_JSON http.StatusOK
        (JObject [ ("user_id", VInt userID);
                   ("orders", appended Order_value userOrders);
                   ("total", VInt (Z.of_nat (List.length userOrders))) ])
  end.

(** [processPaymentHandler]; [id] is [c.Param("id")] and [body] the
    request as bound by [c.ShouldBindJSON], [None] when binding fails.
    [order] points to [orders[i]]: the three assignments through it
    are stores to the table. *)
Definition processPaymentHandler (ctx : Ctx) (id : string)
    (body : option PaymentRequest.t) : Go unit unit :=
  ' (_, span) <- tracer_Start ctx "process_payment" ;;
  defer span_End span ;;
  match strconv.Atoi id with
  | None =>
      span_SetAttributes span [("error", VStr "invalid_order_id")] ;;
      c_JSON http.StatusBadRequest (JError "Invalid order ID") ;;
      return_ tt
  | Some orderID =>
  match body with
  | None =>
      span_SetAttributes span [("error", VStr "invalid_request")] ;;
      c_JSON http.StatusBadRequest (JError "Invalid request") ;;
      return_ tt
  | Some request =>
      let PaymentMethod := PaymentRequest.PaymentMethod request in
      let Amount := PaymentRequest.Amount request in
      span_SetAttributes span
        [ ("order.id", VInt orderID);
          ("payment.method", VStr PaymentMethod);
          ("payment.amount", VFloat Amount);
          ("endpoint", VStr "/payments/:id") ] ;;
      os <- gets orders ;;
      match find_index (fun o => Order.ID o =? orderID) os with
      | None =>
          span_SetAttributes span [("error", VStr "order_not_found")] ;;
          c_JSON http.StatusNotFound (JError "Order not found") ;;
          return_ tt
      | Some i =>
          n <- rand_Intn 2000 ;;
          let processingTime := n + 500 in
          time_Sleep processingTime ;;
          failure <- rand_Intn 100 ;;
          if failure <? 15 then
            span_SetAttributes span [("error", VStr "payment_failed")] ;;
            logrus_Error
              [ ("service", VStr serviceName);
                ("endpoint", VStr "/payments/:id");
                ("order_id", VInt orderID);
                ("payment_method", VStr PaymentMethod);
                ("amount", VFloat Amount);
                ("processing_time", Duration_value processingTime);
                ("error", VStr "payment_gateway_declined");
                ("trace_id", TraceID span) ]
              "Payment processing failed" ;;
            c_JSON http.StatusPaymentRequired (JError "Payment declined") ;;
            return_ tt
          else
          unix <- time_Now ;;
          processed <- time_Now ;;
          let payment :=
            Payment.mk
              ("PAY-" ++ strconv.Itoa orderID ++ "-" ++ strconv.Itoa unix)
              orderID Amount "completed" PaymentMethod processed in
          orders_set i (with_PaymentID (Payment.ID payment)) ;;
          orders_set i (with_Status "paid") ;;
          updated <- time_Now ;;
          orders_set i (with_UpdatedAt updated) ;;
          span_SetAttributes span
            [ ("payment.id", VStr (Payment.ID payment));
              ("payment.status", VStr (Payment.Status payment));
              ("processing.duration",
               VStr (Duration_String processingTime)) ] ;;
          logrus_Info
            [ ("service", VStr serviceName);
              ("endpoint", VStr "/payments/:id");
              ("order_id", VInt orderID);
              ("payment_id", VStr (Payment.ID payment));
              ("payment_method", VStr PaymentMethod);
              ("amount", VFloat Amount);
              ("processing_time", Duration_value processingTime);
              ("trace_id", TraceID span) ]
            "Payment processed successfully" ;;
          c_JSON http.StatusOK (JObject (Payment_value payment))
      end
  end
  end.

(** [getPaymentHandler]; [id] is [c.Param("id")]. *)
Definition getPaymentHandler (ctx : Ctx) (id : string) : Go unit unit :=
  ' (_, span) <- tracer_Start ctx "get_payment" ;;
  defer span_End span ;;
  match strconv.Atoi id with
  | None =>
      span_SetAttributes span [("error", VStr "invalid_order_id")] ;;
      c_JSON http.StatusBadRequest (JError "Invalid order ID") ;;
      return_ tt
  | Some orderID =>
      span_SetAttributes span
        [ ("order.id", VInt orderID);
          ("endpoint", VStr "/payments/:id") ] ;;
      os <- gets orders ;;
      for_range os (fun _ order =>
        if (Order.ID order =? orderID)
           && negb (String.eqb (Order.PaymentID order) "") then
          let payment :=
            Payment.mk (Order.PaymentID order) (Order.ID order)
              (Order.Total order) "completed" "credit_card"
              (Order.UpdatedAt order) in
          logrus_Info
            [ ("service", VStr serviceName);
              ("endpoint", VStr "/payments/:id");
              ("order_id", VInt orderID);
              ("payment_id", VStr (Order.PaymentID order));
              ("trace_id", TraceID span) ]
            "Payment retrieved successfully" ;;
          c_JSON http.StatusOK (JObject (Payment_value payment)) ;;
          return_ tt
        else ret tt) ;;
      span_SetAttributes span [("error", VStr "payment_not_found")] ;;
      c_JSON http.StatusNotFound (JError "Payment not found")
  end.

(** [cancelOrderHandler]; [id] is [c.Param("id")]. *)
Definition cancelOrderHandler (ctx : Ctx) (id : string) : Go unit unit :=
  ' (_, span) <- tracer_Start ctx "cancel_order" ;;
  defer span_End span ;;
  match strconv.Atoi id with
  | None =>
      span_SetAttributes span [("error", VStr "invalid_order_id")] ;;
      c_JSON http.StatusBadRequest (JError "Invalid order ID") ;;
      return_ tt
  | Some orderID =>
      span_SetAttributes span
        [ ("order.id", VInt orderID);
          ("endpoint", VStr "/orders/:id/cancel") ] ;;
      failure <- rand_Intn 100 ;;
      if failure <? 15 then
        span_SetAttributes span
          [("error", VStr "cancellation_not_allowed")] ;;
        logrus_Error
          [ ("service", VStr serviceName);
            ("endpoint", VStr "/orders/:id/cancel");
            ("order_id", VInt orderID);
            ("error", VStr "order_already_shipped");
            ("trace_id", TraceID span) ]
          "Order cancellation failed - order already shipped" ;;
        c_JSON http.StatusConflict (JError "Cannot cancel shipped order") ;;
        return_ tt
      else
      os <- gets orders ;;
      for_range os (fun i order =>
        if Order.ID order =? orderID then
          orders_set i (with_Status "cancelled") ;;
          updated <- time_Now ;;
          orders_set i (with_UpdatedAt updated) ;;
          logged <- time_Now ;;
          logrus_Info
            [ ("service", VStr serviceName);
              ("endpoint", VStr "/orders/:id/cancel");
              ("order_id", VInt orderID);
              ("user_id", VInt (Order.UserID order));
              ("total", VFloat (Order.Total order));
              ("cancelled_at", VTime logged);
              ("trace_id", TraceID span) ]
            "Order cancelled successfully" ;;
          answered <- time_Now ;;
          c_JSON http.StatusOK
            (JObject [ ("order_id", VInt orderID);
                       ("status", VStr "cancelled");
                       ("cancelled_at", VTime answered) ]) ;;
          return_ tt
        else ret tt) ;;
      span_SetAttributes span [("error", VStr "order_not_found")] ;;
      c_JSON http.StatusNotFound (JError "Order not found")
  end.

Definition trackingSteps : list string :=
  ["order_confirmed"; "processing"; "shipped"; "in_transit"; "delivered"].

Definition carriers : list string := ["UPS"; "FedEx"; "DHL"; "USPS"].

(** [getOrderTrackingHandler]; [id] is [c.Param("id")]. *)
Definition getOrderTrackingHandler (ctx : Ctx) (id : string)
    : Go unit unit :=
  ' (_, span) <- tracer_Start ctx "get_order_tracking" ;;
  defer span_End span ;;
  match strconv.Atoi id with
  | None =>
      span_SetAttributes span [("error", VStr "invalid_order_id")] ;;
      c_JSON http.StatusBadRequest (JError "Invalid order ID") ;;
      return_ tt
  | Some orderID =>
      span_SetAttributes span
        [ ("order.id", VInt orderID);
          ("endpoint", VStr "/orders/:id/tracking") ] ;;
      failure <- rand_Intn 100 ;;
      if failure <? 8 then
        span_SetAttributes span [("error", VStr "tracking_service_error")] ;;
        logrus_Error
          [ ("service", VStr serviceName);
            ("endpoint", VStr "/orders/:id/tracking");
            ("order_id", VInt orderID);
            ("error", VStr "external_tracking_api_timeout");
            ("trace_id", TraceID span) ]
          "Failed to retrieve tracking information" ;;
        c_JSON http.StatusServiceUnavailable
          (JError "Tracking service temporarily unavailable") ;;
        return_ tt
      else
      currentStep <- rand_Intn (Z.of_nat (List.length trackingSteps)) ;;
      current_status <- at_index trackingSteps currentStep ;;
      now_ <- time_Now ;;
      days <- rand_Intn 5 ;;
      number <- rand_Intn 10000 ;;
      c <- rand_Intn 4 ;;
      carrier <- at_index carriers c ;;
      let tracking :=
        JObject
          [ ("order_id", VInt orderID);
            ("current_status", VStr current_status);
            ("estimated_delivery", VTime (now_ + (days + 1) * 24 * 3600));
            ("tracking_number",
             VStr ("TRK-" ++ strconv.Itoa orderID ++ "-"
                     ++ strconv.Itoa number));
            ("carrier", VStr carrier) ] in
      logged_status <- at_index trackingSteps currentStep ;;
      logrus_Info
        [ ("service", VStr serviceName);
          ("endpoint", VStr "/orders/:id/tracking");
          ("order_id", VInt orderID);
          ("current_status", VStr logged_status);
          ("trace_id", TraceID span) ]
        "Order tracking retrieved successfully" ;;
      c_JSON http.StatusOK tracking
  end.

(** [processRefundHandler]; [id] is [c.Param("id")] and [body] the
    request as bound by [c.ShouldBindJSON], [None] when binding
    fails. *)
Definition processRefundHandler (ctx : Ctx) (id : string)
    (body : option RefundRequest.t) : Go unit unit :=
  ' (_, span) <- tracer_Start ctx "process_refund" ;;
  defer span_End span ;;
  match strconv.Atoi id with
  | None =>
      span_SetAttributes span [("error", VStr "invalid_order_id")] ;;
      c_JSON http.StatusBadRequest (JError "Invalid order ID") ;;
      return_ tt
  | Some orderID =>
  match body with
  | None =>
      span_SetAttributes span [("error", VStr "invalid_request")] ;;
      c_JSON http.StatusBadRequest (JError "Invalid request") ;;
      return_ tt
  | Some request =>
      let Amount := RefundRequest.Amount request in
      let Reason := RefundRequest.Reason request in
      span_SetAttributes span
        [ ("order.id", VInt orderID);
          ("refund.amount", VFloat Amount);
          ("endpoint", VStr "/orders/:id/refund") ] ;;
      failure <- rand_Intn 100 ;;
      if failure <? 12 then
        span_SetAttributes span [("error", VStr "refund_failed")] ;;
        logrus_Error
          [ ("service", VStr serviceName);
            ("endpoint", VStr "/orders/:id/refund");
            ("order_id", VInt orderID);
            ("amount", VFloat Amount);
            ("error", VStr "payment_gateway_declined");
            ("trace_id", TraceID span) ]
          "Refund processing failed - payment gateway declined" ;;
        c_JSON http.StatusPaymentRequired
          (JError "Refund could not be processed") ;;
        return_ tt
      else
      unix <- time_Now ;;
      let refundID :=
        "REF-" ++ strconv.Itoa orderID ++ "-" ++ strconv.Itoa unix in
      logged <- time_Now ;;
      logrus_Info
        [ ("service", VStr serviceName);
          ("endpoint", VStr "/orders/:id/refund");
          ("order_id", VInt orderID);
          ("refund_id", VStr refundID);
          ("amount", VFloat Amount);
          ("reason", VStr Reason);
          ("processed_at", VTime logged);
          ("trace_id", TraceID span) ]
        "Refund processed successfully" ;;
      answered <- time_Now ;;
      c_JSON http.StatusOK
        (JObject [ ("refund_id", VStr refundID);
                   ("order_id", VInt orderID);
                   ("amount", VFloat Amount);
                   ("status", VStr "processed");
                   ("processed_at", VTime answered) ])
  end
  end.

(** [getOrderAnalyticsHandler]. *)
Definition getOrderAnalyticsHandler (ctx : Ctx) : Go unit unit :=
  ' (_, span) <- tracer_Start ctx "get_order_analytics" ;;
  defer span_End span ;;
  span_SetAttributes span [("endpoint", VStr "/analytics/orders")] ;;
  n <- rand_Intn 300 ;;
  time_Sleep (n + 100) ;;
  failure <- rand_Intn 100 ;;
  if failure <? 7 then
    span_SetAttributes span
      [("error", VStr "analytics_calculation_error")] ;;
    logrus_Error
      [ ("service", VStr serviceName);
        ("endpoint", VStr "/analytics/orders");
        ("error", VStr "data_aggregation_timeout");
        ("trace_id", TraceID span) ]
      "Failed to calculate order analytics" ;;
    c_JSON http.StatusServiceUnavailable
      (JError "Analytics service unavailable") ;;
    return_ tt
  else
  os <- gets orders ;;
  more <- rand_Intn 1000 ;;
  revenue <- rand_Float64 ;;
  average <- rand_Float64 ;;
  conversion <- rand_Float64 ;;
  credit_card <- rand_Intn 60 ;;
  paypal <- rand_Intn 30 ;;
  apple_pay <- rand_Intn 20 ;;
  let total_orders :=
    VInt (GoInt.add (Z.of_nat (List.length os)) more) in
  let revenue_today := VFloat (revenue * 50000 + 10000)%float in
  let analytics :=
    JObject
      [ ("total_orders", total_orders);
        ("revenue_today", revenue_today);
        ("avg_order_value", VFloat (average * 200 + 50)%float);
        ("conversion_rate",
         VSprintf "%.2f%%" [VFloat (conversion * 5 + 2)%float]);
        ("top_categories",
         VList [VStr "Electronics"; VStr "Sports"; VStr "Home"]);
        ("payment_methods",
         VMap [ ("credit_card", VInt (credit_card + 40));
                ("paypal", VInt (paypal + 15));
                ("apple_pay", VInt (apple_pay + 10)) ]) ] in
  logrus_Info
    [ ("service", VStr serviceName);
      ("endpoint", VStr "/analytics/orders");
      ("total_orders", total_orders);
      ("revenue_today", revenue_today);
      ("trace_id", TraceID span) ]
    "Order analytics calculated successfully" ;;
  c_JSON http.StatusOK analytics.

(** The routes of [main] besides [POST /orders] and those of
    [OrderQueries.Route]. *)
Inductive Route : Type :=
| GET_health
| GET_orders
| GET_orders_user_user_id (user_id : string)
| POST_payments_id (id : string) (body : option PaymentRequest.t)
| POST_orders_id_cancel (id : string)
| GET_orders_id_tracking (id : string)
| POST_orders_id_refund (id : string) (body : option RefundRequest.t)
| GET_analytics_orders
| GET_payments_id (id : string).

Definition route_method (r : Route) : string :=
  match r with
  | GET_health => "GET"
  | GET_orders => "GET"
  | GET_orders_user_user_id _ => "GET"
  | POST_payments_id _ _ => "POST"
  | POST_orders_id_cancel _ => "POST"
  | GET_orders_id_tracking _ => "GET"
  | POST_orders_id_refund _ _ => "POST"
  | GET_analytics_orders => "GET"
  | GET_payments_id _ => "GET"
  end.

Definition route_pattern (r : Route) : string :=
  match r with
  | GET_health => "/health"
  | GET_orders => "/orders"
  | GET_orders_user_user_id _ => "/orders/user/:user_id"
  | POST_payments_id _ _ => "/payments/:id"
  | POST_orders_id_cancel _ => "/orders/:id/cancel"
  | GET_orders_id_tracking _ => "/orders/:id/tracking"
  | POST_orders_id_refund _ _ => "/orders/:id/refund"
  | GET_analytics_orders => "/analytics/orders"
  | GET_payments_id _ => "/payments/:id"
  end.

Definition route_path (r : Route) : string :=
  match r with
  | GET_health => "/health"
  | GET_orders => "/orders"
  | GET_orders_user_user_id user_id => "/orders/user/" ++ user_id
  | POST_payments_id id _ => "/payments/" ++ id
  | POST_orders_id_cancel id => "/orders/" ++ id ++ "/cancel"
  | GET_orders_id_tracking id => "/orders/" ++ id ++ "/tracking"
  | POST_orders_id_refund id _ => "/orders/" ++ id ++ "/refund"
  | GET_analytics_orders => "/analytics/orders"
  | GET_payments_id id => "/payments/" ++ id
  end.

Definition handler (r : Route) (ctx : Ctx) : Go unit unit :=
  match r with
  | GET_health => healthHandler ctx
  | GET_orders => getOrdersHandler ctx
  | GET_orders_user_user_id user_id => getUserOrdersHandler ctx user_id
  | POST_payments_id id body => processPaymentHandler ctx id body
  | POST_orders_id_cancel id => cancelOrderHandler ctx id
  | GET_orders_id_tracking id => getOrderTrackingHandler ctx id
  | POST_orders_id_refund id body => processRefundHandler ctx id body
  | GET_analytics_orders => getOrderAnalyticsHandler ctx
  | GET_payments_id id => getPaymentHandler ctx id
  end.

(** A request through the engine of [main]:
    [otelgin.Middleware], [loggingMiddleware], then the handler. *)
Definition serve {R} (info : RequestInfo) (r : Route) : Go R Response :=
  gin_serve
    (otelgin_Middleware info (route_pattern r) (fun ctx =>
       loggingMiddleware info (route_method r) (route_path r)
         (handler r ctx))).

End OrderRoutes.

(* ================================================================== *)
(** ** The three services, by request *)

Module Services.

(** A request to one of the three services, by the route of the [main]
    it is for.  The engine sends a path that is a route of its own to
    that route: [GET /products/search] is a search, not the product
    ["search"]. *)
Inductive Request : Type :=
| UserRequest (r : UserService.Route)
| UserRequest' (r : UserRoutes.Route)
| ProductRequest (r : ProductService.Route)
| ProductRequest' (r : ProductRoutes.Route)
| POST_orders (body : option CreateOrderRequest.t)
| OrderRequest (r : OrderQueries.Route)
| OrderRequest' (r : OrderRoutes.Route).

Definition service (q : Request) : string :=
  match q with
  | UserRequest _ | UserRequest' _ => UserService.serviceName
  | ProductRequest _ | ProductRequest' _ => ProductService.serviceName
  | POST_orders _ | OrderRequest _ | OrderRequest' _ =>
      OrderService.serviceName
  end.

Definition method (q : Request) : string :=
  match q with
  | UserRequest r => UserService.route_method r
  | UserRequest' r => UserRoutes.route_method r
  | ProductRequest r => ProductService.route_method r
  | ProductRequest' r => ProductRoutes.route_method r
  | POST_orders _ => "POST"
  | OrderRequest r => OrderQueries.route_method r
  | OrderRequest' r => OrderRoutes.route_method r
  end.

Definition pattern (q : Request) : string :=
  match q with
  | UserRequest r => UserService.route_pattern r
  | UserRequest' r => UserRoutes.route_pattern r
  | ProductRequest r => ProductService.route_pattern r
  | ProductRequest' r => ProductRoutes.route_pattern r
  | POST_orders _ => "/orders"
  | OrderRequest r => OrderQueries.route_pattern r
  | OrderRequest' r => OrderRoutes.route_pattern r
  end.

(** The handler [main] registers for the route of [q]. *)
Definition handler (info : RequestInfo) (q : Request) (ctx : Ctx)
    : Go unit unit :=
  match q with
  | UserRequest r => UserService.handler r ctx
  | UserRequest' r => UserRoutes.handler r ctx
  | ProductRequest r => ProductService.handler r ctx
  | ProductRequest' r => ProductRoutes.handler info r ctx
  | POST_orders body => OrderService.createOrderHandler ctx body
  | OrderRequest r => OrderQueries.handler r ctx
  | OrderRequest' r => OrderRoutes.handler r ctx
  end.

(** The request through the engine of its service. *)
Definition serve {R} (info : RequestInfo) (q : Request) : Go R Response :=
  match q with
  | UserRequest r => UserService.serve info r
  | UserRequest' r => UserRoutes.serve info r
  | ProductRequest r => ProductService.serve info r
  | ProductRequest' r => ProductRoutes.serve info r
  | POST_orders body => OrderService.serve_createOrder info body
  | OrderRequest r => OrderQueries.serve info r
  | OrderRequest' r => OrderRoutes.serve info r
  end.

(** The routes the three [main] functions register: service, method
    and pattern, in the order of the sources. *)
Definition registered : list (string * string * string) :=
  [ ("user-service", "GET", "/health");
    ("user-service", "POST", "/auth/login");
    ("user-service", "POST", "/auth/register");
    ("user-service", "GET", "/users/:id");
    ("user-service", "GET", "/users/:id/profile");
    ("user-service", "GET", "/users/:id/favorites");
    ("user-service", "POST", "/users/:id/preferences");
    ("user-service", "GET", "/users/search");
    ("user-service", "POST", "/auth/refresh");
    ("product-service", "GET", "/health");
    ("product-service", "GET", "/products");
    ("product-service", "GET", "/products/:id");
    ("product-service", "GET", "/products/search");
    ("product-service", "GET", "/products/favorites/:user_id");
    ("product-service", "GET", "/inventory/:id");
    ("product-service", "POST", "/inventory/:id/reserve");
    ("product-service", "POST", "/inventory/:id/release");
    ("product-service", "GET", "/products/trending");
    ("product-service", "POST", "/products/:id/view");
    ("product-service", "GET", "/products/category/:category");
    ("product-service", "PUT", "/products/:id/price");
    ("order-service", "GET", "/health");
    ("order-service", "GET", "/orders");
    ("order-service", "GET", "/orders/:id");
    ("order-service", "POST", "/orders");
    ("order-service", "PUT", "/orders/:id/status");
    ("order-service", "GET", "/orders/user/:user_id");
    ("order-service", "POST", "/payments/:id");
    ("order-service", "POST", "/orders/:id/cancel");
    ("order-service", "GET", "/orders/:id/tracking");
    ("order-service", "POST", "/orders/:id/refund");
    ("order-service", "GET", "/analytics/orders");
    ("order-service", "GET", "/payments/:id") ].

End Services.

(* ================================================================== *)
(** ** traffic-generator *)

Module TrafficGenerator.

Definition serviceName : string := "traffic-generator".

Definition error : Type := option string.

Definition is_error (err : error) : bool :=
  match err with Some _ => true | None => false end.

Definition err_Error (err : error) : string :=
  match err with Some msg => msg | None => "" end.

Definition user_service : string := "http://user-service:8081".
Definition product_service : string := "http://product-service:8082".
Definition order_service : string := "http://order-service:8083".

(** [xs[rand.Intn(len(xs))]]; an index out of range panics. *)
Definition pick {R} (xs : list string) : Go R string :=
  i <- rand_Intn (Z.of_nat (List.length xs)) ;;
  fun w =>
    match nth_error xs (Z.to_nat i) with
    | Some x => (Next x, w)
    | None => (Panic, w)
    end.

(** [trace.SpanFromContext(ctx).SpanContext().TraceID().String()]. *)
Definition ctx_TraceID (ctx : Ctx) : Value :=
  match ctx with
  | Some s => TraceID s
  | None => VStr "00000000000000000000000000000000"
  end.

(** [http.Get(url)], the plain client of [waitForServices]: the status
    code of the answer, or [None] for an error. *)
Definition http_Get {R} (url : URL) : Go R (option Z) :=
  emit (HTTPGet url) ;;
  t <- next_tick ;;
  src <- gets peerSrc ;;
  emit (HTTPResult url (src t)) ;;
  ret (src t).

(** [makeRequest].  Marshalling the payloads of this program and building
    its requests do not fail.  The body of the response is read to its
    end, which ends the client span of the transport, before the
    response is returned; the [Close] that was deferred finds the span
    ended. *)
Definition makeRequest (ctx : Ctx) (method : string) (url : URL)
    (payload : option Value)
    : Go (option Response * error) (option Response * error) :=
  ' (_, client) <- otelhttp_Start ctx method ;;
  emit (HTTPDo method url) ;;
  t <- next_tick ;;
  src <- gets peerSrc ;;
  emit (HTTPResult url (src t)) ;;
  match src t with
  | None =>
      span_End client ;;
      logrus_Error
        [ ("service", VStr serviceName);
          ("method", VStr method);
          ("url", VStr (url_String url));
          ("error", VStr "request failed");
          ("trace_id", ctx_TraceID ctx) ]
        "HTTP request failed" ;;
      return_ (None, Some "request failed")
  | Some code =>
      span_SetAttributes client [("http.status_code", VInt code)] ;;
      io_Copy_Discard client ;;
      logrus_Info
        [ ("service", VStr serviceName);
          ("method", VStr method);
          ("url", VStr (url_String url));
          ("status_code", VInt code);
          ("trace_id", ctx_TraceID ctx) ]
        "HTTP request completed" ;;
      return_ (Some (mkResponse code JNone), None)
  end.

(** The three health endpoints of [waitForServices] and
    [generateHealthChecks]. *)
Definition services : list URL :=
  [ mkURL user_service ["health"];
    mkURL product_service ["health"];
    mkURL order_service ["health"] ].

(** The inner [for { ... }] of [waitForServices], observed for at most
    [rounds] polls. *)
Fixpoint poll (rounds : nat) (service : URL) : Go unit unit :=
  match rounds with
  | O => fun w => (Running, w)
  | S rounds' =>
      resp <- http_Get service ;;
      if match resp with Some code => code =? http.StatusOK | None => false end
      then
        logrus_Info [("service", VStr (url_String service))]
          "Service is ready"
      else
        logrus_Info [("service", VStr (url_String service))]
          "Waiting for service to be ready..." ;;
        time_Sleep 5000 ;;
        poll rounds' service
  end.

(** [waitForServices]. *)
Definition waitForServices (rounds : nat) : Go unit unit :=
  for_range services (fun _ service => poll rounds service) ;;
  logrus_Info [] "All services are ready, starting traffic generation".

(* ------------------------------------------------------------------ *)
(** *** User service calls *)

Definition performLogin (ctx : Ctx) (email : string) : Go bool bool :=
  ' (childCtx, span) <- tracer_Start ctx "login_request" ;;
  defer span_End span ;;
  let payload :=
    VMap [("email", VStr email); ("password", VStr "password123")] in
  ' (resp, err) <- call (makeRequest childCtx "POST"
                          (mkURL user_service ["auth"; "login"])
                          (Some payload)) ;;
  if is_error err then
    span_SetAttributes span [("error", VStr (err_Error err))] ;;
    return_ false
  else
  resp <- deref resp ;;
  let success := StatusCode resp =? http.StatusOK in
  span_SetAttributes span
    [ ("login.success", VBool success);
      ("http.status_code", VInt (StatusCode resp)) ] ;;
  return_ success.

Definition performRegistration (ctx : Ctx) (email : string) : Go bool bool :=
  ' (childCtx, span) <- tracer_Start ctx "registration_request" ;;
  defer span_End span ;;
  n <- rand_Intn 1000 ;;
  let payload :=
    VMap [ ("email", VStr email);
           ("name", VStr ("User " ++ strconv.Itoa n));
           ("password", VStr "password123") ] in
  ' (resp, err) <- call (makeRequest childCtx "POST"
                          (mkURL user_service ["auth"; "register"])
                          (Some payload)) ;;
  if is_error err then
    span_SetAttributes span [("error", VStr (err_Error err))] ;;
    return_ false
  else
  resp <- deref resp ;;
  let success := StatusCode resp =? http.StatusCreated in
  span_SetAttributes span
    [ ("registration.success", VBool success);
      ("http.status_code", VInt (StatusCode resp)) ] ;;
  return_ success.

Definition getUserProfile (ctx : Ctx) (userID : Z) : Go unit unit :=
  ' (childCtx, span) <- tracer_Start ctx "get_user_profile" ;;
  defer span_End span ;;
  let url := mkURL user_service ["users"; strconv.Itoa userID; "profile"] in
  ' (resp, err) <- call (makeRequest childCtx "GET" url None) ;;
  if is_error err then
    span_SetAttributes span [("error", VStr (err_Error err))] ;;
    return_ tt
  else
  resp <- deref resp ;;
  span_SetAttributes span
    [ ("user.id", VInt userID);
      ("http.status_code", VInt (StatusCode resp)) ].

Definition getUserFavorites (ctx : Ctx) (userID : Z) : Go unit unit :=
  ' (childCtx, span) <- tracer_Start ctx "get_user_favorites" ;;
  defer span_End span ;;
  let url := mkURL user_service ["users"; strconv.Itoa userID; "favorites"] in
  ' (resp, err) <- call (makeRequest childCtx "GET" url None) ;;
  if is_error err then
    span_SetAttributes span [("error", VStr (err_Error err))] ;;
    return_ tt
  else
  resp <- deref resp ;;
  span_SetAttributes span
    [ ("user.id", VInt userID);
      ("http.status_code", VInt (StatusCode resp)) ].

(* ------------------------------------------------------------------ *)
(** *** Product service calls *)

Definition getAllProducts (ctx : Ctx) : Go unit unit :=
  ' (childCtx, span) <- tracer_Start ctx "get_all_products" ;;
  defer span_End span ;;
  ' (resp, err) <- call (makeRequest childCtx "GET"
                          (mkURL product_service ["products"]) None) ;;
  if is_error err then
    span_SetAttributes span [("error", VStr (err_Error err))] ;;
    return_ tt
  else
  resp <- deref resp ;;
  span_SetAttributes span [("http.status_code", VInt (StatusCode resp))].

(** The query string [searchProducts] appends to its URL. *)
Definition search_query (query category : string) : string :=
  if negb (String.eqb query "") || negb (String.eqb category "") then
    "?" ++ (if negb (String.eqb query "") then "q=" ++ query else "")
        ++ (if negb (String.eqb category "") then
              (if negb (String.eqb query "") then "&" else "")
                ++ "category=" ++ category
            else "")
  else "".

Definition searchProducts (ctx : Ctx) (query category : string)
    : Go unit unit :=
  ' (childCtx, span) <- tracer_Start ctx "search_products" ;;
  defer span_End span ;;
  let url :=
    mkURL product_service
      ["products"; "search" ++ search_query query category] in
  ' (resp, err) <- call (makeRequest childCtx "GET" url None) ;;
  if is_error err then
    span_SetAttributes span [("error", VStr (err_Error err))] ;;
    return_ tt
  else
  resp <- deref resp ;;
  span_SetAttributes span
    [ ("search.query", VStr query);
      ("search.category", VStr category);
      ("http.status_code", VInt (StatusCode resp)) ].

Definition getProduct (ctx : Ctx) (productID : Z) : Go unit unit :=
  ' (childCtx, span) <- tracer_Start ctx "get_product" ;;
  defer span_End span ;;
  let url := mkURL product_service ["products"; strconv.Itoa productID] in
  ' (resp, err) <- call (makeRequest childCtx "GET" url None) ;;
  if is_error err then
    span_SetAttributes span [("error", VStr (err_Error err))] ;;
    return_ tt
  else
  resp <- deref resp ;;
  span_SetAttributes span
    [ ("product.id", VInt productID);
      ("http.status_code", VInt (StatusCode resp)) ].

Definition getInventory (ctx : Ctx) (productID : Z) : Go unit unit :=
  ' (childCtx, span) <- tracer_Start ctx "get_inventory" ;;
  defer span_End span ;;
  let url := mkURL product_service ["inventory"; strconv.Itoa productID] in
  ' (resp, err) <- call (makeRequest childCtx "GET" url None) ;;
  if is_error err then
    span_SetAttributes span [("error", VStr (err_Error err))] ;;
    return_ tt
  else
  resp <- deref resp ;;
  span_SetAttributes span
    [ ("product.id", VInt productID);
      ("http.status_code", VInt (StatusCode resp)) ].

(* ------------------------------------------------------------------ *)
(** *** Order service calls *)

(** The loop of [createOrder] that fills [items]. *)
Fixpoint random_items {R} (itemCount : nat) : Go R (list Value) :=
  match itemCount with
  | O => ret []
  | S n =>
      product_id <- rand_Intn 8 ;;
      quantity <- rand_Intn 3 ;;
      rest <- random_items n ;;
      ret (VMap [ ("product_id", VInt (product_id + 1));
                  ("quantity", VInt (quantity + 1)) ] :: rest)
  end.

(** The [id] of the order in a response body, as [createOrder] reads
    it: [None] when the body does not parse or has no numeric [id]. *)
Definition response_order_id (body : JSON) : option Z :=
  match body with
  | JOrder o => Some (Order.ID o)
  | JUser u => Some (User.ID u)
  | JProduct p => Some (Product.ID p)
  | JObject fields =>
      match field "id" fields with
      | Some (VInt z) => Some z
      | _ => None
      end
  | _ => None
  end.

Definition createOrder (ctx : Ctx) (userID : Z) : Go Z Z :=
  ' (childCtx, span) <- tracer_Start ctx "create_order" ;;
  defer span_End span ;;
  n <- rand_Intn 3 ;;
  let itemCount := n + 1 in
  items <- random_items (Z.to_nat itemCount) ;;
  let payload := VMap [("user_id", VInt userID); ("items", VList items)] in
  ' (resp, err) <- call (makeRequest childCtx "POST"
                          (mkURL order_service ["orders"]) (Some payload)) ;;
  if is_error err then
    span_SetAttributes span [("error", VStr (err_Error err))] ;;
    return_ 0
  else
  resp <- deref resp ;;
  span_SetAttributes span
    [ ("user.id", VInt userID);
      ("items.count", VInt itemCount);
      ("http.status_code", VInt (StatusCode resp)) ] ;;
  (if StatusCode resp =? http.StatusCreated then
     match response_order_id (Body resp) with
     | Some orderID => return_ orderID
     | None => ret tt
     end
   else ret tt) ;;
  return_ 0.

Definition processPayment (ctx : Ctx) (orderID : Z) : Go unit unit :=
  ' (childCtx, span) <- tracer_Start ctx "process_payment" ;;
  defer span_End span ;;
  method <- pick ["credit_card"; "paypal"; "debit_card"] ;;
  f <- rand_Float64 ;;
  let payload :=
    VMap [ ("payment_method", VStr method);
           ("amount", VFloat (PrimFloat.add (PrimFloat.mul f 500) 50)) ] in
  let url := mkURL order_service ["payments"; strconv.Itoa orderID] in
  ' (resp, err) <- call (makeRequest childCtx "POST" url (Some payload)) ;;
  if is_error err then
    span_SetAttributes span [("error", VStr (err_Error err))] ;;
    return_ tt
  else
  resp <- deref resp ;;
  span_SetAttributes span
    [ ("order.id", VInt orderID);
      ("http.status_code", VInt (StatusCode resp)) ].

Definition getOrder (ctx : Ctx) (orderID : Z) : Go unit unit :=
  ' (childCtx, span) <- tracer_Start ctx "get_order" ;;
  defer span_End span ;;
  let url := mkURL order_service ["orders"; strconv.Itoa orderID] in
  ' (resp, err) <- call (makeRequest childCtx "GET" url None) ;;
  if is_error err then
    span_SetAttributes span [("error", VStr (err_Error err))] ;;
    return_ tt
  else
  resp <- deref resp ;;
  span_SetAttributes span
    [ ("order.id", VInt orderID);
      ("http.status_code", VInt (StatusCode resp)) ].

Definition updateOrderStatus (ctx : Ctx) (orderID : Z) (status : string)
    : Go unit unit :=
  ' (childCtx, span) <- tracer_Start ctx "update_order_status" ;;
  defer span_End span ;;
  let payload := VMap [("status", VStr status)] in
  let url := mkURL order_service ["orders"; strconv.Itoa orderID; "status"] in
  ' (resp, err) <- call (makeRequest childCtx "PUT" url (Some payload)) ;;
  if is_error err then
    span_SetAttributes span [("error", VStr (err_Error err))] ;;
    return_ tt
  else
  resp <- deref resp ;;
  span_SetAttributes span
    [ ("order.id", VInt orderID);
      ("order.status", VStr status);
      ("http.status_code", VInt (StatusCode resp)) ].

Definition getUserOrders (ctx : Ctx) (userID : Z) : Go unit unit :=
  ' (childCtx, span) <- tracer_Start ctx "get_user_orders" ;;
  defer span_End span ;;
  let url := mkURL order_service ["orders"; "user"; strconv.Itoa userID] in
  ' (resp, err) <- call (makeRequest childCtx "GET" url None) ;;
  if is_error err then
    span_SetAttributes span [("error", VStr (err_Error err))] ;;
    return_ tt
  else
  resp <- deref resp ;;
  span_SetAttributes span
    [ ("user.id", VInt userID);
      ("http.status_code", VInt (StatusCode resp)) ].

Definition getAllOrders (ctx : Ctx) : Go unit unit :=
  ' (childCtx, span) <- tracer_Start ctx "get_all_orders" ;;
  defer span_End span ;;
  ' (resp, err) <- call (makeRequest childCtx "GET"
                          (mkURL order_service ["orders"]) None) ;;
  if is_error err then
    span_SetAttributes span [("error", VStr (err_Error err))] ;;
    return_ tt
  else
  resp <- deref resp ;;
  span_SetAttributes span [("http.status_code", VInt (StatusCode resp))].

(* ------------------------------------------------------------------ *)
(** *** New endpoint functions *)

Definition updateUserPreferences (ctx : Ctx) (userID : Z) : Go unit unit :=
  ' (childCtx, span) <- tracer_Start ctx "update_user_preferences" ;;
  defer span_End span ;;
  notifications <- rand_Intn 2 ;;
  marketing_emails <- rand_Intn 2 ;;
  theme <- pick ["light"; "dark"] ;;
  language <- pick ["en"; "es"; "fr"] ;;
  let payload :=
    VMap [ ("preferences",
            VMap [ ("notifications", VBool (notifications =? 1));
                   ("marketing_emails", VBool (marketing_emails =? 1));
                   ("theme", VStr theme);
                   ("language", VStr language) ]) ] in
  let url :=
    mkURL user_service ["users"; strconv.Itoa userID; "preferences"] in
  ' (resp, err) <- call (makeRequest childCtx "POST" url (Some payload)) ;;
  if is_error err then
    span_SetAttributes span [("error", VStr (err_Error err))] ;;
    return_ tt
  else
  resp <- deref resp ;;
  span_SetAttributes span
    [ ("user.id", VInt userID);
      ("http.status_code", VInt (StatusCode resp)) ].

Definition searchUsers (ctx : Ctx) : Go unit unit :=
  ' (childCtx, span) <- tracer_Start ctx "search_users" ;;
  defer span_End span ;;
  query <- pick ["john"; "jane"; "alice"; "test"; "user"] ;;
  limit <- rand_Intn 20 ;;
  let url :=
    mkURL user_service
      [ "users";
        "search?q=" ++ query ++ "&limit=" ++ strconv.Itoa (limit + 5) ] in
  ' (resp, err) <- call (makeRequest childCtx "GET" url None) ;;
  if is_error err then
    span_SetAttributes span [("error", VStr (err_Error err))] ;;
    return_ tt
  else
  resp <- deref resp ;;
  span_SetAttributes span
    [ ("search.query", VStr query);
      ("http.status_code", VInt (StatusCode resp)) ].

Definition refreshUserToken (ctx : Ctx) : Go unit unit :=
  ' (childCtx, span) <- tracer_Start ctx "refresh_user_token" ;;
  defer span_End span ;;
  n <- rand_Intn 1000 ;;
  let payload :=
    VMap [("refresh_token", VStr ("refresh_token_" ++ strconv.Itoa n))] in
  ' (resp, err) <- call (makeRequest childCtx "POST"
                          (mkURL user_service ["auth"; "refresh"])
                          (Some payload)) ;;
  if is_error err then
    span_SetAttributes span [("error", VStr (err_Error err))] ;;
    return_ tt
  else
  resp <- deref resp ;;
  span_SetAttributes span [("http.status_code", VInt (StatusCode resp))].

Definition getTrendingProducts (ctx : Ctx) : Go unit unit :=
  ' (childCtx, span) <- tracer_Start ctx "get_trending_products" ;;
  defer span_End span ;;
  ' (resp, err) <- call (makeRequest childCtx "GET"
                          (mkURL product_service ["products"; "trending"])
                          None) ;;
  if is_error err then
    span_SetAttributes span [("error", VStr (err_Error err))] ;;
    return_ tt
  else
  resp <- deref resp ;;
  span_SetAttributes span [("http.status_code", VInt (StatusCode resp))].

Definition recordProductView (ctx : Ctx) (productID : Z) : Go unit unit :=
  ' (childCtx, span) <- tracer_Start ctx "record_product_view" ;;
  defer span_End span ;;
  user_agent <- pick ["Chrome"; "Firefox"; "Safari"; "Edge"] ;;
  referrer <- pick ["google.com"; "direct"; "facebook.com"; "twitter.com"] ;;
  let payload :=
    VMap [("user_agent", VStr user_agent); ("referrer", VStr referrer)] in
  let url :=
    mkURL product_service ["products"; strconv.Itoa productID; "view"] in
  ' (resp, err) <- call (makeRequest childCtx "POST" url (Some payload)) ;;
  if is_error err then
    span_SetAttributes span [("error", VStr (err_Error err))] ;;
    return_ tt
  else
  resp <- deref resp ;;
  span_SetAttributes span
    [ ("product.id", VInt productID);
      ("http.status_code", VInt (StatusCode resp)) ].

Definition getProductsByCategory (ctx : Ctx) (category : string)
    : Go unit unit :=
  ' (childCtx, span) <- tracer_Start ctx "get_products_by_category" ;;
  defer span_End span ;;
  let url := mkURL product_service ["products"; "category"; category] in
  ' (resp, err) <- call (makeRequest childCtx "GET" url None) ;;
  if is_error err then
    span_SetAttributes span [("error", VStr (err_Error err))] ;;
    return_ tt
  else
  resp <- deref resp ;;
  span_SetAttributes span
    [ ("product.category", VStr category);
      ("http.status_code", VInt (StatusCode resp)) ].

Definition updateProductPrice (ctx : Ctx) (productID : Z) : Go unit unit :=
  ' (childCtx, span) <- tracer_Start ctx "update_product_price" ;;
  defer span_End span ;;
  f <- rand_Float64 ;;
  let payload :=
    VMap [("price", VFloat (PrimFloat.add (PrimFloat.mul f 500) 50))] in
  let url :=
    mkURL product_service ["products"; strconv.Itoa productID; "price"] in
  ' (resp, err) <- call (makeRequest childCtx "PUT" url (Some payload)) ;;
  if is_error err then
    span_SetAttributes span [("error", VStr (err_Error err))] ;;
    return_ tt
  else
  resp <- deref resp ;;
  span_SetAttributes span
    [ ("product.id", VInt productID);
      ("http.status_code", VInt (StatusCode resp)) ].

Definition cancelOrder (ctx : Ctx) (orderID : Z) : Go unit unit :=
  ' (childCtx, span) <- tracer_Start ctx "cancel_order" ;;
  defer span_End span ;;
  let url := mkURL order_service ["orders"; strconv.Itoa orderID; "cancel"] in
  ' (resp, err) <- call (makeRequest childCtx "POST" url None) ;;
  if is_error err then
    span_SetAttributes span [("error", VStr (err_Error err))] ;;
    return_ tt
  else
  resp <- deref resp ;;
  span_SetAttributes span
    [ ("order.id", VInt orderID);
      ("http.status_code", VInt (StatusCode resp)) ].

Definition getOrderTracking (ctx : Ctx) (orderID : Z) : Go unit unit :=
  ' (childCtx, span) <- tracer_Start ctx "get_order_tracking" ;;
  defer span_End span ;;
  let url :=
    mkURL order_service ["orders"; strconv.Itoa orderID; "tracking"] in
  ' (resp, err) <- call (makeRequest childCtx "GET" url None) ;;
  if is_error err then
    span_SetAttributes span [("error", VStr (err_Error err))] ;;
    return_ tt
  else
  resp <- deref resp ;;
  span_SetAttributes span
    [ ("order.id", VInt orderID);
      ("http.status_code", VInt (StatusCode resp)) ].

Definition processRefund (ctx : Ctx) (orderID : Z) : Go unit unit :=
  ' (childCtx, span) <- tracer_Start ctx "process_refund" ;;
  defer span_End span ;;
  f <- rand_Float64 ;;
  reason <- pick [ "damaged_item"; "wrong_size"; "not_as_described";
                   "customer_request" ] ;;
  let payload :=
    VMap [ ("amount", VFloat (PrimFloat.add (PrimFloat.mul f 200) 20));
           ("reason", VStr reason) ] in
  let url := mkURL order_service ["orders"; strconv.Itoa orderID; "refund"] in
  ' (resp, err) <- call (makeRequest childCtx "POST" url (Some payload)) ;;
  if is_error err then
    span_SetAttributes span [("error", VStr (err_Error err))] ;;
    return_ tt
  else
  resp <- deref resp ;;
  span_SetAttributes span
    [ ("order.id", VInt orderID);
      ("http.status_code", VInt (StatusCode resp)) ].

Definition getOrderAnalytics (ctx : Ctx) : Go unit unit :=
  ' (childCtx, span) <- tracer_Start ctx "get_order_analytics" ;;
  defer span_End span ;;
  ' (resp, err) <- call (makeRequest childCtx "GET"
                          (mkURL order_service ["analytics"; "orders"])
                          None) ;;
  if is_error err then
    span_SetAttributes span [("error", VStr (err_Error err))] ;;
    return_ tt
  else
  resp <- deref resp ;;
  span_SetAttributes span [("http.status_code", VInt (StatusCode resp))].

(* ------------------------------------------------------------------ *)
(** *** The scenario loops

    Each [generate...] function is a [for range time.Tick(d)] loop;
    what follows is the body of one iteration. *)

Definition userEmails : list string :=
  [ "customer1@example.com"; "customer2@example.com"; "buyer@example.com";
    "shopper@example.com"; "user123@example.com" ].

(** One iteration of [generateUserTraffic]. *)
Definition generateUserTraffic : Go unit unit :=
  ' (ctx, span) <- tracer_Start None "user_workflow" ;;
  scenario <- rand_Intn 100 ;;
  (if scenario <? 30 then
     email <- pick userEmails ;;
     span_SetAttributes span
       [ ("workflow.type", VStr "login"); ("user.email", VStr email) ] ;;
     success <- call (performLogin ctx email) ;;
     if success : bool then
       n <- rand_Intn 5 ;;
       call (getUserProfile ctx (n + 1))
     else ret tt
   else if scenario <? 60 then
     n <- rand_Intn 1000 ;;
     let newEmail := "newuser" ++ strconv.Itoa n ++ "@example.com" in
     span_SetAttributes span
       [ ("workflow.type", VStr "registration");
         ("user.email", VStr newEmail) ] ;;
     _ <- call (performRegistration ctx newEmail) ;;
     ret tt
   else
     n <- rand_Intn 5 ;;
     let userID := n + 1 in
     span_SetAttributes span
       [ ("workflow.type", VStr "favorites"); ("user.id", VInt userID) ] ;;
     call (getUserFavorites ctx userID)) ;;
  span_End span.

Definition searchTerms : list string :=
  ["laptop"; "phone"; "shoes"; "coffee"; "headphones"; "watch"; "backpack"].

Definition categories : list string :=
  ["Electronics"; "Sports"; "Home"; "Travel"].

(** One iteration of [generateProductTraffic]. *)
Definition generateProductTraffic : Go unit unit :=
  ' (ctx, span) <- tracer_Start None "product_workflow" ;;
  scenario <- rand_Intn 100 ;;
  (if scenario <? 25 then
     span_SetAttributes span [("workflow.type", VStr "browse_all")] ;;
     call (getAllProducts ctx)
   else if scenario <? 50 then
     term <- pick searchTerms ;;
     span_SetAttributes span
       [ ("workflow.type", VStr "search"); ("search.term", VStr term) ] ;;
     call (searchProducts ctx term "")
   else if scenario <? 75 then
     category <- pick categories ;;
     span_SetAttributes span
       [ ("workflow.type", VStr "browse_category");
         ("product.category", VStr category) ] ;;
     call (searchProducts ctx "" category)
   else
     n <- rand_Intn 8 ;;
     let productID := n + 1 in
     span_SetAttributes span
       [ ("workflow.type", VStr "product_details");
         ("product.id", VInt productID) ] ;;
     call (getProduct ctx productID) ;;
     call (getInventory ctx productID)) ;;
  span_End span.

(** One iteration of [generateOrderTraffic]. *)
Definition generateOrderTraffic : Go unit unit :=
  ' (ctx, span) <- tracer_Start None "order_workflow" ;;
  scenario <- rand_Intn 100 ;;
  (if scenario <? 40 then
     span_SetAttributes span [("workflow.type", VStr "complete_order")] ;;
     n <- rand_Intn 5 ;;
     let userID := n + 1 in
     orderID <- call (createOrder ctx userID) ;;
     if 0 <? orderID then
       call (processPayment ctx orderID) ;;
       time_Sleep 2000 ;;
       call (getOrder ctx orderID) ;;
       call (updateOrderStatus ctx orderID "shipped")
     else ret tt
   else if scenario <? 70 then
     n <- rand_Intn 5 ;;
     let userID := n + 1 in
     span_SetAttributes span
       [ ("workflow.type", VStr "check_orders"); ("user.id", VInt userID) ] ;;
     call (getUserOrders ctx userID)
   else
     span_SetAttributes span [("workflow.type", VStr "browse_orders")] ;;
     call (getAllOrders ctx)) ;;
  span_End span.

(** One iteration of [generateHealthChecks]. *)
Definition generateHealthChecks : Go unit unit :=
  ' (ctx, span) <- tracer_Start None "health_checks" ;;
  span_SetAttributes span [("workflow.type", VStr "health_monitoring")] ;;
  for_range services (fun _ service =>
    _ <- call (makeRequest ctx "GET" service None) ;;
    ret tt) ;;
  span_End span.

(** One iteration of [generateAdvancedUserTraffic]. *)
Definition generateAdvancedUserTraffic : Go unit unit :=
  ' (ctx, span) <- tracer_Start None "advanced_user_traffic" ;;
  choice <- rand_Intn 4 ;;
  (if choice =? 0 then
     n <- rand_Intn 3 ;;
     call (updateUserPreferences ctx (n + 1))
   else if choice =? 1 then
     call (searchUsers ctx)
   else if choice =? 2 then
     call (refreshUserToken ctx)
   else
     n <- rand_Intn 3 ;;
     call (getUserProfile ctx (n + 1))) ;;
  span_End span.

(** One iteration of [generateAdvancedProductTraffic]. *)
Definition generateAdvancedProductTraffic : Go unit unit :=
  ' (ctx, span) <- tracer_Start None "advanced_product_traffic" ;;
  choice <- rand_Intn 5 ;;
  (if choice =? 0 then
     call (getTrendingProducts ctx)
   else if choice =? 1 then
     n <- rand_Intn 8 ;;
     call (recordProductView ctx (n + 1))
   else if choice =? 2 then
     category <- pick ["Electronics"; "Sports"; "Home"; "Travel"] ;;
     call (getProductsByCategory ctx category)
   else if choice =? 3 then
     n <- rand_Intn 8 ;;
     call (updateProductPrice ctx (n + 1))
   else
     term <- pick ["laptop"; "phone"; "shoes"; "coffee"] ;;
     call (searchProducts ctx term "")) ;;
  span_End span.

(** One iteration of [generateAdvancedOrderTraffic]. *)
Definition generateAdvancedOrderTraffic : Go unit unit :=
  ' (ctx, span) <- tracer_Start None "advanced_order_traffic" ;;
  choice <- rand_Intn 5 ;;
  (if choice =? 0 then
     n <- rand_Intn 10 ;;
     call (cancelOrder ctx (n + 1))
   else if choice =? 1 then
     n <- rand_Intn 10 ;;
     call (getOrderTracking ctx (n + 1))
   else if choice =? 2 then
     n <- rand_Intn 10 ;;
     call (processRefund ctx (n + 1))
   else if choice =? 3 then
     call (getOrderAnalytics ctx)
   else
     n <- rand_Intn 3 ;;
     let userID := n + 1 in
     orderID <- call (createOrder ctx userID) ;;
     if 0 <? orderID then call (processPayment ctx orderID) else ret tt) ;;
  span_End span.

(** The loops [main] starts, in the order of its [go] statements. *)
Definition loops : list (string * Go unit unit) :=
  [ ("generateUserTraffic", generateUserTraffic);
    ("generateProductTraffic", generateProductTraffic);
    ("generateOrderTraffic", generateOrderTraffic);
    ("generateHealthChecks", generateHealthChecks);
    ("generateAdvancedUserTraffic", generateAdvancedUserTraffic);
    ("generateAdvancedProductTraffic", generateAdvancedProductTraffic);
    ("generateAdvancedOrderTraffic", generateAdvancedOrderTraffic) ].

(** [go f()]. *)
Definition go_ (name : string) : Go unit unit := emit (Spawn name).

(** What happens while [main] blocks in [select {}]: the ticks of the
    loops arrive in the order the scheduler oracle gives, for as many
    ticks as are observed; the iteration a tick starts runs to its end
    (the loops share no variable, so how their steps interleave changes
    no loop's own events). *)
Fixpoint select_forever (ticks : nat) : Go unit unit :=
  match ticks with
  | O => fun w => (Running, w)
  | S ticks' =>
      t <- next_tick ;;
      sched <- gets schedSrc ;;
      match nth_error loops (sched t mod 7)%nat with
      | Some (_, iteration) => call iteration
      | None => ret tt
      end ;;
      select_forever ticks'
  end.

(** [main], after the tracer is set up: [polls] bounds the polls of each
    service that are observed, [ticks] the loop iterations. *)
Definition main (polls ticks : nat) : Go unit unit :=
  logrus_Info [("service", VStr serviceName)] "Starting traffic generator" ;;
  call (waitForServices polls) ;;
  go_ "generateUserTraffic" ;;
  go_ "generateProductTraffic" ;;
  go_ "generateOrderTraffic" ;;
  go_ "generateHealthChecks" ;;
  go_ "generateAdvancedUserTraffic" ;;
  go_ "generateAdvancedProductTraffic" ;;
  go_ "generateAdvancedOrderTraffic" ;;
  select_forever ticks.

End TrafficGenerator.

(* ================================================================== *)
(** ** The system at start-up *)

(** The tables as the sources initialise them, nothing done yet, and
    the given oracles. *)
Definition boot (rand : nat -> Z) (net : nat -> bool) (peer : nat -> option Z)
    (clock : nat -> Z) (sign : nat -> option string) (sched : nat -> nat)
    : World :=
  mkWorld UserService.initial_users ProductService.initial_products [] 1
    [] [] 0 0 rand net peer clock sign sched.

(** A quiet environment: every draw is 50, every request between
    services arrives, every request of the generator is answered 200,
    the clock stands still and signing succeeds. *)
Definition calm : World :=
  boot (fun _ => 50) (fun _ => true) (fun _ => Some 200) (fun _ => 0)
    (fun _ => Some "token") (fun _ => 0%nat).

(* ================================================================== *)
(** * Properties *)

(** ** Go integers and decimal strings *)

Module GoIntFacts.
Import GoInt.

Lemma wrap_in_range (z : Z) : in_range (wrap z).
Proof.
  unfold in_range, wrap, min_int, max_int.
  pose proof (Z.mod_pos_bound (z + 2 ^ 63) (2 ^ 64) ltac:(lia)). lia.
Qed.

Lemma wrap_small (z : Z) : in_range z -> wrap z = z.
Proof.
  unfold in_range, wrap, min_int, max_int. intros H.
  rewrite Z.mod_small by lia. lia.
Qed.

End GoIntFacts.

Module strconvFacts.
Import strconv.

Lemma to_int_not_nil (z : Z) :
  Z.to_int z <> Decimal.Pos Decimal.Nil
  /\ Z.to_int z <> Decimal.Neg Decimal.Nil.
Proof.
  destruct z as [|p|p]; cbn; split; try discriminate;
    intros [= H]; revert H; apply DecimalPos.Unsigned.to_uint_nonnil.
Qed.

Lemma Itoa_not_plus (z : Z) : forall rest, Itoa z <> String "+"%char rest.
Proof.
  intros rest H. unfold Itoa in H.
  assert (Hp : NilZero.int_of_string (String "+"%char rest)
               = Some (Z.to_int z)).
  { rewrite <- H. apply NilZero.isi; apply to_int_not_nil. }
  cbn in Hp. destruct (NilEmpty.uint_of_string rest); discriminate.
Qed.

(** Formatting an in-range integer and parsing it back is the identity:
    what lets a path parameter written by one service be read by another. *)
Lemma Atoi_Itoa (z : Z) : GoInt.in_range z -> Atoi (Itoa z) = Some z.
Proof.
  intros [Hlo Hhi]. unfold Atoi.
  assert (Hp : NilZero.int_of_string (Itoa z) = Some (Z.to_int z)).
  { apply NilZero.isi; apply to_int_not_nil. }
  destruct (Itoa z) as [|a rest] eqn:E.
  - cbn in Hp. discriminate.
  - destruct (Ascii.eqb_spec a "+"%char) as [->|Hne].
    + exfalso. exact (Itoa_not_plus z rest E).
    + assert (Hsame :
        match String a rest with
        | String "+"%char rest0 =>
            option_map Decimal.Pos (NilZero.uint_of_string rest0)
        | _ => NilZero.int_of_string (String a rest)
        end = NilZero.int_of_string (String a rest)).
      { destruct a as [[|] [|] [|] [|] [|] [|] [|] [|]]; try reflexivity.
        exfalso. apply Hne. reflexivity. }
      rewrite Hsame, Hp, DecimalZ.of_to.
      destruct (Z.leb_spec GoInt.min_int z); [|lia].
      destruct (Z.leb_spec z GoInt.max_int); [|lia].
      reflexivity.
Qed.

End strconvFacts.

(* ================================================================== *)
(** ** Reasoning about loops that search a table *)

Section SearchLoop.

Context {R T : Type}.
Variable test : T -> bool.

(** The first element from position [i] on that passes [test], with its
    index. *)
Fixpoint find_from (i : nat) (xs : list T) : option (nat * T) :=
  match xs with
  | [] => None
  | x :: rest => if test x then Some (i, x) else find_from (S i) rest
  end.

Variable body : nat -> T -> Go R unit.

Hypothesis body_miss :
  forall i x w, test x = false -> body i x w = (Next tt, w).
Hypothesis body_hit :
  forall i x w, test x = true -> fst (body i x w) <> Next tt.

(** A loop that skips the elements failing [test] and leaves the
    function at the first one passing it is one run of its body there. *)
Lemma for_range_search (xs : list T) : forall i w,
  for_range_from i xs body w =
  match find_from i xs with
  | Some (j, x) => body j x w
  | None => (Next tt, w)
  end.
Proof.
  induction xs as [|x rest IH]; intros i w; cbn.
  - reflexivity.
  - unfold bind. destruct (test x) eqn:Ht.
    + specialize (body_hit i x w Ht).
      destruct (body i x w) as [[[]| | |] w']; cbn in *; congruence.
    + rewrite body_miss by exact Ht. apply IH.
Qed.

Lemma find_from_nth (xs : list T) : forall i j x,
  find_from i xs = Some (j, x) ->
  exists k, j = (i + k)%nat /\ nth_error xs k = Some x /\ test x = true.
Proof.
  induction xs as [|y rest IH]; intros i j x; cbn.
  - discriminate.
  - destruct (test y) eqn:Ht.
    + intros [= <- <-]. exists 0%nat. rewrite Nat.add_0_r. auto.
    + intros H. destruct (IH _ _ _ H) as (k & -> & Hk & Hx).
      exists (S k). rewrite Nat.add_succ_r. auto.
Qed.

Lemma find_from_find (xs : list T) : forall i,
  option_map snd (find_from i xs) = find test xs.
Proof.
  induction xs as [|y rest IH]; intros i; cbn; [reflexivity|].
  destruct (test y); [reflexivity | apply IH].
Qed.

End SearchLoop.

(* ================================================================== *)
(** ** Running the model *)

(** Unfolds the operations of the monad, so that [cbn] runs a body up to
    the first test on a symbolic value. *)
Ltac go_unfold :=
  unfold gin_serve, otelgin_Middleware, tracer_Start, span_End,
    logrus_Info, logrus_Warn, logrus_Error, logrus_log, c_JSON, time_Now,
    time_Sleep, rand_Intn, next_tick, fresh_id, emit, modify, gets, deref,
    return_, panic, ret, call, with_defer, bind in *.

Ltac go_run :=
  go_unfold;
  cbn -[for_range_from Z.eqb Z.ltb Z.leb GoInt.add GoInt.sub].

(** Case analysis on whatever test blocks the run. *)
Ltac go_case :=
  match goal with
  | |- context [match ?x with _ => _ end] =>
      lazymatch x with
      | context [match _ with _ => _ end] => fail
      | _ => destruct x eqn:?
      end
  end.

(* ================================================================== *)
(** ** product-service *)

Module ProductFacts.
Import ProductService.

(** The product a request for [pid] is about: the first of the table
    with that identifier. *)
Definition lookup (pid : Z) (ps : list Product.t) : option Product.t :=
  find (fun p => Product.ID p =? pid) ps.

(** The first product with identifier [pid], and where it is. *)
Definition locate (pid : Z) (ps : list Product.t) : option (nat * Product.t) :=
  find_from (fun p => Product.ID p =? pid) 0%nat ps.

Lemma locate_lookup pid ps : option_map snd (locate pid ps) = lookup pid ps.
Proof. apply find_from_find. Qed.

Lemma locate_nth pid ps j p :
  locate pid ps = Some (j, p) ->
  nth_error ps j = Some p /\ (Product.ID p =? pid) = true.
Proof.
  intros H. destruct (find_from_nth _ _ _ _ _ H) as (k & -> & Hk & Ht). auto.
Qed.

Lemma lookup_locate pid ps p :
  lookup pid ps = Some p -> exists j, locate pid ps = Some (j, p).
Proof.
  rewrite <- locate_lookup. destruct (locate pid ps) as [[j x]|]; cbn.
  - intros [= ->]. eauto.
  - discriminate.
Qed.

Lemma nth_replace_nth {T} (xs : list T) : forall i v x,
  nth_error xs i = Some x -> nth_error (replace_nth i v xs) i = Some v.
Proof.
  induction xs as [|y rest IH]; intros [|i] v x; cbn; try discriminate; eauto.
Qed.

(** C3. A reserve-inventory request for an existing product that asks for
    more than its stock is answered 409, and leaves the products table
    (every field of every product), the users and the orders as they
    were. *)
Theorem reserve_insufficient_stock_conflict info id request pid p w :
  strconv.Atoi id = Some pid ->
  lookup pid (products w) = Some p ->
  Product.Stock p < InventoryRequest.Quantity request ->
  exists w',
    serve (R:=unit) info (POST_inventory_id_reserve id (Some request)) w
      = (Next (mkResponse http.StatusConflict (JError "Insufficient stock")),
         w')
    /\ products w' = products w
    /\ users w' = users w
    /\ orders w' = orders w.
Proof.
  intros Hid Hfind Hlt.
  destruct (lookup_locate _ _ _ Hfind) as (j & Hj).
  destruct (locate_nth _ _ _ _ Hj) as (Hnth & Ht).
  unfold serve, loggingMiddleware, handler, reserveInventoryHandler, for_range.
  rewrite Hid. go_run.
  rewrite (for_range_search (fun x => Product.ID x =? pid)).
  - unfold locate in Hj. rewrite Hj, Ht.
    apply Z.ltb_lt in Hlt. rewrite Hlt.
    cbn. eexists. split; [reflexivity|]. cbn. auto.
  - intros i x w0 Hx. rewrite Hx. reflexivity.
  - intros i x w0 Hx. rewrite Hx. repeat (go_case; cbn in * ); congruence.
Qed.

(** An instance: nine of product 2, of which the shop
    holds eight. *)
Lemma reserve_insufficient_stock_conflict_witness :
  exists w',
    serve (R:=unit) (mkRequestInfo None "" "" "")
      (POST_inventory_id_reserve "2" (Some (InventoryRequest.mk 9 1))) calm
      = (Next (mkResponse http.StatusConflict (JError "Insufficient stock")),
         w')
    /\ products w' = products calm
    /\ users w' = users calm
    /\ orders w' = orders calm.
Proof.
  apply (reserve_insufficient_stock_conflict _ "2" _ 2
           (Product.mk 2 "Smartphone Pro" "Latest smartphone with AI camera"
              899.99%float "Electronics" 8 "https://example.com/phone.jpg")).
  - reflexivity.
  - reflexivity.
  - cbn. lia.
Defined.

(** C9, as amended. A well-formed release-inventory request for an
    existing product is answered 200, whatever the quantity (zero,
    negative, or as large as an [int] gets) and with no check that it was
    ever reserved; the stock of the product becomes its old stock plus
    the quantity in Go's 64-bit arithmetic: wrapped around on overflow,
    the exact sum whenever that fits an [int]. *)
Theorem release_adds_wrapping info id request pid p w :
  strconv.Atoi id = Some pid ->
  lookup pid (products w) = Some p ->
  let q := InventoryRequest.Quantity request in
  exists j w',
    nth_error (products w) j = Some p
    /\ serve (R:=unit) info (POST_inventory_id_release id (Some request)) w
       = (Next (mkResponse http.StatusOK
                  (JRelease pid q (GoInt.wrap (Product.Stock p + q))
                     (InventoryRequest.OrderID request))), w')
    /\ products w'
       = replace_nth j (with_Stock (GoInt.wrap (Product.Stock p + q)) p)
           (products w)
    /\ (GoInt.in_range (Product.Stock p + q) ->
        GoInt.wrap (Product.Stock p + q) = Product.Stock p + q).
Proof.
  intros Hid Hfind q.
  destruct (lookup_locate _ _ _ Hfind) as (j & Hj).
  destruct (locate_nth _ _ _ _ Hj) as (Hnth & Ht).
  exists j. eexists. split; [exact Hnth|].
  split; [|split; [|apply GoIntFacts.wrap_small]].
  - unfold serve, loggingMiddleware, handler, releaseInventoryHandler,
      for_range, products_set_Stock, products_at.
    rewrite Hid. go_run.
    rewrite (for_range_search (fun x => Product.ID x =? pid)).
    + unfold locate in Hj. rewrite Hj, Ht. cbn. rewrite Hnth. cbn.
      rewrite Hnth. cbn.
      rewrite (nth_replace_nth _ _ _ _ Hnth). cbn. reflexivity.
    + intros i x w0 Hx. rewrite Hx. reflexivity.
    + intros i x w0 Hx. rewrite Hx. repeat (go_case; cbn in * ); congruence.
  - reflexivity.
Qed.

Lemma release_adds_wrapping_witness :
  let p := Product.mk 1 "Laptop Gaming" "High-performance gaming laptop"
             1299.99%float "Electronics" 15 "https://example.com/laptop.jpg" in
  exists j w',
    nth_error (products calm) j = Some p
    /\ serve (R:=unit) (mkRequestInfo None "" "" "")
         (POST_inventory_id_release "1" (Some (InventoryRequest.mk (-4) 7)))
         calm
       = (Next (mkResponse http.StatusOK
                  (JRelease 1 (-4) (GoInt.wrap (15 + -4)) 7)), w')
    /\ products w'
       = replace_nth j (with_Stock (GoInt.wrap (15 + -4)) p) (products calm)
    /\ (GoInt.in_range (15 + -4) -> GoInt.wrap (15 + -4) = 15 + -4).
Proof.
  intros p.
  apply (release_adds_wrapping (mkRequestInfo None "" "" "") "1"
           (InventoryRequest.mk (-4) 7) 1 p calm).
  - reflexivity.
  - reflexivity.
Defined.

(** C9, as stated, fails: releasing [2^63 - 1] units of product 1, of
    which the table holds 15, is answered 200 and leaves a stock that is
    not the sum of the two: it is negative. *)
Lemma release_overflow_counterexample :
  let request := InventoryRequest.mk (2 ^ 63 - 1) 1 in
  exists body w' p',
    serve (R:=unit) (mkRequestInfo None "" "" "")
      (POST_inventory_id_release "1" (Some request)) calm
      = (Next (mkResponse http.StatusOK body), w')
    /\ lookup 1 (products calm)
       = Some (Product.mk 1 "Laptop Gaming" "High-performance gaming laptop"
                 1299.99%float "Electronics" 15
                 "https://example.com/laptop.jpg")
    /\ lookup 1 (products w') = Some p'
    /\ Product.Stock p' = -9223372036854775794
    /\ Product.Stock p' <> 15 + InventoryRequest.Quantity request.
Proof.
  intros request. do 3 eexists.
  split; [vm_compute; reflexivity|].
  split; [reflexivity|].
  split; [vm_compute; reflexivity|].
  split; [reflexivity|].
  vm_compute. discriminate.
Qed.

End ProductFacts.

(* ================================================================== *)
(** ** Reading the event list *)

(** The log lines among some events. *)
Definition log_lines (evs : list Event) : list (Level * string * Fields) :=
  flat_map (fun e =>
    match e with
    | LogLine lvl msg fields => [(lvl, msg, fields)]
    | _ => []
    end) evs.

Definition is_error_level (lvl : Level) : bool :=
  match lvl with ErrorLevel => true | _ => false end.

(** The lines of a given level that carry [error=code]. *)
Definition lines_with_error (pick : Level -> bool) (code : string)
    (evs : list Event) : list (Level * string * Fields) :=
  filter (fun '(lvl, _, fields) =>
            pick lvl &&
            match field "error" fields with
            | Some (VStr s) => String.eqb s code
            | _ => false
            end)
    (log_lines evs).

(** The events before [base] in a list built by consing onto it. *)
Ltac prefix_of l base :=
  lazymatch l with
  | base => constr:(@nil Event)
  | ?e :: ?l' => let r := prefix_of l' base in constr:(e :: r)
  end.

(** Solves [l = ?new ++ base] for an explicit [l]. *)
Ltac solve_new :=
  cbn;
  lazymatch goal with
  | |- ?l = app ?n ?base =>
      let p := prefix_of l base in unify n p; reflexivity
  end.

(* ================================================================== *)
(** ** user-service *)

Module UserFacts.
Import UserService.

(** C4, as the code has it. A login whose credentials match no stored
    user, when the draw for the simulated database failure is not below
    15, is answered 401, and the request leaves two log lines: the
    handler's own, with [error=invalid_credentials] and the trace
    identifier of the handler's span, at warning level, and the Info
    line of the access log.  No line of error level carries
    [error=invalid_credentials]. *)
Theorem login_unknown_credentials info req w :
  find (credentials_match req) (users w) = None ->
  (randSrc w (S (tick w)) mod 100 <? 15) = false ->
  exists w' new span access,
    serve (R:=unit) info (POST_auth_login (Some req)) w
      = (Next (mkResponse http.StatusUnauthorized
                 (JError "Invalid credentials")), w')
    /\ events w' = (new ++ events w)%list
    /\ In (SpanStart span (Some (nextID w)) "user_login") new
    /\ log_lines new
       = [ (InfoLevel, "HTTP request", access);
           (WarnLevel, "Invalid login attempt",
            [ ("service", VStr "user-service");
              ("endpoint", VStr "/auth/login");
              ("email", VStr (LoginRequest.Email req));
              ("error", VStr "invalid_credentials");
              ("trace_id", TraceID span) ]) ]
    /\ lines_with_error is_error_level "invalid_credentials" new = []
    /\ users w' = users w.
Proof.
  intros Hfind Hdraw.
  do 4 eexists. split.
  - unfold serve, loggingMiddleware, handler, loginHandler.
    go_run. rewrite Hdraw. cbn. rewrite Hfind. cbn. reflexivity.
  - split; [solve_new|]. cbn. repeat split. tauto.
Qed.

(** The login of the repository's guide: an address that is not in the
    table. *)
Lemma login_unknown_credentials_witness :
  exists w' new span access,
    serve (R:=unit) (mkRequestInfo None "" "curl" "")
      (POST_auth_login (Some (LoginRequest.mk "invalid" "wrong"))) calm
      = (Next (mkResponse http.StatusUnauthorized
                 (JError "Invalid credentials")), w')
    /\ events w' = (new ++ events calm)%list
    /\ In (SpanStart span (Some (nextID calm)) "user_login") new
    /\ log_lines new
       = [ (InfoLevel, "HTTP request", access);
           (WarnLevel, "Invalid login attempt",
            [ ("service", VStr "user-service");
              ("endpoint", VStr "/auth/login");
              ("email", VStr "invalid");
              ("error", VStr "invalid_credentials");
              ("trace_id", TraceID span) ]) ]
    /\ lines_with_error is_error_level "invalid_credentials" new = []
    /\ users w' = users calm.
Proof.
  apply (login_unknown_credentials (mkRequestInfo None "" "curl" "")
           (LoginRequest.mk "invalid" "wrong") calm).
  - reflexivity.
  - reflexivity.
Defined.

(** Two user tables that differ at most in the password of the users
    with identifier [uid]. *)
Definition differ_only_in_password_of (uid : Z) (us1 us2 : list User.t)
    : Prop :=
  Forall2 (fun u v =>
    User.ID u = User.ID v /\ User.Email u = User.Email v
    /\ User.Name u = User.Name v
    /\ (User.ID u <> uid -> User.Password u = User.Password v)) us1 us2.

Lemma differ_find_from uid us1 us2 :
  differ_only_in_password_of uid us1 us2 ->
  forall i,
    match find_from (fun u => User.ID u =? uid) i us1,
          find_from (fun u => User.ID u =? uid) i us2 with
    | Some (j1, u1), Some (j2, u2) =>
        j1 = j2 /\ with_Password "" u1 = with_Password "" u2
        /\ (User.ID u1 =? uid) = true /\ (User.ID u2 =? uid) = true
    | None, None => True
    | _, _ => False
    end.
Proof.
  induction 1 as [|u v us1 us2 (Hid & Hem & Hna & Hpw) _ IH]; intros i; cbn.
  - exact I.
  - rewrite <- Hid. destruct (User.ID u =? uid) eqn:E.
    + repeat split; try assumption; [|rewrite <- Hid; assumption].
      unfold with_Password. congruence.
    + apply IH.
Qed.

(** C10. The answer to get-user carries no password, and does not
    depend on the stored one: two worlds whose user tables differ only
    in the password of the requested user answer the request the same. *)
Theorem getUser_independent_of_password info id uid w1 w2 :
  strconv.Atoi id = Some uid ->
  differ_only_in_password_of uid (users w1) (users w2) ->
  exists resp w1' w2',
    serve (R:=unit) info (GET_users_id id) w1 = (Next resp, w1')
    /\ serve (R:=unit) info (GET_users_id id) w2 = (Next resp, w2')
    /\ json_has_password (Body resp) = false.
Proof.
  intros Hid Hdiff.
  pose proof (differ_find_from _ _ _ Hdiff 0%nat) as Hfind.
  unfold serve, loggingMiddleware, handler, getUserHandler, for_range.
  rewrite Hid. go_run.
  rewrite !(for_range_search (fun u => User.ID u =? uid));
    try (intros i x w0 Hx; rewrite Hx; cbn; first [reflexivity | congruence]).
  destruct (find_from _ 0%nat (users w1)) as [[j1 u1]|];
    destruct (find_from _ 0%nat (users w2)) as [[j2 u2]|];
    try contradiction.
  - destruct Hfind as (_ & Hsame & H1 & H2). rewrite H1, H2. cbn.
    rewrite Hsame. do 3 eexists. repeat split; reflexivity.
  - cbn. do 3 eexists. repeat split; reflexivity.
Qed.

(** Two tables that differ in the password of user 2, and a request for
    user 2. *)
Lemma getUser_independent_of_password_witness :
  exists resp w1' w2',
    serve (R:=unit) (mkRequestInfo None "" "" "") (GET_users_id "2") calm
      = (Next resp, w1')
    /\ serve (R:=unit) (mkRequestInfo None "" "" "") (GET_users_id "2")
         (set_users
            [ User.mk 1 "john@example.com" "John Doe" "password123";
              User.mk 2 "jane@example.com" "Jane Smith" "hunter2";
              User.mk 3 "alice@example.com" "Alice Johnson" "password123" ]
            calm)
       = (Next resp, w2')
    /\ json_has_password (Body resp) = false.
Proof.
  apply (getUser_independent_of_password _ "2" 2).
  - reflexivity.
  - repeat constructor; cbn; congruence.
Defined.

End UserFacts.

(* ================================================================== *)
(** ** order-service *)

Module OrderFacts.
Import OrderService.
Import ProductFacts.

(** Outbound requests, by what they ask of the catalog. *)
Definition is_price_lookup (e : Event) : bool :=
  match e with
  | HTTPDo method (mkURL host ["products"; _]) =>
      String.eqb method "GET" && String.eqb host product_service
  | _ => false
  end.

Definition is_reservation (e : Event) : bool :=
  match e with
  | HTTPDo method (mkURL host ["inventory"; _; "reserve"]) =>
      String.eqb method "POST" && String.eqb host product_service
  | _ => false
  end.

Definition is_release (e : Event) : bool :=
  match e with
  | HTTPDo method (mkURL host ["inventory"; _; "release"]) =>
      String.eqb method "POST" && String.eqb host product_service
  | _ => false
  end.

(** The catalog's own record of a reservation it granted. *)
Definition is_granted (e : Event) : bool :=
  match e with
  | LogLine InfoLevel msg _ => String.eqb msg "Inventory reserved successfully"
  | _ => false
  end.

Definition count (P : Event -> bool) (evs : list Event) : nat :=
  List.length (filter P evs).

(** What a call to a peer leaves alone. *)
Record frame (w w' : World) : Prop := mkFrame
  { frame_users : users w' = users w;
    frame_orders : orders w' = orders w;
    frame_orderCounter : orderCounter w' = orderCounter w;
    frame_ginWrites : ginWrites w' = ginWrites w;
    frame_netSrc : netSrc w' = netSrc w;
    frame_clockSrc : clockSrc w' = clockSrc w;
    frame_release :
      count is_release (events w') = count is_release (events w) }.

(** Serving a request sends none. *)
Record sends_nothing (w w' : World) : Prop := mkSendsNothing
  { same_lookups :
      count is_price_lookup (events w') = count is_price_lookup (events w);
    same_reservations :
      count is_reservation (events w') = count is_reservation (events w) }.

(** The catalog grants nothing. *)
Definition grants_nothing (w w' : World) : Prop :=
  products w' = products w
  /\ count is_granted (events w') = count is_granted (events w).

(** The user a request for [uid] is about is in the table. *)
Definition user_known (uid : Z) (us : list User.t) : bool :=
  existsb (fun u => User.ID u =? uid) us.

Lemma user_known_find_from uid us : forall i,
  user_known uid us = true ->
  find_from (fun u => User.ID u =? uid) i us <> None.
Proof.
  induction us as [|u rest IH]; intros i; cbn.
  - discriminate.
  - destruct (User.ID u =? uid); cbn; [discriminate | apply IH].
Qed.

(** The identity service's answer to get-user changes no table and
    sends no request; it is 200 when the user is in the table. *)
Lemma serve_get_user (R : Type) info id w :
  exists resp w',
    UserService.serve (R:=R) info (UserService.GET_users_id id) w
      = (Next resp, w')
    /\ frame w w' /\ sends_nothing w w' /\ grants_nothing w w'
    /\ (forall uid, strconv.Atoi id = Some uid ->
                    user_known uid (users w) = true ->
                    StatusCode resp = http.StatusOK).
Proof.
  unfold UserService.serve, UserService.loggingMiddleware,
    UserService.handler, UserService.getUserHandler, for_range.
  go_run.
  destruct (strconv.Atoi id) as [uid|]; cbn.
  - rewrite (for_range_search (fun u => User.ID u =? uid));
      try (intros i x w0 Hx; rewrite Hx; cbn; first [reflexivity | congruence]).
    destruct (find_from _ 0%nat (users w)) as [[j u]|] eqn:Hj; cbn.
    + destruct (find_from_nth _ _ _ _ _ Hj) as (k & _ & _ & Hu).
      rewrite Hu. cbn. do 2 eexists. split; [reflexivity|].
      cbn. repeat split.
    + do 2 eexists. split; [reflexivity|]. cbn. repeat split.
      intros uid' [= <-] Hknown.
      exfalso. exact (user_known_find_from _ _ 0%nat Hknown Hj).
  - do 2 eexists. split; [reflexivity|]. cbn. repeat split. discriminate.
Qed.

(** The catalog's answer to a price lookup. *)
Lemma serve_get_product (R : Type) info pid w :
  GoInt.in_range pid ->
  exists w',
    ProductService.serve (R:=R) info
      (ProductService.GET_products_id (strconv.Itoa pid)) w
      = (Next match lookup pid (products w) with
              | Some p => mkResponse http.StatusOK (JProduct p)
              | None =>
                  mkResponse http.StatusNotFound (JError "Product not found")
              end, w')
    /\ frame w w' /\ sends_nothing w w' /\ grants_nothing w w'.
Proof.
  intros Hpid.
  unfold ProductService.serve, ProductService.loggingMiddleware,
    ProductService.handler, ProductService.getProductHandler, for_range.
  rewrite (strconvFacts.Atoi_Itoa _ Hpid). go_run.
  rewrite (for_range_search (fun x => Product.ID x =? pid));
    try (intros i x w0 Hx; rewrite Hx; cbn; first [reflexivity | congruence]).
  rewrite <- locate_lookup. unfold locate.
  destruct (find_from _ 0%nat (products w)) as [[j p]|] eqn:Hj; cbn.
  - destruct (find_from_nth _ _ _ _ _ Hj) as (k & _ & _ & Hp).
    rewrite Hp. cbn. eexists. split; [reflexivity|].
    cbn. repeat split.
  - eexists. split; [reflexivity|]. cbn. repeat split.
Qed.

(** What a reservation does to the table: the stock of the first product
    with the identifier, less the quantity. *)
Definition reserve_in (pid q : Z) (ps : list Product.t) : list Product.t :=
  match locate pid ps with
  | Some (j, p) =>
      ProductService.replace_nth j
        (ProductService.with_Stock (GoInt.sub (Product.Stock p) q) p) ps
  | None => ps
  end.

(** A reservation the catalog grants: the product is there and holds at
    least the quantity. *)
Definition reservable (pid q : Z) (ps : list Product.t) : bool :=
  match lookup pid ps with
  | Some p => negb (Product.Stock p <? q)
  | None => false
  end.

(** The catalog's answer to a reservation. *)
Lemma serve_reserve (R : Type) info pid q oid w :
  GoInt.in_range pid ->
  exists resp w',
    ProductService.serve (R:=R) info
      (ProductService.POST_inventory_id_reserve (strconv.Itoa pid)
         (Some (InventoryRequest.mk q oid))) w = (Next resp, w')
    /\ frame w w' /\ sends_nothing w w'
    /\ if reservable pid q (products w)
       then StatusCode resp = http.StatusOK
            /\ products w' = reserve_in pid q (products w)
            /\ count is_granted (events w') = S (count is_granted (events w))
       else StatusCode resp <> http.StatusOK
            /\ grants_nothing w w'.
Proof.
  intros Hpid.
  unfold ProductService.serve, ProductService.loggingMiddleware,
    ProductService.handler, ProductService.reserveInventoryHandler, for_range,
    ProductService.products_set_Stock, ProductService.products_at.
  rewrite (strconvFacts.Atoi_Itoa _ Hpid). go_run.
  rewrite (for_range_search (fun x => Product.ID x =? pid));
    [ | intros i x w0 Hx; rewrite Hx; reflexivity
      | intros i x w0 Hx; rewrite Hx; repeat (go_case; cbn in * ); congruence ].
  unfold reservable, reserve_in. rewrite <- locate_lookup. unfold locate.
  destruct (find_from _ 0%nat (products w)) as [[j p]|] eqn:Hj; cbn.
  - destruct (find_from_nth _ _ _ _ _ Hj) as (k & -> & Hnth & Hp).
    rewrite Hp. cbn in Hnth |- *.
    destruct (Product.Stock p <? q) eqn:Hq; cbn.
    + do 2 eexists. split; [reflexivity|]. cbn. repeat split. discriminate.
    + rewrite Hnth. cbn. rewrite Hnth. cbn.
      rewrite (nth_replace_nth _ _ _ _ Hnth). cbn.
      do 2 eexists. split; [reflexivity|]. cbn. repeat split.
  - do 2 eexists. split; [reflexivity|]. cbn. repeat split. discriminate.
Qed.

#[local] Arguments ProductService.serve : simpl never.
#[local] Arguments UserService.serve : simpl never.
#[local] Arguments httpClient_Do_product : simpl never.
#[local] Arguments httpClient_Do_user : simpl never.
#[local] Arguments count : simpl never.
#[local] Arguments lookup : simpl never.
#[local] Arguments reservable : simpl never.
#[local] Arguments reserve_in : simpl never.

(** Closes a goal about the world after a call from what is known of
    the world after the callee. *)
Ltac frame_done :=
  repeat match goal with
         | H : frame _ _ |- _ => destruct H
         | H : sends_nothing _ _ |- _ => destruct H
         | H : grants_nothing _ _ |- _ => destruct H
         | H : _ /\ _ |- _ => destruct H
         end;
  unfold grants_nothing in *;
  repeat split;
  first [ solve [cbn in *; congruence]
        | solve [unfold count in *; cbn in *; congruence] ].

Ltac writes_done :=
  eexists; cbn;
  repeat match goal with H : frame _ _ |- _ => destruct H end;
  cbn in *; f_equal; congruence.

(** A request to the identity service: sent once, served when it
    arrives. *)
Lemma Do_user_spec (R : Type) ctx id url w :
  exists resp w',
    httpClient_Do_user (R:=R) ctx (UserService.GET_users_id id) url w
      = (Next resp, w')
    /\ frame (set_events (HTTPDo "GET" url :: events w) w) w'
    /\ sends_nothing (set_events (HTTPDo "GET" url :: events w) w) w'
    /\ grants_nothing w w'
    /\ (forall uid, strconv.Atoi id = Some uid ->
                    user_known uid (users w) = true ->
                    netSrc w (tick w) = true ->
                    exists r body,
                      resp = Some (r, body)
                      /\ StatusCode r = http.StatusOK).
Proof.
  unfold httpClient_Do_user, httpClient_Do, otelhttp_Start, recovered.
  go_run.
  destruct (netSrc w (tick w)); cbn.
  - match goal with
    | |- context [@UserService.serve ?R ?i ?r ?w0] =>
        destruct (serve_get_user R i id w0)
          as (resp & w1 & E & Hf & Hs & Hp & Hok);
        rewrite E
    end.
    cbn. do 2 eexists. split; [reflexivity|].
    split; [frame_done|]. split; [frame_done|]. split; [frame_done|].
    intros uid Hid Hknown _. eauto.
  - do 2 eexists. split; [reflexivity|].
    split; [frame_done|]. split; [frame_done|]. split; [frame_done|].
    discriminate.
Qed.

(** A price lookup request: sent once; answered from the table when it
    arrives. *)
Lemma Do_product_get_spec (R : Type) ctx pid url w :
  GoInt.in_range pid ->
  exists w' body,
    httpClient_Do_product (R:=R) ctx
      (ProductService.GET_products_id (strconv.Itoa pid)) url w
      = (Next
           (if netSrc w (tick w) then
              Some (match lookup pid (products w) with
                    | Some p => mkResponse http.StatusOK (JProduct p)
                    | None =>
                        mkResponse http.StatusNotFound
                          (JError "Product not found")
                    end, body)
            else None), w')
    /\ frame (set_events (HTTPDo "GET" url :: events w) w) w'
    /\ sends_nothing (set_events (HTTPDo "GET" url :: events w) w) w'
    /\ grants_nothing w w'.
Proof.
  intros Hpid.
  unfold httpClient_Do_product, httpClient_Do, otelhttp_Start, recovered.
  go_run.
  destruct (netSrc w (tick w)); cbn.
  - match goal with
    | |- context [@ProductService.serve ?R ?i ?r ?w0] =>
        destruct (serve_get_product R i pid w0 Hpid)
          as (w1 & E & Hf & Hs & Hp);
        rewrite E
    end.
    cbn. do 2 eexists. split; [reflexivity|]. frame_done.
  - eexists. exists (mkSpan 0 0). split; [reflexivity|]. frame_done.
Qed.

(** A reservation request: sent once; the stock moves when it arrives
    and the catalog grants it. *)
Lemma Do_product_reserve_spec (R : Type) ctx pid q oid url w :
  GoInt.in_range pid ->
  let granted := netSrc w (tick w) && reservable pid q (products w) in
  exists resp w',
    httpClient_Do_product (R:=R) ctx
      (ProductService.POST_inventory_id_reserve (strconv.Itoa pid)
         (Some (InventoryRequest.mk q oid))) url w
      = (Next resp, w')
    /\ match resp with
       | Some (r, _) => netSrc w (tick w) = true
                        /\ (StatusCode r =? http.StatusOK) = granted
       | None => netSrc w (tick w) = false
       end
    /\ frame (set_events (HTTPDo "POST" url :: events w) w) w'
    /\ sends_nothing (set_events (HTTPDo "POST" url :: events w) w) w'
    /\ products w'
       = (if granted then reserve_in pid q (products w) else products w)
    /\ count is_granted (events w')
       = ((if granted then 1 else 0) + count is_granted (events w))%nat.
Proof.
  intros Hpid granted. subst granted.
  unfold httpClient_Do_product, httpClient_Do, otelhttp_Start, recovered.
  go_run.
  destruct (netSrc w (tick w)); cbn.
  - match goal with
    | |- context [@ProductService.serve ?R ?i ?r ?w0] =>
        destruct (serve_reserve R i pid q oid w0 Hpid)
          as (resp & w1 & E & Hf & Hs & Hr);
        rewrite E
    end.
    cbn in Hr |- *.
    destruct (reservable pid q (products w)); destruct Hr as (Hcode & Hp).
    + do 2 eexists. split; [reflexivity|].
      split; [cbn; rewrite Hcode; split; reflexivity|]. frame_done.
    + apply Z.eqb_neq in Hcode.
      do 2 eexists. split; [reflexivity|].
      split; [cbn; rewrite Hcode; split; reflexivity|]. frame_done.
  - do 2 eexists. split; [reflexivity|]. split; [reflexivity|]. frame_done.
Qed.

#[local] Arguments url_String : simpl never.

(** [validateUser]: no table changes, nothing is asked of the catalog;
    the user is valid when the request arrives and the user is in the
    table. *)
Lemma validateUser_spec ctx userID w :
  exists r w',
    validateUser ctx userID w = (Return r, w')
    /\ frame w w' /\ sends_nothing w w' /\ grants_nothing w w'
    /\ (GoInt.in_range userID ->
        user_known userID (users w) = true ->
        netSrc w (tick w) = true ->
        r = (true, None)).
Proof.
  unfold validateUser. go_run.
  match goal with
  | |- context [@httpClient_Do_user ?R ?c ?r ?u ?w0] =>
      destruct (Do_user_spec R c (strconv.Itoa userID) u w0)
        as (resp & w1 & E & Hf & Hs & Hp & Hok);
      rewrite E
  end.
  cbn in Hok |- *. destruct resp as [[resp body]|]; cbn.
  - do 2 eexists. split; [reflexivity|].
    split; [frame_done|]. split; [frame_done|]. split; [frame_done|].
    intros Hrange Hknown Hnet.
    destruct (Hok userID (strconvFacts.Atoi_Itoa _ Hrange) Hknown Hnet)
      as (r & b & [= <- _] & ->).
    reflexivity.
  - do 2 eexists. split; [reflexivity|].
    split; [frame_done|]. split; [frame_done|]. split; [frame_done|].
    intros Hrange Hknown Hnet.
    destruct (Hok userID (strconvFacts.Atoi_Itoa _ Hrange) Hknown Hnet)
      as (r & b & [=] & _).
Qed.

Definition as_response (p : Product.t) : ProductResponse.t :=
  ProductResponse.mk (Product.ID p) (Product.Name p) (Product.Price p)
    (Product.Stock p).

(** [getProductDetails]: one price lookup, answered from the table when
    the request arrives. *)
Lemma getProductDetails_spec ctx pid w :
  GoInt.in_range pid ->
  exists w',
    getProductDetails ctx pid w
      = (Return
           (if netSrc w (tick w) then
              match lookup pid (products w) with
              | Some p => (Some (as_response p), None)
              | None => (None, Some "product not found")
              end
            else (None, Some "request failed")), w')
    /\ frame w w' /\ grants_nothing w w'
    /\ count is_price_lookup (events w')
       = S (count is_price_lookup (events w))
    /\ count is_reservation (events w') = count is_reservation (events w).
Proof.
  intros Hpid. unfold getProductDetails. go_run.
  match goal with
  | |- context [@httpClient_Do_product ?R ?c ?r ?u ?w0] =>
      destruct (Do_product_get_spec R c pid u w0 Hpid)
        as (w1 & body & E & Hf & Hs & Hp);
      rewrite E
  end.
  cbn. destruct (netSrc w (tick w)); cbn.
  - destruct (lookup pid (products w)) as [p|]; cbn;
      (eexists; split; [reflexivity|]; frame_done).
  - eexists. split; [reflexivity|]. frame_done.
Qed.

(** [reserveInventory]: one reservation request; the stock moves when
    the request arrives and the catalog grants it. *)
Lemma reserveInventory_spec ctx pid q oid w :
  GoInt.in_range pid ->
  let granted := netSrc w (tick w) && reservable pid q (products w) in
  exists w',
    reserveInventory ctx pid q oid w
      = (Return (granted,
                 if netSrc w (tick w) then None else Some "request failed"),
         w')
    /\ frame w w'
    /\ products w'
       = (if granted then reserve_in pid q (products w) else products w)
    /\ count is_granted (events w')
       = ((if granted then 1 else 0) + count is_granted (events w))%nat
    /\ count is_price_lookup (events w') = count is_price_lookup (events w)
    /\ count is_reservation (events w')
       = S (count is_reservation (events w)).
Proof.
  intros Hpid granted. subst granted. unfold reserveInventory. go_run.
  match goal with
  | |- context [@httpClient_Do_product ?R ?c ?r ?u ?w0] =>
      destruct (Do_product_reserve_spec R c pid q oid u w0 Hpid)
        as (resp & w1 & E & Hr & Hf & Hs & Hp);
      rewrite E
  end.
  cbn in Hr, Hp |- *. destruct resp as [[resp body]|]; cbn.
  - destruct Hr as (Hnet & Hcode). rewrite Hnet in *. rewrite Hcode.
    eexists. split; [reflexivity|]. frame_done.
  - rewrite Hr in *. cbn in *.
    eexists. split; [reflexivity|]. frame_done.
Qed.

#[local] Arguments getProductDetails : simpl never.
#[local] Arguments reserveInventory : simpl never.
#[local] Arguments validateUser : simpl never.

Definition item_of (pid q : Z) (p : Product.t) : OrderItem.t :=
  OrderItem.mk pid q (Product.Price p) (Product.Name p).

Definition add_price (total : float) (p : Product.t) (q : Z) : float :=
  PrimFloat.add total (PrimFloat.mul (Product.Price p) (GoInt.to_float64 q)).

(** One round of the item loop: one price lookup, then at most one
    reservation; the round either extends the order, or answers 400
    (the lookup failed) or 409 (the reservation failed) and leaves the
    handler. *)
Lemma createOrder_item_spec ctx span item ois total w :
  let pid := RequestItem.ProductID item in
  let q := RequestItem.Quantity item in
  GoInt.in_range pid ->
  exists res w',
    createOrder_item ctx span item (ois, total) w = (res, w')
    /\ frame (set_ginWrites [] w) (set_ginWrites [] w')
    /\ count is_price_lookup (events w')
       = S (count is_price_lookup (events w))
    /\ match res with
       | Next acc =>
           exists p,
             lookup pid (products w) = Some p
             /\ reservable pid q (products w) = true
             /\ products w' = reserve_in pid q (products w)
             /\ count is_granted (events w')
                = S (count is_granted (events w))
             /\ acc = ((ois ++ [item_of pid q p])%list, add_price total p q)
             /\ ginWrites w' = ginWrites w
             /\ count is_reservation (events w')
                = S (count is_reservation (events w))
       | Return tt =>
           grants_nothing w w'
           /\ ((count is_reservation (events w')
                = count is_reservation (events w)
                /\ exists body,
                     ginWrites w'
                     = mkResponse http.StatusBadRequest body :: ginWrites w)
               \/ (count is_reservation (events w')
                   = S (count is_reservation (events w))
                   /\ exists body,
                        ginWrites w'
                        = mkResponse http.StatusConflict body :: ginWrites w))
       | _ => False
       end
    /\ ((forall t, netSrc w t = true) ->
        reservable pid q (products w) = true ->
        exists acc, res = Next acc).
Proof.
  intros pid q Hpid. unfold createOrder_item. fold pid q. go_run.
  destruct (getProductDetails_spec ctx pid w Hpid)
    as (w1 & E1 & Hf1 & (Hp1 & Hg1) & Hl1 & Hr1).
  rewrite E1. cbn.
  assert (Hlook : reservable pid q (products w) = true ->
                  lookup pid (products w) <> None).
  { unfold reservable. destruct (lookup pid (products w)); congruence. }
  destruct (netSrc w (tick w)) eqn:Hnet1;
    [destruct (lookup pid (products w)) as [p|] eqn:Hlk|]; cbn.
  - destruct (reserveInventory_spec ctx pid q (orderCounter w1) w1 Hpid)
      as (w2 & E2 & Hf2 & Hp2 & Hg2 & Hl2 & Hr2).
    rewrite E2. cbn. rewrite Hp1 in *.
    destruct (netSrc w1 (tick w1)) eqn:Hnet2;
      [destruct (reservable pid q (products w)) eqn:Hres|]; cbn in *.
    + do 2 eexists. split; [reflexivity|]. split; [frame_done|].
      split; [frame_done|]. split.
      * exists p. repeat split; cbn; try congruence. frame_done.
      * eauto.
    + do 2 eexists. split; [reflexivity|]. split; [frame_done|].
      split; [frame_done|]. split.
      * split; [frame_done|]. right. split; [frame_done|].
        writes_done.
      * intros _ Habs. discriminate.
    + do 2 eexists. split; [reflexivity|]. split; [frame_done|].
      split; [frame_done|]. split.
      * split; [frame_done|]. right. split; [frame_done|].
        writes_done.
      * intros Hall _. destruct Hf1. rewrite frame_netSrc0 in Hnet2.
        rewrite Hall in Hnet2. discriminate.
  - do 2 eexists. split; [reflexivity|]. split; [frame_done|].
    split; [frame_done|]. split.
    + split; [frame_done|]. left. split; [frame_done|].
      writes_done.
    + intros _ Hres. exfalso. apply (Hlook Hres). reflexivity.
  - do 2 eexists. split; [reflexivity|]. split; [frame_done|].
    split; [frame_done|]. split.
    + split; [frame_done|]. left. split; [frame_done|].
      writes_done.
    + intros Hall _. rewrite Hall in Hnet1. discriminate.
Qed.

Definition reserve_item (ps : list Product.t) (item : RequestItem.t)
    : list Product.t :=
  reserve_in (RequestItem.ProductID item) (RequestItem.Quantity item) ps.

(** The table after the reservations of some items, in order. *)
Definition reserve_all (items : list RequestItem.t) (ps : list Product.t)
    : list Product.t :=
  fold_left reserve_item items ps.

(** Every item finds its product with enough stock when its turn
    comes. *)
Fixpoint all_reservable (items : list RequestItem.t) (ps : list Product.t)
    : bool :=
  match items with
  | [] => true
  | item :: rest =>
      reservable (RequestItem.ProductID item) (RequestItem.Quantity item) ps
      && all_reservable rest (reserve_item ps item)
  end.

(** The order lines and the total the loop builds from [acc] on. *)
Fixpoint priced (items : list RequestItem.t) (ps : list Product.t)
    (acc : list OrderItem.t * float) : list OrderItem.t * float :=
  match items with
  | [] => acc
  | item :: rest =>
      let pid := RequestItem.ProductID item in
      let q := RequestItem.Quantity item in
      match lookup pid ps with
      | Some p =>
          priced rest (reserve_item ps item)
            ((fst acc ++ [item_of pid q p])%list, add_price (snd acc) p q)
      | None => acc
      end
  end.

Definition well_formed (items : list RequestItem.t) : Prop :=
  Forall (fun item => GoInt.in_range (RequestItem.ProductID item)) items.

#[local] Arguments createOrder_item : simpl never.
#[local] Arguments reserve_all : simpl never.

Lemma frame_trans w1 w2 w3 : frame w1 w2 -> frame w2 w3 -> frame w1 w3.
Proof. intros [] []. split; congruence. Qed.

Lemma frame_refl w : frame w w.
Proof. split; reflexivity. Qed.

(** The item loop. It stops at the first item whose lookup or
    reservation fails; [k] is the number of items reserved before. *)
Lemma items_loop_spec ctx span items :
  well_formed items ->
  forall acc w,
  exists res w' k,
    for_range_acc items acc (createOrder_item ctx span) w = (res, w')
    /\ frame (set_ginWrites [] w) (set_ginWrites [] w')
    /\ (k <= List.length items)%nat
    /\ all_reservable (firstn k items) (products w) = true
    /\ products w' = reserve_all (firstn k items) (products w)
    /\ count is_granted (events w') = (k + count is_granted (events w))%nat
    /\ match res with
       | Next acc' =>
           k = List.length items
           /\ acc' = priced items (products w) acc
           /\ ginWrites w' = ginWrites w
           /\ count is_price_lookup (events w')
              = (k + count is_price_lookup (events w))%nat
           /\ count is_reservation (events w')
              = (k + count is_reservation (events w))%nat
       | Return tt =>
           (k < List.length items)%nat
           /\ count is_price_lookup (events w')
              = (S k + count is_price_lookup (events w))%nat
           /\ ((count is_reservation (events w')
                = (k + count is_reservation (events w))%nat
                /\ exists body,
                     ginWrites w'
                     = mkResponse http.StatusBadRequest body :: ginWrites w)
               \/ (count is_reservation (events w')
                   = (S k + count is_reservation (events w))%nat
                   /\ exists body,
                        ginWrites w'
                        = mkResponse http.StatusConflict body :: ginWrites w))
       | _ => False
       end
    /\ ((forall t, netSrc w t = true) ->
        all_reservable items (products w) = true ->
        exists acc', res = Next acc').
Proof.
  induction 1 as [|item rest Hitem Hrest IH]; intros [ois total] w.
  - exists (Next (ois, total)), w, 0%nat. cbn.
    repeat split; eauto using frame_refl.
  - cbn [for_range_acc]. unfold bind.
    destruct (createOrder_item_spec ctx span item ois total w Hitem)
      as (res1 & w1 & E1 & Hf1 & Hl1 & Hres1 & Hdet1).
    rewrite E1.
    destruct res1 as [acc1| [] | |]; try contradiction.
    + destruct Hres1 as (p & Hlk & Hgr & Hp1 & Hg1 & Hacc & Hw1 & Hr1).
      destruct (IH acc1 w1)
        as (res & w' & k & E & Hf & Hk & Hall & Hp & Hg & Hres & Hdet).
      rewrite E. exists res, w', (S k).
      split; [reflexivity|]. split; [eauto using frame_trans|].
      split; [cbn; lia|].
      split; [cbn; rewrite Hgr; cbn; unfold reserve_item; rewrite <- Hp1;
              exact Hall|].
      split; [cbn; unfold reserve_all in *; cbn; unfold reserve_item at 2;
              rewrite <- Hp1; exact Hp|].
      split; [lia|].
      split.
      * destruct res as [acc'| [] | |]; try contradiction.
        -- destruct Hres as (-> & Hacc' & Hw' & Hl' & Hr').
           cbn. rewrite Hlk. fold (reserve_item (products w) item).
           unfold reserve_item at 1. rewrite <- Hp1.
           repeat split; try congruence; try lia.
           subst acc1. exact Hacc'.
        -- destruct Hres as (Hlt & Hl' & Hcases).
           split; [cbn; lia|]. split; [lia|].
           destruct Hcases as [(Hr' & body & Hb)|(Hr' & body & Hb)];
             [left|right]; (split; [lia|]); exists body; congruence.
      * intros Hnet Hall'. cbn in Hall'.
        apply andb_prop in Hall'. destruct Hall' as (_ & Hall').
        apply Hdet.
        -- intros t. destruct Hf1. cbn in *. rewrite frame_netSrc0. apply Hnet.
        -- rewrite Hp1. exact Hall'.
    + destruct Hres1 as ((Hp1 & Hg1) & Hcases).
      exists (Return tt), w1, 0%nat.
      split; [reflexivity|]. split; [exact Hf1|].
      split; [cbn; lia|]. split; [reflexivity|]. split; [exact Hp1|].
      split; [exact Hg1|].
      split.
      * split; [cbn; lia|]. split; [cbn; lia|]. exact Hcases.
      * intros Hnet Hall'. cbn in Hall'.
        apply andb_prop in Hall'. destruct Hall' as (Hgr & _).
        destruct (Hdet1 Hnet Hgr) as (acc' & Habs). discriminate.
Qed.

#[local] Arguments for_range_acc : simpl never.
#[local] Arguments priced : simpl never.
#[local] Arguments all_reservable : simpl never.
#[local] Arguments firstn : simpl never.

(** How a create-order request ends. *)
Inductive Outcome : Type :=
| Created (order : Order.t)
| InvalidUser
| LookupFailed
| ReservationFailed.

(** What the order service does with a create-order request: [k] items
    are reserved, [lookups] price lookups and [reservations] reservation
    requests are sent. *)
Lemma serve_createOrder_spec info req w :
  let UserID := CreateOrderRequest.UserID req in
  let items := CreateOrderRequest.Items req in
  let N := List.length items in
  well_formed items ->
  exists resp w' k outcome,
    serve_createOrder (R:=unit) info (Some req) w = (Next resp, w')
    /\ users w' = users w
    /\ count is_release (events w') = count is_release (events w)
    /\ (k <= N)%nat
    /\ all_reservable (firstn k items) (products w) = true
    /\ products w' = reserve_all (firstn k items) (products w)
    /\ count is_granted (events w') = (k + count is_granted (events w))%nat
    /\ match outcome with
       | Created order =>
           resp = mkResponse http.StatusCreated (JOrder order)
           /\ k = N
           /\ count is_price_lookup (events w')
              = (N + count is_price_lookup (events w))%nat
           /\ count is_reservation (events w')
              = (N + count is_reservation (events w))%nat
           /\ Order.ID order = orderCounter w
           /\ Order.UserID order = UserID
           /\ Order.Status order = "pending"
           /\ (Order.Items order, Order.Total order)
              = priced items (products w) ([], 0%float)
           /\ orders w' = (orders w ++ [order])%list
           /\ orderCounter w' = GoInt.add (orderCounter w) 1
       | InvalidUser =>
           StatusCode resp = http.StatusBadRequest
           /\ k = 0%nat
           /\ count is_price_lookup (events w')
              = count is_price_lookup (events w)
           /\ count is_reservation (events w')
              = count is_reservation (events w)
           /\ orders w' = orders w /\ orderCounter w' = orderCounter w
       | LookupFailed =>
           StatusCode resp = http.StatusBadRequest
           /\ (k < N)%nat
           /\ count is_price_lookup (events w')
              = (S k + count is_price_lookup (events w))%nat
           /\ count is_reservation (events w')
              = (k + count is_reservation (events w))%nat
           /\ orders w' = orders w /\ orderCounter w' = orderCounter w
       | ReservationFailed =>
           StatusCode resp = http.StatusConflict
           /\ (k < N)%nat
           /\ count is_price_lookup (events w')
              = (S k + count is_price_lookup (events w))%nat
           /\ count is_reservation (events w')
              = (S k + count is_reservation (events w))%nat
           /\ orders w' = orders w /\ orderCounter w' = orderCounter w
       end
    /\ ((forall t, netSrc w t = true) ->
        GoInt.in_range UserID ->
        user_known UserID (users w) = true ->
        all_reservable items (products w) = true ->
        exists order, outcome = Created order).
Proof.
  intros UserID items N Hwf.
  unfold serve_createOrder, loggingMiddleware, createOrderHandler.
  fold UserID items. go_run.
  match goal with
  | |- context [validateUser ?c ?u ?w0] =>
      destruct (validateUser_spec c u w0)
        as ([valid err] & w1 & E1 & Hf1 & Hs1 & (Hp1 & Hgr1) & Hok1);
      rewrite E1
  end.
  cbn in Hp1, Hok1 |- *.
  assert (Hg1 : ginWrites w1 = []) by (destruct Hf1; assumption).
  assert (Hgranted1 : count is_granted (events w1)
                      = count is_granted (events w))
    by (unfold count in *; cbn in *; exact Hgr1).
  destruct (is_error err || negb valid) eqn:Hinvalid; cbn.
  - rewrite Hg1. cbn.
    exists (mkResponse http.StatusBadRequest (JError "Invalid user")).
    eexists. exists 0%nat, InvalidUser.
    split; [reflexivity|]. cbn.
    split; [frame_done|]. split; [frame_done|]. split; [lia|].
    split; [reflexivity|]. split; [exact Hp1|].
    split; [unfold count in *; cbn in *; exact Hgranted1|].
    split; [repeat split; frame_done|].
    intros Hnet Hrange Hknown _.
    specialize (Hok1 Hrange Hknown (Hnet _)). injection Hok1 as -> ->.
    discriminate.
  - match goal with
    | |- context [for_range_acc items ?acc (createOrder_item ?c ?s) ?w0] =>
        destruct (items_loop_spec c s items Hwf acc w0)
          as (res & w2 & k & E2 & Hf2 & Hk & Hall & Hp2 & Hgr2 & Hres & Hdet);
        rewrite E2
    end.
    rewrite Hp1 in *.
    assert (Hgranted2 : count is_granted (events w2)
                        = (k + count is_granted (events w))%nat)
      by (rewrite Hgr2, Hgranted1; reflexivity).
    destruct res as [[orderItems total]| [] | |]; try contradiction; cbn.
    + destruct Hres as (-> & Hacc & Hw2 & Hl2 & Hr2). rewrite Hw2, Hg1. cbn.
      eexists. eexists. exists (List.length items). eexists (Created _).
      split; [reflexivity|]. cbn.
      split; [frame_done|]. split; [frame_done|]. split; [lia|].
      split; [exact Hall|]. split; [exact Hp2|].
      split; [unfold count in *; cbn in *; exact Hgranted2|].
      split.
      * destruct Hf1, Hf2, Hs1. unfold count in *. subst N. cbn in *.
        repeat split; cbn; try congruence; lia.
      * eauto.
    + destruct Hres as (Hlt & Hl2 & [(Hr2 & body & Hb)|(Hr2 & body & Hb)]);
        rewrite Hb, Hg1; cbn.
      * eexists. eexists. exists k, LookupFailed.
        split; [reflexivity|]. cbn.
        split; [frame_done|]. split; [frame_done|]. split; [lia|].
        split; [exact Hall|]. split; [exact Hp2|].
        split; [unfold count in *; cbn in *; exact Hgranted2|].
        split.
        -- destruct Hf1, Hf2, Hs1. unfold count in *. subst N. cbn in *.
           repeat split; cbn; try congruence; lia.
        -- intros Hnet _ _ Hall'. exfalso.
           destruct Hdet as (acc' & Habs); [|exact Hall'|discriminate].
           intros t. destruct Hf1. cbn in *. rewrite frame_netSrc0. apply Hnet.
      * eexists. eexists. exists k, ReservationFailed.
        split; [reflexivity|]. cbn.
        split; [frame_done|]. split; [frame_done|]. split; [lia|].
        split; [exact Hall|]. split; [exact Hp2|].
        split; [unfold count in *; cbn in *; exact Hgranted2|].
        split.
        -- destruct Hf1, Hf2, Hs1. unfold count in *. subst N. cbn in *.
           repeat split; cbn; try congruence; lia.
        -- intros Hnet _ _ Hall'. exfalso.
           destruct Hdet as (acc' & Habs); [|exact Hall'|discriminate].
           intros t. destruct Hf1. cbn in *. rewrite frame_netSrc0. apply Hnet.
Qed.

(* ------------------------------------------------------------------ *)
(** *** Prices and reservations *)

(** The catalog price of a product, zero when it is not in the table. *)
Definition price_of (ps : list Product.t) (pid : Z) : float :=
  match lookup pid ps with
  | Some p => Product.Price p
  | None => 0%float
  end.

(** The sum over the items of catalog price times quantity, in
    [float64], added up in the order of the items. *)
Definition order_total (ps : list Product.t) (items : list RequestItem.t)
    : float :=
  fold_left (fun total item =>
    PrimFloat.add total
      (PrimFloat.mul (price_of ps (RequestItem.ProductID item))
         (GoInt.to_float64 (RequestItem.Quantity item))))
    items 0%float.



Lemma find_from_replace (test : Product.t -> bool) v :
  forall ps i j p,
    find_from test i ps = Some (j, p) ->
    test v = true ->
    exists k, j = (i + k)%nat
              /\ find test (ProductService.replace_nth k v ps) = Some v.
Proof.
  induction ps as [|x rest IH]; intros i j p; cbn.
  - discriminate.
  - destruct (test x) eqn:Hx.
    + intros [= <- <-] Hv. exists 0%nat. cbn. rewrite Hv.
      split; [lia | reflexivity].
    + intros Hfind Hv. destruct (IH _ _ _ Hfind Hv) as (k & -> & Hk).
      exists (S k). cbn. rewrite Hx. split; [lia | exact Hk].
Qed.

(** The stock of the reserved product is its old stock less the
    quantity, as a Go [int]. *)
Lemma stock_after_reserve_in ps pid q p :
  lookup pid ps = Some p ->
  lookup pid (reserve_in pid q ps)
  = Some (ProductService.with_Stock (GoInt.sub (Product.Stock p) q) p).
Proof.
  intros Hp. unfold reserve_in.
  destruct (lookup_locate _ _ _ Hp) as (j & Hj). rewrite Hj.
  destruct (locate_nth _ _ _ _ Hj) as (_ & Hid).
  destruct (find_from_replace (fun x => Product.ID x =? pid)
              (ProductService.with_Stock (GoInt.sub (Product.Stock p) q) p)
              ps 0%nat j p Hj Hid) as (k & -> & Hk).
  exact Hk.
Qed.




(* ------------------------------------------------------------------ *)
(** *** Order creation *)

Definition from_curl : RequestInfo := mkRequestInfo None "" "curl" "".

(** C1, as amended. A create-order request with N well-formed items is
    handled item by item, one price lookup then one reservation each,
    and the handler stops at the first failure: it sends at most N
    price lookups and at most N reservations (never more reservations
    than lookups), exactly N of each when the order is created.  When
    a reservation fails, that is when one more reservation was sent
    than the catalog granted, the answer is 409 and no order is
    appended. *)
Theorem createOrder_calls info req w :
  let items := CreateOrderRequest.Items req in
  let N := List.length items in
  well_formed items ->
  exists resp w' granted lookups reservations,
    serve_createOrder (R:=unit) info (Some req) w = (Next resp, w')
    /\ count is_price_lookup (events w')
       = (lookups + count is_price_lookup (events w))%nat
    /\ count is_reservation (events w')
       = (reservations + count is_reservation (events w))%nat
    /\ count is_granted (events w')
       = (granted + count is_granted (events w))%nat
    /\ products w' = reserve_all (firstn granted items) (products w)
    /\ (granted <= reservations)%nat /\ (reservations <= lookups)%nat
    /\ (lookups <= N)%nat /\ (lookups <= S granted)%nat
    /\ (StatusCode resp = http.StatusCreated ->
        lookups = N /\ reservations = N)
    /\ (reservations = S granted ->
        StatusCode resp = http.StatusConflict
        /\ lookups = S granted /\ orders w' = orders w).
Proof.
  intros items N Hwf.
  destruct (serve_createOrder_spec info req w Hwf)
    as (resp & w' & k & outcome & E & _ & _ & Hk & _ & Hp & Hg & Hout & _).
  fold items N in Hk, Hp, Hout.
  exists resp, w', k.
  destruct outcome as [order| | |].
  - destruct Hout as (-> & -> & Hl & Hr & _).
    exists N, N. repeat split; try assumption; try lia.
  - destruct Hout as (Hcode & -> & Hl & Hr & _).
    exists 0%nat, 0%nat. repeat split; try assumption; try lia;
      rewrite Hcode in *; discriminate.
  - destruct Hout as (Hcode & Hlt & Hl & Hr & _).
    exists (S k), k. repeat split; try assumption; try lia;
      rewrite Hcode in *; discriminate.
  - destruct Hout as (Hcode & Hlt & Hl & Hr & Ho & _).
    exists (S k), (S k). repeat split; try assumption; try lia;
      rewrite Hcode in *; discriminate.
Qed.

Lemma createOrder_calls_witness :
  let items := [RequestItem.mk 1 2; RequestItem.mk 2 100] in
  exists resp w' granted lookups reservations,
    serve_createOrder (R:=unit) from_curl
      (Some (CreateOrderRequest.mk 1 items)) calm = (Next resp, w')
    /\ count is_price_lookup (events w')
       = (lookups + count is_price_lookup (events calm))%nat
    /\ count is_reservation (events w')
       = (reservations + count is_reservation (events calm))%nat
    /\ count is_granted (events w')
       = (granted + count is_granted (events calm))%nat
    /\ products w' = reserve_all (firstn granted items) (products calm)
    /\ (granted <= reservations)%nat /\ (reservations <= lookups)%nat
    /\ (lookups <= 2)%nat /\ (lookups <= S granted)%nat
    /\ (StatusCode resp = http.StatusCreated ->
        lookups = 2%nat /\ reservations = 2%nat)
    /\ (reservations = S granted ->
        StatusCode resp = http.StatusConflict
        /\ lookups = S granted /\ orders w' = orders calm).
Proof.
  intros items.
  apply (createOrder_calls from_curl (CreateOrderRequest.mk 1 items) calm).
  repeat constructor; vm_compute; discriminate.
Defined.

(** C1, as stated, fails: of the two items of this request the first
    asks for more than the stock, so its reservation fails and the
    handler answers 409 after one price lookup, not two. *)
Lemma createOrder_lookups_counterexample :
  let items := [RequestItem.mk 2 100; RequestItem.mk 1 1] in
  exists w',
    serve_createOrder (R:=unit) from_curl
      (Some (CreateOrderRequest.mk 1 items)) calm
      = (Next (mkResponse http.StatusConflict
                 (JError "Insufficient stock for product 2")), w')
    /\ List.length items = 2%nat
    /\ count is_price_lookup (events w') = 1%nat
    /\ count is_reservation (events w') = 1%nat
    /\ orders w' = [].
Proof.
  intros items. eexists.
  split; [vm_compute; reflexivity|].
  repeat split; vm_compute; reflexivity.
Qed.



(** The total of that order: twice 1299.99 plus 49.99,
    in [float64]. *)
Example order_total_example :
  order_total (products calm) [RequestItem.mk 1 2; RequestItem.mk 6 1]
  = 2649.97%float.
Proof. vm_compute. reflexivity. Qed.

(** C5. When the reservation of an item fails after the catalog
    granted [k] reservations (one more reservation was sent than was
    granted), the request is answered 409, the orders table and the
    order counter are as before, the handler has sent no
    release-inventory request, and the products table is the one the
    [k] reservations left: their stock stays decremented. *)
Theorem createOrder_failure_keeps_reservations info req w :
  let items := CreateOrderRequest.Items req in
  well_formed items ->
  exists resp w' k,
    serve_createOrder (R:=unit) info (Some req) w = (Next resp, w')
    /\ count is_release (events w') = count is_release (events w)
    /\ count is_granted (events w')
       = (k + count is_granted (events w))%nat
    /\ (count is_reservation (events w')
        = (S k + count is_reservation (events w))%nat ->
        StatusCode resp = http.StatusConflict
        /\ (k < List.length items)%nat
        /\ all_reservable (firstn k items) (products w) = true
        /\ products w' = reserve_all (firstn k items) (products w)
        /\ orders w' = orders w
        /\ orderCounter w' = orderCounter w).
Proof.
  intros items Hwf.
  destruct (serve_createOrder_spec info req w Hwf)
    as (resp & w' & k & outcome & E & _ & Hrel & Hk & Hall & Hp & Hg & Hout
        & _).
  fold items in Hk, Hall, Hp, Hout.
  exists resp, w', k. split; [exact E|]. split; [exact Hrel|].
  split; [exact Hg|].
  intros Hsent.
  destruct outcome as [order| | |].
  - destruct Hout as (_ & -> & _ & Hr & _). lia.
  - destruct Hout as (_ & -> & _ & Hr & _). lia.
  - destruct Hout as (_ & _ & _ & Hr & _). lia.
  - destruct Hout as (Hcode & Hlt & _ & _ & Ho & Hc). auto 10.
Qed.

Lemma createOrder_failure_keeps_reservations_witness :
  let items := [RequestItem.mk 1 2; RequestItem.mk 2 100] in
  exists resp w' k,
    serve_createOrder (R:=unit) from_curl
      (Some (CreateOrderRequest.mk 1 items)) calm = (Next resp, w')
    /\ count is_release (events w') = count is_release (events calm)
    /\ count is_granted (events w')
       = (k + count is_granted (events calm))%nat
    /\ (count is_reservation (events w')
        = (S k + count is_reservation (events calm))%nat ->
        StatusCode resp = http.StatusConflict
        /\ (k < List.length items)%nat
        /\ all_reservable (firstn k items) (products calm) = true
        /\ products w' = reserve_all (firstn k items) (products calm)
        /\ orders w' = orders calm
        /\ orderCounter w' = orderCounter calm).
Proof.
  intros items.
  apply (createOrder_failure_keeps_reservations from_curl
           (CreateOrderRequest.mk 1 items) calm).
  repeat constructor; vm_compute; discriminate.
Defined.

(** That request, run: two laptops are reserved, the
    hundred phones are not; the answer is 409, no order is stored, no
    release is sent, and the laptops stay at 13, down from 15. *)
Example createOrder_partial_reservation :
  let items := [RequestItem.mk 1 2; RequestItem.mk 2 100] in
  exists w',
    serve_createOrder (R:=unit) from_curl
      (Some (CreateOrderRequest.mk 1 items)) calm
      = (Next (mkResponse http.StatusConflict
                 (JError "Insufficient stock for product 2")), w')
    /\ option_map Product.Stock (lookup 1 (products calm)) = Some 15
    /\ option_map Product.Stock (lookup 1 (products w')) = Some 13
    /\ option_map Product.Stock (lookup 2 (products w')) = Some 8
    /\ count is_reservation (events w') = 2%nat
    /\ count is_granted (events w') = 1%nat
    /\ count is_release (events w') = 0%nat
    /\ orders w' = [].
Proof.
  intros items. eexists.
  split; [vm_compute; reflexivity|].
  repeat split; vm_compute; reflexivity.
Qed.

End OrderFacts.

(* ================================================================== *)
(** ** Invariants of a run

    An invariant relates the world a run starts in to the worlds it
    reaches: a preorder that holds of every step that records no event,
    and of recording an event that is [harmless]. *)

Record Invariant : Type := mkInvariant
  { related :> World -> World -> Prop;
    harmless : Event -> bool;
    related_refl : forall w, related w w;
    related_trans : forall a b c, related a b -> related b c -> related a c;
    related_quiet :
      forall w w',
        events w' = events w -> (nextID w <= nextID w')%nat -> related w w';
    related_emit :
      forall e w,
        harmless e = true -> related w (set_events (e :: events w) w) }.

(** [keeps Inv may_panic may_return m]: from every world, [m] leaves a
    world related to it by [Inv]; it does not stay in a loop, it leaves
    the enclosing function only if [may_return], and it panics only if
    [may_panic]. *)

Definition outcome_ok {R A} (may_panic may_return : Prop) (r : flow R A)
    : Prop :=
  match r with
  | Next _ => True
  | Return _ => may_return
  | Panic => may_panic
  | Running => False
  end.

Definition keeps {R A} (Inv : Invariant) (may_panic may_return : Prop)
    (m : Go R A) : Prop :=
  forall w, Inv w (snd (m w)) /\ outcome_ok may_panic may_return (fst (m w)).

Section Keeps.

Variable Inv : Invariant.
Context {P Rt : Prop}.

#[local] Hint Resolve related_refl related_quiet related_emit : core.

Lemma keeps_ret {R A} (a : A) : keeps Inv P Rt (@ret R A a).
Proof. intros w. cbn. auto. Qed.

Lemma keeps_gets {R A} (f : World -> A) : keeps Inv P Rt (@gets R A f).
Proof. intros w. cbn. auto. Qed.

Lemma keeps_return_ {R A} (r : R) : Rt -> keeps Inv P Rt (@return_ R A r).
Proof. intros H w. cbn. auto. Qed.

Lemma keeps_panic {R A} : P -> keeps Inv P Rt (@panic R A).
Proof. intros H w. cbn. auto. Qed.

Lemma keeps_deref {R A} (p : option A) :
  (p = None -> P) -> keeps Inv P Rt (@deref R A p).
Proof. intros H w. unfold deref. destruct p; cbn; auto. Qed.

Lemma keeps_modify {R} (f : World -> World) :
  (forall w, events (f w) = events w) ->
  (forall w, nextID w <= nextID (f w))%nat ->
  keeps Inv P Rt (@modify R f).
Proof. intros He Hn w. cbn. auto. Qed.

Lemma keeps_emit {R} (e : Event) :
  harmless Inv e = true -> keeps Inv P Rt (@emit R e).
Proof. intros H w. cbn. auto. Qed.

Lemma keeps_next_tick {R} : keeps Inv P Rt (@next_tick R).
Proof. intros w. cbn. auto. Qed.

Lemma keeps_bind {R A B} (m : Go R A) (k : A -> Go R B) :
  keeps Inv P Rt m -> (forall a, keeps Inv P Rt (k a)) ->
  keeps Inv P Rt (bind m k).
Proof.
  intros Hm Hk w. unfold bind.
  destruct (Hm w) as (Hi & Ho). destruct (m w) as [[a|r| |] w1]; cbn in *;
    auto.
  destruct (Hk a w1) as (Hi' & Ho'). eauto using related_trans.
Qed.

Lemma keeps_call {R R'} (body : Go R R) :
  keeps Inv P True body -> keeps Inv P Rt (@call R R' body).
Proof.
  intros Hm w. unfold call.
  destruct (Hm w) as (Hi & Ho). destruct (body w) as [[a|r| |] w1]; cbn in *;
    auto.
Qed.

Lemma keeps_with_defer {R A} (d : Go unit unit) (rest : Go R A) :
  keeps Inv P True d -> keeps Inv P Rt rest ->
  keeps Inv P Rt (with_defer d rest).
Proof.
  intros Hd Hm w. unfold with_defer.
  destruct (Hm w) as (Hi & Ho). destruct (rest w) as [res w1]. cbn in *.
  destruct (Hd w1) as (Hi' & Ho').
  destruct res; try contradiction;
    destruct (d w1) as [[[]|[]| |] w2]; cbn in *; eauto using related_trans.
Qed.

Lemma keeps_for_range_from {R T} (xs : list T) (body : nat -> T -> Go R unit) :
  (forall i x, keeps Inv P Rt (body i x)) ->
  forall i, keeps Inv P Rt (for_range_from i xs body).
Proof.
  intros Hb. induction xs as [|x rest IH]; intros i; cbn [for_range_from].
  - apply keeps_ret.
  - apply keeps_bind; auto.
Qed.

Lemma keeps_for_range {R T} (xs : list T) (body : nat -> T -> Go R unit) :
  (forall i x, keeps Inv P Rt (body i x)) -> keeps Inv P Rt (for_range xs body).
Proof. intros Hb. apply keeps_for_range_from. exact Hb. Qed.

Lemma keeps_span_SetAttributes {R} (s : Span) (kvs : Fields) :
  (forall k v, harmless Inv (SpanAttr s k v) = true) ->
  keeps Inv P Rt (@span_SetAttributes R s kvs).
Proof.
  intros H. induction kvs as [|[k v] rest IH]; cbn [span_SetAttributes].
  - apply keeps_ret.
  - apply keeps_bind; [apply keeps_emit, H | intros _; exact IH].
Qed.

(** [xs[rand.Intn(len(xs))]] of a list that is not empty is in range. *)
Lemma keeps_pick {R} (xs : list string) :
  xs <> [] -> keeps Inv P Rt (@TrafficGenerator.pick R xs).
Proof.
  intros Hxs w. unfold TrafficGenerator.pick, rand_Intn, next_tick, gets, ret,
    bind. cbn.
  destruct (nth_error xs (Z.to_nat (randSrc w (tick w)
                                    mod Z.of_nat (List.length xs))))
    eqn:E; cbn.
  - split; [apply related_quiet; cbn; auto | exact I].
  - exfalso. apply nth_error_None in E.
    assert (0 < Z.of_nat (List.length xs))
      by (destruct xs; [congruence | cbn [List.length]; lia]).
    pose proof (Z.mod_pos_bound (randSrc w (tick w))
                  (Z.of_nat (List.length xs)) H).
    lia.
Qed.

Lemma keeps_for_range_acc {R T S} (xs : list T) (body : T -> S -> Go R S) :
  (forall x acc, keeps Inv P Rt (body x acc)) ->
  forall acc, keeps Inv P Rt (OrderService.for_range_acc xs acc body).
Proof.
  intros Hb. induction xs as [|x rest IH]; intros acc;
    cbn [OrderService.for_range_acc].
  - apply keeps_ret.
  - apply keeps_bind; auto.
Qed.

(** The same judgement of a body that behaves the same. *)
Lemma keeps_ext {R A} (m m' : Go R A) :
  (forall w, m w = m' w) -> keeps Inv P Rt m' -> keeps Inv P Rt m.
Proof. intros E H w. rewrite E. apply H. Qed.

(** A choice made on the world. *)
Lemma keeps_if_world {R A} (b : World -> bool) (m m' : Go R A) :
  keeps Inv P Rt m -> keeps Inv P Rt m' ->
  keeps Inv P Rt (fun w => if b w then m w else m' w).
Proof. intros H H' w. destruct (b w); [apply H | apply H']. Qed.

End Keeps.

(** No panic of a peer reaches its client. *)
Lemma keeps_recovered (Inv : Invariant) (P P' Rt : Prop) {R}
    (served : Go R Response) :
  keeps Inv P' Rt served -> keeps Inv P Rt (recovered served).
Proof.
  intros H w. unfold recovered. destruct (H w) as (Hi & Ho).
  destruct (served w) as [[resp|r| |] w']; cbn in *; auto.
Qed.

Lemma keeps_weaken (Inv : Invariant) (P P' Rt Rt' : Prop) {R A} (m : Go R A) :
  (P -> P') -> (Rt -> Rt') -> keeps Inv P Rt m -> keeps Inv P' Rt' m.
Proof.
  intros HP HR H w. destruct (H w) as (Hi & Ho). split; [exact Hi|].
  destruct (fst (m w)); cbn in *; auto.
Qed.

Lemma bind_assoc {R A B C} (m : Go R A) (k : A -> Go R B) (h : B -> Go R C) w :
  bind (bind m k) h w = bind m (fun a => bind (k a) h) w.
Proof. unfold bind. destruct (m w) as [[a|r| |] w1]; reflexivity. Qed.

Lemma keeps_fresh_id (Inv : Invariant) (P Rt : Prop) {R} :
  keeps Inv P Rt (@fresh_id R).
Proof.
  intros w. cbn. split; [apply related_quiet; cbn; auto | exact I].
Qed.

(** An index that may be out of range. *)
Lemma keeps_at_index (Inv : Invariant) (Rt : Prop) {R T} (xs : list T) i :
  keeps Inv True Rt (@at_index R T xs i).
Proof.
  unfold at_index. destruct (i <? 0); [apply keeps_panic; exact I|].
  destruct (nth_error xs (Z.to_nat i));
    [apply keeps_ret | apply keeps_panic; exact I].
Qed.

Lemma keeps_draw_favorites (Inv : Invariant) (Rt : Prop) {R} n :
  keeps Inv True Rt (@ProductRoutes.draw_favorites R n).
Proof.
  induction n as [|n IH]; cbn [ProductRoutes.draw_favorites].
  - apply keeps_ret.
  - apply keeps_bind; [apply keeps_gets | intros ps].
    apply keeps_bind; [|intros i].
    { unfold rand_Intn. apply keeps_bind; [apply keeps_next_tick | intros t].
      apply keeps_bind; [apply keeps_gets | intros src]. apply keeps_ret. }
    apply keeps_bind; [apply keeps_at_index | intros favorite].
    apply keeps_bind; [exact IH | intros rest]. apply keeps_ret.
Qed.

(** The head constant of an application. *)
Ltac head_of m :=
  lazymatch m with
  | ?f _ => head_of f
  | ?f => f
  end.

(** One rule of the judgement, chosen by the shape of the body; a body
    that is none of the monad's operations is unfolded. *)
Ltac keeps_step :=
  lazymatch goal with
  | |- keeps _ _ _ (ret _) => apply keeps_ret
  | |- keeps _ _ _ (gets _) => apply keeps_gets
  | |- keeps _ _ _ (return_ _) => apply keeps_return_; exact I
  | |- keeps _ _ _ panic => apply keeps_panic; exact I
  | |- keeps _ _ _ (deref _) =>
      apply keeps_deref; first [exact (fun _ => I) | discriminate]
  | |- keeps _ _ _ (emit _) => apply keeps_emit; reflexivity
  | |- keeps _ _ _ (modify _) =>
      apply keeps_modify; intros; cbn; auto
  | |- keeps _ _ _ next_tick => apply keeps_next_tick
  | |- keeps _ _ _ fresh_id => apply keeps_fresh_id
  | |- keeps _ _ _ (bind _ _) => apply keeps_bind; [|intros ?]
  | |- keeps _ _ _ (call _) => apply keeps_call
  | |- keeps _ _ _ (recovered _) => apply (keeps_recovered _ _ True)
  | |- keeps _ _ _ (with_defer _ _) => apply keeps_with_defer
  | |- keeps _ _ _ (for_range _ _) => apply keeps_for_range; intros ? ?
  | |- keeps _ _ _ (OrderService.for_range_acc _ _ _) =>
      apply keeps_for_range_acc; intros ? ?
  | |- keeps _ _ _ (span_SetAttributes _ _) =>
      apply keeps_span_SetAttributes; reflexivity
  | |- keeps _ _ _ (TrafficGenerator.pick _) =>
      apply keeps_pick; discriminate
  | |- keeps _ _ _ (at_index _ _) => apply keeps_at_index
  | |- keeps _ _ _ (ProductRoutes.draw_favorites _) =>
      apply keeps_draw_favorites
  | |- keeps _ _ _ (match ?x with _ => _ end) => destruct x
  | |- keeps _ _ _ (let _ := _ in _) => cbv zeta
  | |- keeps _ _ _ ?m => let h := head_of m in unfold h
  end.

(* ------------------------------------------------------------------ *)
(** *** No lock is taken *)

Definition is_mutex (e : Event) : bool :=
  match e with
  | MutexLock _ | MutexUnlock _ => true
  | _ => false
  end.

(** The events from [w] to [w'] hold no [sync.Mutex] call. *)
Definition lock_free (w w' : World) : Prop :=
  exists new,
    events w' = (new ++ events w)%list
    /\ forallb (fun e => negb (is_mutex e)) new = true.

Lemma lock_free_refl w : lock_free w w.
Proof. exists []. split; reflexivity. Qed.

Lemma lock_free_trans a b c : lock_free a b -> lock_free b c -> lock_free a c.
Proof.
  intros (n1 & E1 & H1) (n2 & E2 & H2). exists (n2 ++ n1)%list.
  split; [rewrite E2, E1; apply app_assoc|].
  rewrite forallb_app, H1, H2. reflexivity.
Qed.

Lemma lock_free_quiet w w' :
  events w' = events w -> (nextID w <= nextID w')%nat -> lock_free w w'.
Proof. intros E _. exists []. split; [exact E | reflexivity]. Qed.

Lemma lock_free_emit e w :
  negb (is_mutex e) = true -> lock_free w (set_events (e :: events w) w).
Proof.
  intros H. exists [e]. split; [reflexivity | cbn; rewrite H; reflexivity].
Qed.

Definition locks : Invariant :=
  mkInvariant lock_free (fun e => negb (is_mutex e))
    lock_free_refl lock_free_trans lock_free_quiet lock_free_emit.

(* ------------------------------------------------------------------ *)
(** *** Every span started is ended *)

Lemma Span_eq_dec (a b : Span) : {a = b} + {a <> b}.
Proof. decide equality; apply Nat.eq_dec. Defined.

(** Reads a history, oldest event first, against the stack of the spans
    that are open: a span that starts is pushed, a span that ends must be
    the one on top.  [None] when a span ends that is not the innermost
    open one. *)
Fixpoint nest (open : list Span) (history : list Event)
    : option (list Span) :=
  match history with
  | [] => Some open
  | SpanStart s _ _ :: rest => nest (s :: open) rest
  | SpanEnd s :: rest =>
      match open with
      | top :: below =>
          if Span_eq_dec top s then nest below rest else None
      | [] => None
      end
  | _ :: rest => nest open rest
  end.

Fixpoint started (evs : list Event) : list Span :=
  match evs with
  | [] => []
  | SpanStart s _ _ :: rest => s :: started rest
  | _ :: rest => started rest
  end.


Definition is_span_mark (e : Event) : bool :=
  match e with
  | SpanStart _ _ _ | SpanEnd _ => true
  | _ => false
  end.

(** Some events, newest first, in which every span that starts is
    ended, innermost first, the spans started taking distinct
    identifiers from [lo] up to [hi]. *)
Record closed (lo hi : nat) (new : list Event) : Prop := mkClosed
  { closed_nest : forall open, nest open (rev new) = Some open;
    closed_fresh :
      Forall (fun s => (lo <= span_id s < hi)%nat) (started new);
    closed_unique : NoDup (map span_id (started new)) }.

Definition balanced (w w' : World) : Prop :=
  (nextID w <= nextID w')%nat
  /\ exists new,
       events w' = (new ++ events w)%list
       /\ closed (nextID w) (nextID w') new.

Lemma nest_app h1 : forall open h2,
  nest open (h1 ++ h2)
  = match nest open h1 with Some o => nest o h2 | None => None end.
Proof.
  induction h1 as [|e h1 IH]; intros open h2; [reflexivity|].
  destruct e; cbn; try apply IH.
  destruct open as [|top below]; [reflexivity|].
  destruct (Span_eq_dec top s); [apply IH | reflexivity].
Qed.

Lemma started_app a b : started (a ++ b) = (started a ++ started b)%list.
Proof.
  induction a as [|e a IH]; [reflexivity|].
  destruct e; cbn; rewrite ?IH; reflexivity.
Qed.


Lemma closed_nil lo hi : closed lo hi [].
Proof. split; cbn; [reflexivity | constructor | constructor]. Qed.

Lemma closed_app lo mid hi new1 new2 :
  (lo <= mid)%nat -> (mid <= hi)%nat ->
  closed lo mid new1 -> closed mid hi new2 -> closed lo hi (new2 ++ new1).
Proof.
  intros Hlo Hhi [N1 F1 U1] [N2 F2 U2]. split.
  - intros open. rewrite rev_app_distr, nest_app, N1. apply N2.
  - rewrite started_app. apply Forall_app. split.
    + eapply Forall_impl; [|exact F2]. cbn. lia.
    + eapply Forall_impl; [|exact F1]. cbn. lia.
  - rewrite started_app, map_app. apply NoDup_app; [exact U2 | exact U1 |].
    intros i H2 H1.
    apply in_map_iff in H1. destruct H1 as (s1 & <- & H1).
    apply in_map_iff in H2. destruct H2 as (s2 & E & H2).
    rewrite Forall_forall in F1, F2.
    specialize (F1 _ H1). specialize (F2 _ H2). lia.
Qed.

Lemma closed_one lo hi e : is_span_mark e = false -> closed lo hi [e].
Proof.
  intros H. destruct e; try discriminate;
    (split; cbn; [reflexivity | constructor | constructor]).
Qed.

(** A span around events that are closed: started before them, under
    the identifier they leave free, and ended after them. *)
Lemma closed_scope n hi s parent name body :
  span_id s = n -> (n < hi)%nat ->
  closed (S n) hi body ->
  closed n hi (SpanEnd s :: body ++ [SpanStart s parent name]).
Proof.
  intros Hs Hn [N F U]. split.
  - intros open. cbn. rewrite rev_app_distr. cbn.
    rewrite nest_app, N. cbn.
    destruct (Span_eq_dec s s); [reflexivity | congruence].
  - cbn. rewrite started_app. cbn. apply Forall_app. split.
    + eapply Forall_impl; [|exact F]. cbn. lia.
    + constructor; [lia | constructor].
  - cbn. rewrite started_app, map_app. cbn.
    apply NoDup_app; [exact U | repeat constructor; intros [] |].
    intros i Hi [<-|[]].
    apply in_map_iff in Hi. destruct Hi as (s' & E & Hi).
    rewrite Forall_forall in F. specialize (F _ Hi). lia.
Qed.

Lemma balanced_refl w : balanced w w.
Proof.
  split; [lia|]. exists []. split; [reflexivity | apply closed_nil].
Qed.

Lemma balanced_trans a b c : balanced a b -> balanced b c -> balanced a c.
Proof.
  intros (L1 & n1 & E1 & C1) (L2 & n2 & E2 & C2). split; [lia|].
  exists (n2 ++ n1)%list. split; [rewrite E2, E1; apply app_assoc|].
  eapply closed_app; eassumption.
Qed.

Lemma balanced_quiet w w' :
  events w' = events w -> (nextID w <= nextID w')%nat -> balanced w w'.
Proof.
  intros E L. split; [exact L|]. exists [].
  split; [exact E | apply closed_nil].
Qed.

Lemma balanced_emit e w :
  negb (is_span_mark e) = true ->
  balanced w (set_events (e :: events w) w).
Proof.
  intros H. split; [cbn; lia|]. exists [e].
  split; [reflexivity | apply closed_one, negb_true_iff, H].
Qed.

Definition spans : Invariant :=
  mkInvariant balanced (fun e => negb (is_span_mark e))
    balanced_refl balanced_trans balanced_quiet balanced_emit.


(** A span ended by a call after the code it spans. *)
Definition trailing_span {R} (ctx : Ctx) (name : string)
    (body : Ctx -> Span -> Go R unit) : Go R unit :=
  ' (c, s) <- tracer_Start ctx name ;;
  body c s ;;
  span_End s.

Lemma keeps_deferred_span {R A} (P Rt : Prop) ctx name
    (body : Ctx -> Span -> Go R A) :
  (forall c s, keeps spans P Rt (body c s)) ->
  keeps spans P Rt
    (bind (tracer_Start ctx name)
       (fun x => let (c, s) := x in with_defer (span_End s) (body c s))).
Proof.
  intros Hb w.
  unfold tracer_Start, span_End, fresh_id, emit, modify, ret, with_defer,
    bind. cbn.
  match goal with
  | |- context [body ?c ?s ?w1] =>
      destruct (Hb c s w1) as ((L & new & E & C) & Ho);
      destruct (body c s w1) as [res w2]
  end.
  cbn in *.
  destruct res; try contradiction; cbn; (split; [|assumption]);
    (split; [cbn; lia|]);
    (eexists (_ :: new ++ [_])%list; split;
     [cbn; rewrite E, <- app_assoc; reflexivity
     |apply closed_scope; [reflexivity | cbn; lia | exact C]]).
Qed.

Lemma keeps_trailing_span {R} (P Rt : Prop) ctx name
    (body : Ctx -> Span -> Go R unit) :
  (forall c s, keeps spans False False (body c s)) ->
  keeps spans P Rt (trailing_span ctx name body).
Proof.
  intros Hb w.
  unfold trailing_span, tracer_Start, span_End, fresh_id, emit, modify, ret,
    bind. cbn.
  match goal with
  | |- context [body ?c ?s ?w1] =>
      destruct (Hb c s w1) as ((L & new & E & C) & Ho);
      destruct (body c s w1) as [res w2]
  end.
  cbn in *.
  destruct res; try contradiction; cbn. split; [|exact I].
  split; [cbn; lia|].
  eexists (_ :: new ++ [_])%list; split;
    [cbn; rewrite E, <- app_assoc; reflexivity
    |apply closed_scope; [reflexivity | cbn; lia | exact C]].
Qed.

(* ------------------------------------------------------------------ *)
(** *** The requests of the traffic generator *)

Lemma bind_ext {R A B} (m : Go R A) (k k' : A -> Go R B) w :
  (forall a w', k a w' = k' a w') -> bind m k w = bind m k' w.
Proof.
  intros E. unfold bind. destruct (m w) as [[a|r| |] w1]; auto.
Qed.

(** [makeRequest] returns a response and no error, or an error and no
    response: what follows the call is run on one or the other, after
    the client span of the transport has ended. *)
Lemma keeps_call_makeRequest {R B} (P Rt : Prop) ctx method url payload
    (k : option Response * TrafficGenerator.error -> Go R B) :
  (forall resp, keeps spans P Rt (k (Some resp, None))) ->
  (forall msg, keeps spans P Rt (k (None, Some msg))) ->
  keeps spans P Rt
    (bind (call (TrafficGenerator.makeRequest ctx method url payload)) k).
Proof.
  intros Hok Herr.
  apply keeps_ext with
    (m' := answer <-
             (' (c, s) <- tracer_Start ctx ("HTTP " ++ method) ;;
              defer span_End s ;;
              emit (HTTPDo method url) ;;
              t <- next_tick ;;
              src <- gets peerSrc ;;
              emit (HTTPResult url (src t)) ;;
              match src t with
              | None => ret None
              | Some code =>
                  span_SetAttributes s [("http.status_code", VInt code)] ;;
                  ret (Some code)
              end) ;;
           match answer with
           | None =>
               emit (LogLine ErrorLevel "HTTP request failed"
                       [ ("service", VStr TrafficGenerator.serviceName);
                         ("method", VStr method);
                         ("url", VStr (url_String url));
                         ("error", VStr "request failed");
                         ("trace_id", TrafficGenerator.ctx_TraceID ctx) ]) ;;
               k (None, Some "request failed")
           | Some code =>
               emit (LogLine InfoLevel "HTTP request completed"
                       [ ("service", VStr TrafficGenerator.serviceName);
                         ("method", VStr method);
                         ("url", VStr (url_String url));
                         ("status_code", VInt code);
                         ("trace_id", TrafficGenerator.ctx_TraceID ctx) ]) ;;
               k (Some (mkResponse code JNone), None)
           end).
  - intros w.
    unfold TrafficGenerator.makeRequest, otelhttp_Start, io_Copy_Discard,
      tracer_Start, span_End, fresh_id, logrus_Error, logrus_Info,
      logrus_log, next_tick, gets, emit, modify, return_, ret, call,
      with_defer, bind.
    cbn.
    destruct (peerSrc w (tick w)); reflexivity.
  - apply keeps_bind.
    + apply keeps_deferred_span. intros c s.
      repeat first
        [ apply keeps_bind; [|intros ?]
        | apply keeps_emit; reflexivity
        | apply keeps_next_tick
        | apply keeps_gets
        | apply keeps_ret
        | apply keeps_span_SetAttributes; reflexivity
        | match goal with
          | |- keeps _ _ _ (match ?x with _ => _ end) => destruct x
          end ].
    + intros [code|];
        (apply keeps_bind; [apply keeps_emit; reflexivity | intros _; auto]).
Qed.

(** A request to a peer, whose body is closed when the function is
    left: the client span is ended around what follows the call, or by
    the transport when the request does not arrive. *)
Lemma keeps_client_Do {R B} (P Rt : Prop) ctx method url
    (peer : Ctx -> Go R Response) (k1 : Go R B)
    (k2 : Response -> ReadCloser -> Go R B) :
  (forall c, keeps spans True False (peer c)) ->
  keeps spans P Rt k1 ->
  (forall resp body, keeps spans P Rt (k2 resp body)) ->
  keeps spans P Rt
    (bind (httpClient_Do ctx method url peer)
       (fun x =>
          match x with
          | Some (resp, body) => with_defer (Body_Close body) (k2 resp body)
          | None => k1
          end)).
Proof.
  intros Hpeer H1 H2.
  apply keeps_ext with
    (m' := fun w =>
       if netSrc w (tick w) then
         (' (c, s) <- tracer_Start ctx ("HTTP " ++ method) ;;
          defer span_End s ;;
          emit (HTTPDo method url) ;;
          next_tick ;;
          resp <- recovered (peer c) ;;
          span_SetAttributes s
            [("http.status_code", VInt (StatusCode resp))] ;;
          k2 resp s) w
       else
         ((' (c, s) <- tracer_Start ctx ("HTTP " ++ method) ;;
           defer span_End s ;;
           emit (HTTPDo method url) ;;
           next_tick ;;
           ret tt) ;;
          k1) w).
  - intros w.
    unfold httpClient_Do, otelhttp_Start, Body_Close, tracer_Start, span_End,
      fresh_id, next_tick, gets, emit, modify, ret, with_defer, bind.
    cbn.
    destruct (netSrc w (tick w)); cbn; [|reflexivity].
    match goal with
    | |- context [recovered (peer ?c) ?w1] =>
        pose proof (keeps_recovered spans False True False (peer c)
                      (Hpeer c) w1) as (_ & Ho);
        destruct (recovered (peer c) w1) as [[resp|r| |] w2]
    end; cbn in Ho; try contradiction.
    cbn. reflexivity.
  - apply keeps_if_world.
    + apply keeps_deferred_span. intros c s.
      repeat first
        [ apply keeps_bind; [|intros ?]
        | apply keeps_emit; reflexivity
        | apply keeps_next_tick
        | apply keeps_span_SetAttributes; reflexivity
        | apply (keeps_recovered spans P True Rt);
          apply (keeps_weaken spans True True False Rt);
          [tauto | tauto | apply Hpeer]
        | apply keeps_ret
        | apply H2 ].
    + apply keeps_bind; [|intros _; exact H1].
      apply keeps_deferred_span. intros c s.
      repeat first
        [ apply keeps_bind; [|intros ?]
        | apply keeps_emit; reflexivity
        | apply keeps_next_tick
        | apply keeps_ret ].
Qed.


(** The rules again, with the rules of the deferred span and of the
    client span first. *)
Ltac spans_step :=
  lazymatch goal with
  | |- keeps spans _ _ (bind (tracer_Start _ _) _) =>
      apply keeps_deferred_span; intros ? ?
  | |- keeps spans _ _ (bind (OrderService.httpClient_Do_user _ _ _) _) =>
      unfold OrderService.httpClient_Do_user;
      apply keeps_client_Do; [intros ? | | intros ? ?]
  | |- keeps spans _ _ (bind (OrderService.httpClient_Do_product _ _ _) _) =>
      unfold OrderService.httpClient_Do_product;
      apply keeps_client_Do; [intros ? | | intros ? ?]
  | |- keeps spans _ _ (bind (UserRoutes.httpClient_Do_product _ _ _) _) =>
      unfold UserRoutes.httpClient_Do_product;
      apply keeps_client_Do; [intros ? | | intros ? ?]
  | |- _ => keeps_step
  end.

Lemma keeps_random_items (Inv : Invariant) (P Rt : Prop) {R} n :
  keeps Inv P Rt (@TrafficGenerator.random_items R n).
Proof.
  induction n as [|n IH]; cbn [TrafficGenerator.random_items];
    repeat keeps_step.
  exact IH.
Qed.

(** The rules for the bodies of the traffic generator. *)
Ltac generator_step :=
  lazymatch goal with
  | |- keeps _ _ _ (bind (call (TrafficGenerator.makeRequest _ _ _ _)) _) =>
      apply keeps_call_makeRequest;
      [ intros ?; cbv beta iota delta [TrafficGenerator.is_error]
      | intros ?; cbv beta iota delta [TrafficGenerator.is_error] ]
  | |- keeps _ _ _ (TrafficGenerator.random_items _) =>
      apply keeps_random_items
  | |- _ => spans_step
  end.

(** A loop iteration is a trailing span around its body. *)
Ltac as_trailing_span :=
  eapply keeps_ext with (m' := trailing_span _ _ _);
  [ intros w; unfold trailing_span; apply bind_ext; intros [c s] w';
    symmetry; apply bind_assoc
  | apply keeps_trailing_span; intros c s ].

(* ================================================================== *)
(** ** The routes of the three services *)

Module ServiceFacts.
Import Services.

(** One request for each route the three [main] functions register. *)
Definition one_of_each : list Request :=
  [ UserRequest' UserRoutes.GET_health;
    UserRequest (UserService.POST_auth_login None);
    UserRequest (UserService.POST_auth_register None);
    UserRequest (UserService.GET_users_id "1");
    UserRequest' (UserRoutes.GET_users_id_profile "1");
    UserRequest' (UserRoutes.GET_users_id_favorites "1");
    UserRequest' (UserRoutes.POST_users_id_preferences "1");
    UserRequest' (UserRoutes.GET_users_search "" "" "10");
    UserRequest' UserRoutes.POST_auth_refresh;
    ProductRequest' ProductRoutes.GET_health;
    ProductRequest' ProductRoutes.GET_products;
    ProductRequest (ProductService.GET_products_id "1");
    ProductRequest' (ProductRoutes.GET_products_search "" "" "");
    ProductRequest' (ProductRoutes.GET_products_favorites_user_id "1");
    ProductRequest' (ProductRoutes.GET_inventory_id "1");
    ProductRequest (ProductService.POST_inventory_id_reserve "1" None);
    ProductRequest (ProductService.POST_inventory_id_release "1" None);
    ProductRequest' ProductRoutes.GET_products_trending;
    ProductRequest' (ProductRoutes.POST_products_id_view "1");
    ProductRequest' (ProductRoutes.GET_products_category_category "Home");
    ProductRequest' (ProductRoutes.PUT_products_id_price "1" None);
    OrderRequest' OrderRoutes.GET_health;
    OrderRequest' OrderRoutes.GET_orders;
    OrderRequest (OrderQueries.GET_orders_id "1");
    POST_orders None;
    OrderRequest (OrderQueries.PUT_orders_id_status "1" None);
    OrderRequest' (OrderRoutes.GET_orders_user_user_id "1");
    OrderRequest' (OrderRoutes.POST_payments_id "1" None);
    OrderRequest' (OrderRoutes.POST_orders_id_cancel "1");
    OrderRequest' (OrderRoutes.GET_orders_id_tracking "1");
    OrderRequest' (OrderRoutes.POST_orders_id_refund "1" None);
    OrderRequest' OrderRoutes.GET_analytics_orders;
    OrderRequest' (OrderRoutes.GET_payments_id "1") ].

(** Every route that is registered is the route of a request. *)
Lemma every_route_is_served route :
  In route registered ->
  exists q, (service q, method q, pattern q) = route.
Proof.
  intros H.
  change registered
    with (map (fun q => (service q, method q, pattern q)) one_of_each) in H.
  apply in_map_iff in H. destruct H as (q & E & _). exists q. exact E.
Qed.

Lemma registered_routes : List.length registered = 33%nat.
Proof. reflexivity. Qed.


(** No request takes a lock. *)
Lemma serve_locks {R} info q : keeps locks True True (@serve R info q).
Proof. destruct q; unfold serve; repeat keeps_step. Qed.

End ServiceFacts.

(* ================================================================== *)
(** ** Spans *)

Module SpanFacts.
Import TrafficGenerator.









(* ------------------------------------------------------------------ *)
(** *** The scenario loops *)

(** [iteration] is a span named [name], ended by a call after a body
    that ends the spans it starts itself, and neither returns nor
    panics. *)
Definition trailing (name : string) (iteration : Go unit unit) : Prop :=
  exists body,
    (forall c s, keeps spans False False (body c s))
    /\ forall w, iteration w = trailing_span None name body w.

(** Splits an iteration into its span and its body, and runs the rules
    on the body. *)
Ltac trailing_body :=
  eexists; split; cycle 1;
  [ intros w; unfold trailing_span; apply bind_ext; intros [c s] w';
    symmetry; apply bind_assoc
  | intros c s; cbv beta; repeat generator_step ].

Lemma generateUserTraffic_trailing :
  trailing "user_workflow" generateUserTraffic.
Proof. unfold generateUserTraffic. trailing_body. Qed.

Lemma generateProductTraffic_trailing :
  trailing "product_workflow" generateProductTraffic.
Proof. unfold generateProductTraffic. trailing_body. Qed.

Lemma generateOrderTraffic_trailing :
  trailing "order_workflow" generateOrderTraffic.
Proof. unfold generateOrderTraffic. trailing_body. Qed.

Lemma generateHealthChecks_trailing :
  trailing "health_checks" generateHealthChecks.
Proof. unfold generateHealthChecks. trailing_body. Qed.

Lemma generateAdvancedUserTraffic_trailing :
  trailing "advanced_user_traffic" generateAdvancedUserTraffic.
Proof. unfold generateAdvancedUserTraffic. trailing_body. Qed.

Lemma generateAdvancedProductTraffic_trailing :
  trailing "advanced_product_traffic" generateAdvancedProductTraffic.
Proof. unfold generateAdvancedProductTraffic. trailing_body. Qed.

Lemma generateAdvancedOrderTraffic_trailing :
  trailing "advanced_order_traffic" generateAdvancedOrderTraffic.
Proof. unfold generateAdvancedOrderTraffic. trailing_body. Qed.

Lemma loops_trailing name iteration :
  In (name, iteration) loops -> exists span_name, trailing span_name iteration.
Proof.
  unfold loops. cbn [In].
  intros [H|[H|[H|[H|[H|[H|[H|[]]]]]]]]; injection H as _ <-; eexists.
  - exact generateUserTraffic_trailing.
  - exact generateProductTraffic_trailing.
  - exact generateOrderTraffic_trailing.
  - exact generateHealthChecks_trailing.
  - exact generateAdvancedUserTraffic_trailing.
  - exact generateAdvancedProductTraffic_trailing.
  - exact generateAdvancedOrderTraffic_trailing.
Qed.

Lemma trailing_spans name iteration :
  trailing name iteration -> keeps spans False False iteration.
Proof.
  intros (body & Hbody & E).
  eapply keeps_ext; [exact E|]. apply keeps_trailing_span, Hbody.
Qed.

Lemma loops_spans name iteration :
  In (name, iteration) loops -> keeps spans False False iteration.
Proof.
  intros H. destruct (loops_trailing _ _ H) as (span_name & Ht).
  eapply trailing_spans, Ht.
Qed.


(* ------------------------------------------------------------------ *)
(** *** The request handlers *)












End SpanFacts.

(* ================================================================== *)
(** ** traffic-generator: start-up *)

Module GeneratorFacts.
Import TrafficGenerator.

(** What the scenario loops do that start-up does not: a loop is
    started, a span is started, a request is sent by [makeRequest]. *)
Definition is_traffic (e : Event) : bool :=
  match e with
  | Spawn _ | SpanStart _ _ _ | HTTPDo _ _ => true
  | _ => false
  end.

Definition no_traffic (evs : list Event) : bool :=
  forallb (fun e => negb (is_traffic e)) evs.

(** Among [evs], newest first, a [http.Get] of the health endpoint
    [service] that was answered 200. *)
Definition answered_ready (service : URL) (evs : list Event) : Prop :=
  exists later earlier,
    evs = (later ++ HTTPResult service (Some http.StatusOK)
                 :: HTTPGet service :: earlier)%list.

Lemma answered_ready_app service later evs earlier :
  answered_ready service evs ->
  answered_ready service (later ++ evs ++ earlier).
Proof.
  intros (l & e & ->). exists (later ++ l)%list, (e ++ earlier)%list.
  rewrite <- !app_assoc. reflexivity.
Qed.

Lemma poll_spec service rounds : forall w,
  exists new,
    events (snd (poll rounds service w)) = (new ++ events w)%list
    /\ no_traffic new = true
    /\ match fst (poll rounds service w) with
       | Next _ => answered_ready service new
       | Running => True
       | _ => False
       end.
Proof.
  induction rounds as [|rounds IH]; intros w.
  - exists []. cbn. auto.
  - cbn [poll].
    unfold http_Get, logrus_Info, logrus_log, time_Sleep, next_tick, gets,
      emit, modify, ret, bind.
    cbn -[poll Z.eqb].
    destruct (peerSrc w (tick w)) as [code|] eqn:Hpeer;
      [destruct (code =? http.StatusOK) eqn:Hcode|].
    + apply Z.eqb_eq in Hcode. subst code. cbn.
      eexists [_; _; _]. split; [reflexivity|]. split; [reflexivity|].
      eexists [_], []. reflexivity.
    + match goal with
      | |- context [poll rounds service ?w1] =>
          destruct (IH w1) as (new & E & Hn & Hres);
          destruct (poll rounds service w1) as [res w2]
      end.
      cbn in *. eexists (new ++ [_; _; _; _])%list.
      split; [rewrite E, <- app_assoc; reflexivity|].
      split; [unfold no_traffic in *; rewrite forallb_app, Hn; reflexivity|].
      destruct res; try contradiction; [|exact I].
      apply (answered_ready_app service [] new _ Hres).
    + match goal with
      | |- context [poll rounds service ?w1] =>
          destruct (IH w1) as (new & E & Hn & Hres);
          destruct (poll rounds service w1) as [res w2]
      end.
      cbn in *. eexists (new ++ [_; _; _; _])%list.
      split; [rewrite E, <- app_assoc; reflexivity|].
      split; [unfold no_traffic in *; rewrite forallb_app, Hn; reflexivity|].
      destruct res; try contradiction; [|exact I].
      apply (answered_ready_app service [] new _ Hres).
Qed.

Lemma poll_each_spec rounds targets : forall i w,
  exists new,
    events (snd (for_range_from i targets (fun _ s => poll rounds s) w))
    = (new ++ events w)%list
    /\ no_traffic new = true
    /\ match fst (for_range_from i targets (fun _ s => poll rounds s) w) with
       | Next _ =>
           forall service, In service targets -> answered_ready service new
       | Running => True
       | _ => False
       end.
Proof.
  induction targets as [|service rest IH]; intros i w.
  - exists []. cbn. split; [reflexivity|]. split; [reflexivity|].
    intros ? [].
  - cbn [for_range_from]. unfold bind.
    destruct (poll_spec service rounds w) as (new1 & E1 & N1 & R1).
    destruct (poll rounds service w) as [res1 w1]. cbn in E1, N1, R1.
    destruct res1; try contradiction.
    + destruct (IH (S i) w1) as (new2 & E2 & N2 & R2).
      destruct (for_range_from (S i) rest _ w1) as [res2 w2].
      cbn in E2, N2, R2 |- *.
      exists (new2 ++ new1)%list.
      split; [rewrite E2, E1; apply app_assoc|].
      split; [unfold no_traffic in *; rewrite forallb_app, N1, N2;
              reflexivity|].
      destruct res2; try contradiction; [|exact I].
      intros s [<-|Hs].
      * apply (answered_ready_app _ new2 new1 [] ) in R1.
        rewrite app_nil_r in R1. exact R1.
      * apply (answered_ready_app _ [] new2 new1), R2, Hs.
    + exists new1. cbn. auto.
Qed.

(** [waitForServices] sends no traffic, and returns only when each of
    the three health endpoints has answered 200. *)
Lemma waitForServices_spec rounds w :
  exists new,
    events (snd (waitForServices rounds w)) = (new ++ events w)%list
    /\ no_traffic new = true
    /\ match fst (waitForServices rounds w) with
       | Next _ =>
           forall service, In service services -> answered_ready service new
       | Running => True
       | _ => False
       end.
Proof.
  unfold waitForServices, for_range, bind.
  destruct (poll_each_spec rounds services 0%nat w) as (new & E & N & R).
  destruct (for_range_from 0 services _ w) as [res w1]. cbn in E, N, R.
  destruct res; try contradiction.
  - unfold logrus_Info, logrus_log, emit, modify. cbn.
    eexists (_ :: new).
    split; [rewrite E; reflexivity|]. split; [exact N|].
    intros s Hs. destruct (R s Hs) as (later & earlier & ->).
    eexists (_ :: later), earlier. reflexivity.
  - exists new. cbn. auto.
Qed.

(** The loops only add to the events. *)
Lemma select_forever_extends ticks : forall w,
  exists new, events (snd (select_forever ticks w)) = (new ++ events w)%list.
Proof.
  induction ticks as [|ticks IH]; intros w.
  - exists []. reflexivity.
  - cbn [select_forever]. unfold next_tick, gets, bind.
    cbn -[nth_error loops Nat.modulo].
    destruct (nth_error loops (schedSrc w (tick w) mod 7)) as [[name it]|]
      eqn:Hnth.
    + apply nth_error_In in Hnth.
      pose proof (keeps_call spans (P:=False) (Rt:=False) (R':=unit) it
                    (keeps_weaken spans False False False True it
                       (fun H => H) (fun _ => I)
                       (SpanFacts.loops_spans name it Hnth))) as Hk.
      match goal with
      | |- context [call it ?w1] =>
          destruct (Hk w1) as ((_ & new1 & E1 & _) & Ho);
          destruct (call it w1) as [res w2]
      end.
      cbn in E1, Ho. destruct res as [[]| | |]; try contradiction.
      destruct (IH w2) as (new2 & E2). cbn.
      exists (new2 ++ new1)%list. rewrite E2, E1. apply app_assoc.
    + cbn. destruct (IH (set_tick (S (tick w)) w)) as (new & E).
      exists new. exact E.
Qed.

(** Start-up comes to an end: when every [rounds] requests in a row
    have one that is answered 200, each service is found ready within
    [rounds] polls and [waitForServices] returns. *)
Definition answers_within (rounds : nat) (w : World) : Prop :=
  forall t, exists t',
    (t <= t' < t + rounds)%nat /\ peerSrc w t' = Some http.StatusOK.

Lemma poll_returns service rounds : forall w,
  (exists t, (tick w <= t < tick w + rounds)%nat
             /\ peerSrc w t = Some http.StatusOK) ->
  exists w',
    poll rounds service w = (Next tt, w') /\ peerSrc w' = peerSrc w.
Proof.
  induction rounds as [|rounds IH]; intros w (t & Ht & Hpeer); [lia|].
  cbn [poll].
  unfold http_Get, logrus_Info, logrus_log, time_Sleep, next_tick, gets,
    emit, modify, ret, bind.
  cbn -[poll Z.eqb].
  destruct (match peerSrc w (tick w) with
            | Some code => code =? http.StatusOK
            | None => false
            end) eqn:Hnow.
  - eexists. split; reflexivity.
  - match goal with
    | |- context [poll rounds service ?w1] => destruct (IH w1) as (w' & E & Hp)
    end.
    + exists t. cbn. split; [|exact Hpeer].
      assert (t <> tick w) by (intros ->; rewrite Hpeer in Hnow; discriminate).
      lia.
    + exists w'. split; [exact E | exact Hp].
Qed.

Lemma waitForServices_returns rounds w :
  answers_within rounds w -> fst (waitForServices rounds w) = Next tt.
Proof.
  intros H. unfold waitForServices, for_range, services.
  cbn [for_range_from]. unfold bind.
  destruct (poll_returns (mkURL user_service ["health"]) rounds w (H _))
    as (w1 & -> & P1).
  destruct (poll_returns (mkURL product_service ["health"]) rounds w1)
    as (w2 & -> & P2); [rewrite P1; apply H|].
  destruct (poll_returns (mkURL order_service ["health"]) rounds w2)
    as (w3 & -> & P3); [rewrite P2, P1; apply H|].
  reflexivity.
Qed.

(** With every service ready at its first poll, [main] starts the
    seven loops after three polls. *)
Example main_starts_the_loops :
  answers_within 1 calm
  /\ filter is_traffic (events (snd (main 1 0 calm)))
     = map Spawn (rev (map fst loops))
  /\ filter (fun e => match e with HTTPGet _ => true | _ => false end)
       (events (snd (main 1 0 calm)))
     = rev (map HTTPGet services).
Proof.
  split; [intros t; exists t; split; [lia | reflexivity]|].
  split; vm_compute; reflexivity.
Qed.

(** C7. The events of [main], however long it is observed, are those
    of start-up followed by the traffic: start-up sends none of the
    traffic, and when there is any traffic, start-up holds, for each of
    the three services, a [http.Get] of its health endpoint that was
    answered 200. *)
Theorem health_checks_precede_traffic polls ticks w :
  exists traffic startup,
    events (snd (main polls ticks w)) = (traffic ++ startup ++ events w)%list
    /\ no_traffic startup = true
    /\ (traffic = []
        \/ forall service,
             In service services -> answered_ready service startup).
Proof.
  unfold main, bind, call, logrus_Info, logrus_log, go_, emit, modify.
  cbn -[waitForServices select_forever].
  match goal with
  | |- context [waitForServices polls ?w1] =>
      destruct (waitForServices_spec polls w1) as (new & E & N & R);
      destruct (waitForServices polls w1) as [res w2]
  end.
  cbn in E, N, R.
  destruct res as [[]|[]| |]; try contradiction.
  - cbn -[select_forever].
    match goal with
    | |- context [select_forever ticks ?w3] =>
        destruct (select_forever_extends ticks w3) as (new' & E')
    end.
    cbn in E'.
    exists (new' ++ [Spawn "generateAdvancedOrderTraffic";
                     Spawn "generateAdvancedProductTraffic";
                     Spawn "generateAdvancedUserTraffic";
                     Spawn "generateHealthChecks";
                     Spawn "generateOrderTraffic";
                     Spawn "generateProductTraffic";
                     Spawn "generateUserTraffic"])%list,
           (new ++ [LogLine InfoLevel "Starting traffic generator"
                      [("service", VStr serviceName)]])%list.
    split; [rewrite E', E; cbn; rewrite <- !app_assoc; reflexivity|].
    split; [unfold no_traffic in *; rewrite forallb_app, N; reflexivity|].
    right. intros s Hs.
    apply (answered_ready_app s [] new _ (R s Hs)).
  - cbn. exists [], (new ++ [LogLine InfoLevel "Starting traffic generator"
                               [("service", VStr serviceName)]])%list.
    split; [rewrite E; cbn; rewrite <- app_assoc; reflexivity|].
    split; [unfold no_traffic in *; rewrite forallb_app, N; reflexivity|].
    left. reflexivity.
Qed.

End GeneratorFacts.

(* ================================================================== *)
(** ** Stores to the tables *)

Module LockFacts.

Definition Table_eqb (a b : Table) : bool :=
  match a, b with
  | UsersTable, UsersTable
  | ProductsTable, ProductsTable
  | OrdersTable, OrdersTable => true
  | _, _ => false
  end.

(** One lock of [t] less among the locks held. *)
Fixpoint unlock (t : Table) (held : list Table) : list Table :=
  match held with
  | [] => []
  | t' :: rest => if Table_eqb t t' then rest else t' :: unlock t rest
  end.

(** Reads a history, oldest event first, with the tables whose lock is
    held: every store to a table is made while its lock is held. *)
Fixpoint stores_guarded (held : list Table) (history : list Event) : bool :=
  match history with
  | [] => true
  | MutexLock t :: rest => stores_guarded (t :: held) rest
  | MutexUnlock t :: rest => stores_guarded (unlock t held) rest
  | Store t :: rest =>
      existsb (Table_eqb t) held && stores_guarded held rest
  | _ :: rest => stores_guarded held rest
  end.

(** The tables stored to, newest first. *)
Fixpoint stores (evs : list Event) : list Table :=
  match evs with
  | [] => []
  | Store t :: rest => t :: stores rest
  | _ :: rest => stores rest
  end.

(** Whatever world [m] starts in, it takes and releases no lock, so
    that none of its stores to a table is guarded. *)
Definition takes_no_lock {R A} (m : Go R A) : Prop :=
  forall w, exists new,
    events (snd (m w)) = (new ++ events w)%list
    /\ forallb (fun e => negb (is_mutex e)) new = true
    /\ (stores new <> [] -> stores_guarded [] (rev new) = false).

Lemma stores_app a b : stores (a ++ b) = (stores a ++ stores b)%list.
Proof.
  induction a as [|e a IH]; [reflexivity|].
  destruct e; cbn; rewrite ?IH; reflexivity.
Qed.

Lemma stores_rev l : stores (rev l) = rev (stores l).
Proof.
  induction l as [|e l IH]; [reflexivity|].
  cbn [rev]. rewrite stores_app, IH. destruct e; cbn; rewrite ?app_nil_r;
    reflexivity.
Qed.

(** With no lock ever taken, a history is guarded only if it stores
    nothing. *)
Lemma unguarded_without_lock history :
  forallb (fun e => negb (is_mutex e)) history = true ->
  stores history <> [] ->
  stores_guarded [] history = false.
Proof.
  induction history as [|e rest IH]; intros Hfree Hstore;
    [exfalso; apply Hstore; reflexivity|].
  cbn in Hfree. apply andb_prop in Hfree. destruct Hfree as (He & Hfree).
  destruct e; cbn in *; try discriminate; auto.
Qed.

Lemma keeps_takes_no_lock {R A} (P Rt : Prop) (m : Go R A) :
  keeps locks P Rt m -> takes_no_lock m.
Proof.
  intros H w. destruct (H w) as ((new & E & Hfree) & _).
  exists new. split; [exact E|]. split; [exact Hfree|].
  intros Hstore. apply unguarded_without_lock.
  - rewrite forallb_forall in *. intros e He. apply Hfree, in_rev, He.
  - rewrite stores_rev. intros Hnil. apply Hstore.
    rewrite <- (rev_involutive (stores new)), Hnil. reflexivity.
Qed.

(** C8, as amended. No request to any of the three services, on any
    of the thirty-three routes their [main] functions register, takes
    or releases a lock: every store it makes to a table is made with no
    lock held.  Each of the eight handlers that assign to a table
    (registration; reservation, release and price update; order
    creation, status update, payment and cancellation) does store to
    it. *)
Theorem tables_stored_without_lock :
  (forall info q, takes_no_lock (Services.serve (R:=unit) info q))
  /\ (forall route,
        In route Services.registered ->
        exists q,
          (Services.service q, Services.method q, Services.pattern q)
          = route)
  /\ (let curl := mkRequestInfo None "" "curl" "" in
      let placed :=
        set_orders [Order.mk 1 1 [] "pending" 0%float 0 0 "" ""] calm in
      let stored q w :=
        stores (events (snd (Services.serve (R:=unit) curl q w))) in
      stored (Services.UserRequest
                (UserService.POST_auth_register
                   (Some (RegisterRequest.mk "new@example.com" "New"
                            "secret")))) calm
      = [UsersTable]
      /\ stored (Services.ProductRequest
                   (ProductService.POST_inventory_id_reserve "1"
                      (Some (InventoryRequest.mk 2 7)))) calm
         = [ProductsTable]
      /\ stored (Services.ProductRequest
                   (ProductService.POST_inventory_id_release "1"
                      (Some (InventoryRequest.mk 2 7)))) calm
         = [ProductsTable]
      /\ stored (Services.ProductRequest'
                   (ProductRoutes.PUT_products_id_price "1"
                      (Some 999.5%float))) calm
         = [ProductsTable]
      /\ stored (Services.POST_orders
                   (Some (CreateOrderRequest.mk 1 [RequestItem.mk 1 2])))
           calm
         = [OrdersTable; ProductsTable]
      /\ stored (Services.OrderRequest
                   (OrderQueries.PUT_orders_id_status "1"
                      (Some "shipped"))) placed
         = [OrdersTable; OrdersTable]
      /\ stored (Services.OrderRequest'
                   (OrderRoutes.POST_payments_id "1"
                      (Some (PaymentRequest.mk "credit_card" 10%float))))
           placed
         = [OrdersTable; OrdersTable; OrdersTable]
      /\ stored (Services.OrderRequest'
                   (OrderRoutes.POST_orders_id_cancel "1")) placed
         = [OrdersTable; OrdersTable]).
Proof.
  split; [|split].
  - intros info q. eapply keeps_takes_no_lock, ServiceFacts.serve_locks.
  - apply ServiceFacts.every_route_is_served.
  - repeat split; vm_compute; reflexivity.
Qed.

Definition curl : RequestInfo := mkRequestInfo None "" "curl" "".

(** C8, as stated, fails: a registration, a reservation and the
    creation of an order each change their table, and store to it with
    no lock held. *)
Lemma stores_made_without_lock :
  let register :=
    UserService.serve (R:=unit) curl
      (UserService.POST_auth_register
         (Some (RegisterRequest.mk "new@example.com" "New" "secret"))) in
  let reserve :=
    ProductService.serve (R:=unit) curl
      (ProductService.POST_inventory_id_reserve "1"
         (Some (InventoryRequest.mk 2 7))) in
  let create :=
    OrderService.serve_createOrder (R:=unit) curl
      (Some (CreateOrderRequest.mk 1 [RequestItem.mk 1 2])) in
  (StatusCode (match fst (register calm) with
               | Next resp => resp
               | _ => mkResponse 0 JNone
               end) = http.StatusCreated
   /\ List.length (users (snd (register calm)))
      = S (List.length (users calm))
   /\ stores (events (snd (register calm))) = [UsersTable]
   /\ stores_guarded [] (history (snd (register calm))) = false)
  /\ (map Product.Stock (products (snd (reserve calm)))
      <> map Product.Stock (products calm)
      /\ stores (events (snd (reserve calm))) = [ProductsTable]
      /\ stores_guarded [] (history (snd (reserve calm))) = false)
  /\ (List.length (orders (snd (create calm))) = 1%nat
      /\ stores (events (snd (create calm))) = [OrdersTable; ProductsTable]
      /\ stores_guarded [] (history (snd (create calm))) = false).
Proof.
  intros register reserve create.
  repeat split; try (vm_compute; reflexivity).
  vm_compute. discriminate.
Qed.

End LockFacts.

(* ================================================================== *)
(** * Further properties *)

(** ** product-service: the catalog as a function of the requests *)

Module CatalogFacts.
Import ProductService.
Import ProductFacts.

(** The table after a release: the stock of the first product with the
    identifier, plus the quantity. *)
Definition release_in (pid q : Z) (ps : list Product.t) : list Product.t :=
  match locate pid ps with
  | Some (j, p) =>
      replace_nth j (with_Stock (GoInt.add (Product.Stock p) q) p) ps
  | None => ps
  end.

(** The table after a request. *)
Definition table_after (r : Route) (ps : list Product.t) : list Product.t :=
  match r with
  | GET_products_id _ => ps
  | POST_inventory_id_reserve id (Some request) =>
      match strconv.Atoi id with
      | Some pid =>
          let q := InventoryRequest.Quantity request in
          if OrderFacts.reservable pid q ps
          then OrderFacts.reserve_in pid q ps
          else ps
      | None => ps
      end
  | POST_inventory_id_release id (Some request) =>
      match strconv.Atoi id with
      | Some pid => release_in pid (InventoryRequest.Quantity request) ps
      | None => ps
      end
  | _ => ps
  end.

(** The answer to a request. *)
Definition answer (r : Route) (ps : list Product.t) : Response :=
  match r with
  | GET_products_id id =>
      match strconv.Atoi id with
      | None => mkResponse http.StatusBadRequest (JError "Invalid product ID")
      | Some pid =>
          match lookup pid ps with
          | Some p => mkResponse http.StatusOK (JProduct p)
          | None => mkResponse http.StatusNotFound (JError "Product not found")
          end
      end
  | POST_inventory_id_reserve id body =>
      match strconv.Atoi id, body with
      | None, _ =>
          mkResponse http.StatusBadRequest (JError "Invalid product ID")
      | Some _, None =>
          mkResponse http.StatusBadRequest (JError "Invalid request")
      | Some pid, Some request =>
          let q := InventoryRequest.Quantity request in
          let oid := InventoryRequest.OrderID request in
          match lookup pid ps with
          | None => mkResponse http.StatusNotFound (JError "Product not found")
          | Some p =>
              if Product.Stock p <? q
              then mkResponse http.StatusConflict (JError "Insufficient stock")
              else mkResponse http.StatusOK
                     (JReserve pid q (GoInt.sub (Product.Stock p) q) oid
                        ("RES-" ++ strconv.Itoa pid ++ "-"
                           ++ strconv.Itoa oid))
          end
      end
  | POST_inventory_id_release id body =>
      match strconv.Atoi id, body with
      | None, _ =>
          mkResponse http.StatusBadRequest (JError "Invalid product ID")
      | Some _, None =>
          mkResponse http.StatusBadRequest (JError "Invalid request")
      | Some pid, Some request =>
          let q := InventoryRequest.Quantity request in
          match lookup pid ps with
          | None => mkResponse http.StatusNotFound (JError "Product not found")
          | Some p =>
              mkResponse http.StatusOK
                (JRelease pid q (GoInt.add (Product.Stock p) q)
                   (InventoryRequest.OrderID request))
          end
      end
  end.

(** The search loops of the three handlers. *)
Ltac search_loop pid :=
  rewrite (for_range_search (fun x => Product.ID x =? pid));
  [ | intros i x w0 Hx; rewrite Hx; reflexivity
    | intros i x w0 Hx; rewrite Hx; repeat (go_case; cbn in * ); congruence ].

Lemma serve_answer (R : Type) info r w :
  exists w',
    serve (R:=R) info r w = (Next (answer r (products w)), w')
    /\ products w' = table_after r (products w)
    /\ users w' = users w
    /\ orders w' = orders w
    /\ orderCounter w' = orderCounter w.
Proof.
  destruct r as [id|id body|id body].
  - unfold serve, loggingMiddleware, handler, getProductHandler, for_range,
      answer, table_after.
    destruct (strconv.Atoi id) as [pid|]; go_run.
    + search_loop pid.
      rewrite <- locate_lookup. unfold locate.
      destruct (find_from _ 0%nat (products w)) as [[j p]|] eqn:Hj; cbn.
      * destruct (find_from_nth _ _ _ _ _ Hj) as (k & _ & _ & Hp).
        rewrite Hp. cbn. eexists. split; [reflexivity|]. cbn. auto.
      * eexists. split; [reflexivity|]. cbn. auto.
    + eexists. split; [reflexivity|]. cbn. auto.
  - unfold serve, loggingMiddleware, handler, reserveInventoryHandler,
      for_range, products_set_Stock, products_at, answer, table_after.
    destruct (strconv.Atoi id) as [pid|]; [destruct body as [request|]|];
      go_run.
    + search_loop pid.
      unfold OrderFacts.reservable, OrderFacts.reserve_in.
      rewrite <- locate_lookup. unfold locate.
      destruct (find_from _ 0%nat (products w)) as [[j p]|] eqn:Hj; cbn.
      * destruct (find_from_nth _ _ _ _ _ Hj) as (k & -> & Hnth & Hp).
        rewrite Hp. cbn in Hnth |- *.
        destruct (Product.Stock p <? InventoryRequest.Quantity request)
          eqn:Hq; cbn.
        -- eexists. split; [reflexivity|]. cbn. auto.
        -- rewrite Hnth. cbn. rewrite Hnth. cbn.
           rewrite (nth_replace_nth _ _ _ _ Hnth). cbn.
           eexists. split; [reflexivity|]. cbn. auto.
      * eexists. split; [reflexivity|]. cbn. auto.
    + eexists. split; [reflexivity|]. cbn. auto.
    + destruct body; eexists; (split; [reflexivity|]); cbn; auto.
  - unfold serve, loggingMiddleware, handler, releaseInventoryHandler,
      for_range, products_set_Stock, products_at, answer, table_after.
    destruct (strconv.Atoi id) as [pid|]; [destruct body as [request|]|];
      go_run.
    + search_loop pid.
      unfold release_in.
      rewrite <- locate_lookup. unfold locate.
      destruct (find_from _ 0%nat (products w)) as [[j p]|] eqn:Hj; cbn.
      * destruct (find_from_nth _ _ _ _ _ Hj) as (k & -> & Hnth & Hp).
        rewrite Hp. cbn in Hnth |- *.
        rewrite Hnth. cbn. rewrite Hnth. cbn.
        rewrite (nth_replace_nth _ _ _ _ Hnth). cbn.
        eexists. split; [reflexivity|]. cbn. auto.
      * eexists. split; [reflexivity|]. cbn. auto.
    + eexists. split; [reflexivity|]. cbn. auto.
    + destruct body; eexists; (split; [reflexivity|]); cbn; auto.
Qed.


(* ------------------------------------------------------------------ *)
(** *** The table under replacement *)

Lemma wrap_add_l a b : GoInt.wrap (GoInt.wrap a + b) = GoInt.wrap (a + b).
Proof.
  unfold GoInt.wrap. f_equal.
  replace ((a + 2 ^ 63) mod 2 ^ 64 - 2 ^ 63 + b + 2 ^ 63)
    with ((a + 2 ^ 63) mod 2 ^ 64 + b) by lia.
  rewrite Z.add_mod_idemp_l by lia. f_equal. lia.
Qed.

(** Adding back what was subtracted gives the [int] one started from,
    also when the subtraction wrapped around. *)
Lemma add_sub_cancel s q :
  GoInt.in_range s -> GoInt.add (GoInt.sub s q) q = s.
Proof.
  intros Hs. unfold GoInt.add, GoInt.sub. rewrite wrap_add_l.
  replace (s - q + q) with s by lia. apply GoIntFacts.wrap_small, Hs.
Qed.

Lemma replace_nth_same {T} (xs : list T) : forall j x,
  nth_error xs j = Some x -> replace_nth j x xs = xs.
Proof.
  induction xs as [|y rest IH]; intros [|j] x H; cbn in *;
    try discriminate.
  - injection H as ->. reflexivity.
  - f_equal. apply IH, H.
Qed.

Lemma replace_nth_twice {T} (xs : list T) : forall j u v,
  replace_nth j v (replace_nth j u xs) = replace_nth j v xs.
Proof.
  induction xs as [|y rest IH]; intros [|j] u v; cbn; try reflexivity.
  f_equal. apply IH.
Qed.

Lemma nth_replace_nth_other {T} (xs : list T) : forall i j v,
  i <> j -> nth_error (replace_nth j v xs) i = nth_error xs i.
Proof.
  induction xs as [|y rest IH]; intros [|i] [|j] v H; cbn;
    try reflexivity; try congruence.
  apply IH. congruence.
Qed.

Lemma map_replace_nth {T U} (f : T -> U) (xs : list T) : forall j v x,
  nth_error xs j = Some x -> f v = f x ->
  map f (replace_nth j v xs) = map f xs.
Proof.
  induction xs as [|y rest IH]; intros [|j] v x H E; cbn in *;
    try discriminate.
  - injection H as ->. rewrite E. reflexivity.
  - f_equal. eapply IH; eassumption.
Qed.

Lemma find_from_replace_at {T} (test : T -> bool) v :
  forall xs i j p,
    find_from test i xs = Some (j, p) ->
    test v = true ->
    exists k,
      j = (i + k)%nat
      /\ find_from test i (replace_nth k v xs) = Some (j, v).
Proof.
  induction xs as [|x rest IH]; intros i j p; cbn.
  - discriminate.
  - destruct (test x) eqn:Hx.
    + intros [= <- <-] Hv. exists 0%nat. cbn. rewrite Hv.
      split; [lia | f_equal; f_equal; lia].
    + intros Hfind Hv. destruct (IH _ _ _ Hfind Hv) as (k & -> & Hk).
      exists (S k). cbn. rewrite Hx. split; [lia | exact Hk].
Qed.

(** The product found first stays the product found first when its
    place is taken by one with the same identifier. *)
Lemma locate_replace pid ps j p v :
  locate pid ps = Some (j, p) ->
  Product.ID v = Product.ID p ->
  locate pid (replace_nth j v ps) = Some (j, v).
Proof.
  intros Hj Hv. destruct (locate_nth _ _ _ _ Hj) as (_ & Hid).
  destruct (find_from_replace_at (fun x => Product.ID x =? pid) v ps 0%nat j p
              Hj) as (k & -> & Hk).
  - rewrite Hv. exact Hid.
  - exact Hk.
Qed.

Lemma Forall_replace_nth {T} (P : T -> Prop) (xs : list T) : forall j v,
  Forall P xs -> P v -> Forall P (replace_nth j v xs).
Proof.
  induction xs as [|y rest IH]; intros [|j] v H Hv; cbn;
    inversion H; subst; auto.
Qed.

Lemma with_Stock_twice u v p : with_Stock v (with_Stock u p) = with_Stock v p.
Proof. reflexivity. Qed.

Lemma with_Stock_same p : with_Stock (Product.Stock p) p = p.
Proof. destruct p. reflexivity. Qed.

(** A release after a reservation of the same quantity gives the table
    back. *)
Lemma release_in_reserve_in pid q ps p :
  lookup pid ps = Some p ->
  GoInt.in_range (Product.Stock p) ->
  release_in pid q (OrderFacts.reserve_in pid q ps) = ps.
Proof.
  intros Hp Hs. unfold release_in, OrderFacts.reserve_in.
  destruct (lookup_locate _ _ _ Hp) as (j & Hj). rewrite Hj.
  destruct (locate_nth _ _ _ _ Hj) as (Hnth & _).
  rewrite (locate_replace pid ps j p
             (with_Stock (GoInt.sub (Product.Stock p) q) p) Hj eq_refl).
  rewrite replace_nth_twice, with_Stock_twice. cbn [Product.Stock with_Stock].
  rewrite add_sub_cancel by exact Hs.
  rewrite with_Stock_same. apply replace_nth_same, Hnth.
Qed.

(* ------------------------------------------------------------------ *)
(** *** Reservations *)

Definition curl : RequestInfo := mkRequestInfo None "" "curl" "".

(** X1. A reserve-inventory request for a product of the table whose
    stock is not below the quantity is answered 200 and leaves the
    stock less the quantity, as a Go [int]: the subtraction wraps
    around.  The quantity has no lower bound: zero is granted and
    changes nothing, and a negative quantity is granted too.  It raises
    the stock as long as the difference fits an [int]; where the
    difference is above the largest [int], the stock left is the
    difference less 2^64, a negative number. *)
Theorem reserve_has_no_lower_bound info id request pid p w :
  let q := InventoryRequest.Quantity request in
  let remaining := GoInt.sub (Product.Stock p) q in
  strconv.Atoi id = Some pid ->
  lookup pid (products w) = Some p ->
  q <= Product.Stock p ->
  exists w',
    serve (R:=unit) info (POST_inventory_id_reserve id (Some request)) w
      = (Next (mkResponse http.StatusOK
                 (JReserve pid q remaining (InventoryRequest.OrderID request)
                    ("RES-" ++ strconv.Itoa pid ++ "-"
                       ++ strconv.Itoa (InventoryRequest.OrderID request)))),
         w')
    /\ lookup pid (products w') = Some (with_Stock remaining p)
    /\ (GoInt.in_range (Product.Stock p - q) ->
        remaining = Product.Stock p - q)
    /\ (q < 0 -> GoInt.in_range (Product.Stock p - q) ->
        Product.Stock p < remaining)
    /\ (GoInt.in_range (Product.Stock p) -> GoInt.in_range q ->
        GoInt.max_int < Product.Stock p - q ->
        remaining = Product.Stock p - q - 2 ^ 64 /\ remaining < 0).
Proof.
  intros q remaining Hid Hp Hq.
  destruct (serve_answer unit info
              (POST_inventory_id_reserve id (Some request)) w)
    as (w' & E & Hps & _).
  exists w'. cbn [answer table_after] in E, Hps. rewrite Hid in E, Hps.
  rewrite Hp in E. unfold OrderFacts.reservable in Hps. rewrite Hp in Hps.
  fold q in E, Hps.
  assert (Hlt : (Product.Stock p <? q) = false) by (apply Z.ltb_ge; exact Hq).
  rewrite Hlt in E, Hps. cbn in Hps.
  split; [exact E|]. split; [|split; [|split]].
  - rewrite Hps. apply OrderFacts.stock_after_reserve_in, Hp.
  - apply GoIntFacts.wrap_small.
  - intros Hneg Hfits. unfold remaining, GoInt.sub.
    rewrite (GoIntFacts.wrap_small _ Hfits). lia.
  - intros Hs Hr Hover.
    assert (E64 : remaining = Product.Stock p - q - 2 ^ 64).
    { unfold remaining, GoInt.sub, GoInt.wrap.
      unfold GoInt.in_range, GoInt.min_int, GoInt.max_int in *.
      replace (Product.Stock p - q + 2 ^ 63)
        with (Product.Stock p - q - 2 ^ 64 + 2 ^ 63 + 1 * 2 ^ 64) by lia.
      rewrite Z.mod_add by lia. rewrite Z.mod_small; lia. }
    split; [exact E64|]. rewrite E64.
    unfold GoInt.in_range, GoInt.min_int, GoInt.max_int in *. lia.
Qed.

Lemma reserve_has_no_lower_bound_witness :
  let p := Product.mk 1 "Laptop Gaming" "High-performance gaming laptop"
             1299.99%float "Electronics" 15 "https://example.com/laptop.jpg" in
  let q := - 2 ^ 63 in
  exists w',
    serve (R:=unit) curl
      (POST_inventory_id_reserve "1" (Some (InventoryRequest.mk q 7))) calm
      = (Next (mkResponse http.StatusOK
                 (JReserve 1 q (GoInt.sub 15 q) 7
                    ("RES-" ++ strconv.Itoa 1 ++ "-" ++ strconv.Itoa 7))), w')
    /\ lookup 1 (products w') = Some (with_Stock (GoInt.sub 15 q) p)
    /\ (GoInt.in_range (15 - q) -> GoInt.sub 15 q = 15 - q)
    /\ (q < 0 -> GoInt.in_range (15 - q) -> 15 < GoInt.sub 15 q)
    /\ (GoInt.in_range 15 -> GoInt.in_range q ->
        GoInt.max_int < 15 - q ->
        GoInt.sub 15 q = 15 - q - 2 ^ 64 /\ GoInt.sub 15 q < 0).
Proof.
  intros p q.
  apply (reserve_has_no_lower_bound curl "1" (InventoryRequest.mk q 7) 1 p
           calm).
  - reflexivity.
  - reflexivity.
  - cbn. lia.
Defined.

(** X2. Release undoes reserve: after a reservation that is granted, a
    release of the same quantity for the same product is answered 200
    and leaves the products table exactly as it was before the
    reservation, also when the quantity is negative or the arithmetic
    wraps around. *)
Theorem release_undoes_reserve info info' id request pid p w :
  strconv.Atoi id = Some pid ->
  lookup pid (products w) = Some p ->
  GoInt.in_range (Product.Stock p) ->
  InventoryRequest.Quantity request <= Product.Stock p ->
  exists reserved w1 released w2,
    serve (R:=unit) info (POST_inventory_id_reserve id (Some request)) w
      = (Next reserved, w1)
    /\ serve (R:=unit) info' (POST_inventory_id_release id (Some request)) w1
       = (Next released, w2)
    /\ StatusCode reserved = http.StatusOK
    /\ StatusCode released = http.StatusOK
    /\ products w1 = OrderFacts.reserve_in pid
                      (InventoryRequest.Quantity request) (products w)
    /\ products w2 = products w.
Proof.
  intros Hid Hp Hs Hq.
  destruct (serve_answer unit info
              (POST_inventory_id_reserve id (Some request)) w)
    as (w1 & E1 & Hps1 & _).
  destruct (serve_answer unit info'
              (POST_inventory_id_release id (Some request)) w1)
    as (w2 & E2 & Hps2 & _).
  do 4 eexists. split; [exact E1|]. split; [exact E2|].
  cbn [answer table_after] in *. rewrite Hid in *.
  unfold OrderFacts.reservable in Hps1. rewrite Hp in *.
  assert (Hlt : (Product.Stock p <? InventoryRequest.Quantity request) = false)
    by (apply Z.ltb_ge; exact Hq).
  rewrite Hlt in *. cbn in Hps1.
  split; [reflexivity|]. split.
  - rewrite Hps1.
    rewrite (OrderFacts.stock_after_reserve_in _ _ _ _ Hp). reflexivity.
  - split; [exact Hps1|].
    rewrite Hps2, Hps1. apply (release_in_reserve_in _ _ _ p); assumption.
Qed.

Lemma release_undoes_reserve_witness :
  exists reserved w1 released w2,
    serve (R:=unit) curl
      (POST_inventory_id_reserve "3" (Some (InventoryRequest.mk 25 1))) calm
      = (Next reserved, w1)
    /\ serve (R:=unit) curl
         (POST_inventory_id_release "3" (Some (InventoryRequest.mk 25 1))) w1
       = (Next released, w2)
    /\ StatusCode reserved = http.StatusOK
    /\ StatusCode released = http.StatusOK
    /\ products w1 = OrderFacts.reserve_in 3 25 (products calm)
    /\ products w2 = products calm.
Proof.
  apply (release_undoes_reserve curl curl "3" (InventoryRequest.mk 25 1) 3
           (Product.mk 3 "Running Shoes" "Professional running shoes"
              159.99%float "Sports" 25 "https://example.com/shoes.jpg")).
  - reflexivity.
  - reflexivity.
  - cbv. split; discriminate.
  - cbn. lia.
Defined.

(* ------------------------------------------------------------------ *)
(** *** What a request leaves alone *)

(** A product but for its stock. *)
Definition listing (p : Product.t) : Product.t := with_Stock 0 p.

(** X3. Whatever the request to the product service (get, reserve or
    release; any identifier, any body), the users and the orders are
    untouched and the products table keeps its products, in their
    order, with their identifiers, names, prices and categories: at
    most the stock of one product changes, and only when the answer is
    200. *)
Theorem only_one_stock_changes info r w :
  exists resp w' j,
    serve (R:=unit) info r w = (Next resp, w')
    /\ users w' = users w
    /\ orders w' = orders w
    /\ map listing (products w') = map listing (products w)
    /\ (forall i, i <> j ->
          nth_error (products w') i = nth_error (products w) i)
    /\ (StatusCode resp <> http.StatusOK -> products w' = products w).
Proof.
  destruct (serve_answer unit info r w) as (w' & E & Hps & Hus & Hos & _).
  assert (Hcases :
    (products w' = products w)
    \/ (StatusCode (answer r (products w)) = http.StatusOK
        /\ exists j p v,
             nth_error (products w) j = Some p
             /\ products w' = replace_nth j (with_Stock v p) (products w))).
  { rewrite Hps. destruct r as [id|id [request|]|id [request|]];
      cbn [table_after answer]; auto;
      destruct (strconv.Atoi id) as [pid|]; auto.
    - unfold OrderFacts.reservable, OrderFacts.reserve_in.
      rewrite <- locate_lookup.
      destruct (locate pid (products w)) as [[j p]|] eqn:Hj; cbn; auto.
      destruct (Product.Stock p <? InventoryRequest.Quantity request); cbn;
        auto.
      right. split; [reflexivity|].
      destruct (locate_nth _ _ _ _ Hj) as (Hnth & _). eauto.
    - unfold release_in. rewrite <- locate_lookup.
      destruct (locate pid (products w)) as [[j p]|] eqn:Hj; cbn; auto.
      right. split; [reflexivity|].
      destruct (locate_nth _ _ _ _ Hj) as (Hnth & _). eauto. }
  destruct Hcases as [Hsame|(Hok & j & p & v & Hnth & Hrep)].
  - exists (answer r (products w)), w', 0%nat.
    rewrite Hsame. auto 10.
  - exists (answer r (products w)), w', j.
    split; [exact E|]. split; [exact Hus|]. split; [exact Hos|].
    rewrite Hrep. split; [|split].
    + eapply map_replace_nth; [exact Hnth | reflexivity].
    + intros i Hi. apply nth_replace_nth_other, Hi.
    + intros Hne. contradiction.
Qed.

(** Stocks that are not negative. *)
Definition stocked (ps : list Product.t) : Prop :=
  Forall (fun p => 0 <= Product.Stock p <= GoInt.max_int) ps.

(** X4. Reservations of quantities that are not negative never drive a
    stock below zero: if no stock of the table is negative before a
    reserve-inventory request for such a quantity, none is after it,
    whatever the answer. *)
Theorem reserve_keeps_stock_nonnegative info id request w :
  0 <= InventoryRequest.Quantity request ->
  stocked (products w) ->
  exists resp w',
    serve (R:=unit) info (POST_inventory_id_reserve id (Some request)) w
      = (Next resp, w')
    /\ stocked (products w').
Proof.
  intros Hq Hst.
  destruct (serve_answer unit info
              (POST_inventory_id_reserve id (Some request)) w)
    as (w' & E & Hps & _).
  do 2 eexists. split; [exact E|]. rewrite Hps. cbn [table_after].
  destruct (strconv.Atoi id) as [pid|]; [|exact Hst].
  unfold OrderFacts.reservable, OrderFacts.reserve_in.
  rewrite <- locate_lookup.
  destruct (locate pid (products w)) as [[j p]|] eqn:Hj; cbn; [|exact Hst].
  destruct (Product.Stock p <? InventoryRequest.Quantity request) eqn:Hlt;
    cbn; [exact Hst|].
  apply Z.ltb_ge in Hlt.
  destruct (locate_nth _ _ _ _ Hj) as (Hnth & _).
  pose proof (proj1 (Forall_forall _ _) Hst p (nth_error_In _ _ Hnth)) as Hp.
  apply Forall_replace_nth; [exact Hst|]. cbn.
  unfold GoInt.sub. rewrite GoIntFacts.wrap_small;
    unfold GoInt.in_range, GoInt.min_int, GoInt.max_int in *; lia.
Qed.

Lemma reserve_keeps_stock_nonnegative_witness :
  exists resp w',
    serve (R:=unit) curl
      (POST_inventory_id_reserve "7" (Some (InventoryRequest.mk 5 1))) calm
      = (Next resp, w')
    /\ stocked (products w').
Proof.
  apply (reserve_keeps_stock_nonnegative curl "7" (InventoryRequest.mk 5 1)
           calm).
  - cbn. lia.
  - repeat constructor; cbv; discriminate.
Defined.

End CatalogFacts.

(* ================================================================== *)
(** ** user-service: registration and login *)

Module AccountFacts.
Import UserService.

(** The email of a registration is taken. *)
Definition registered (email : string) (us : list User.t) : bool :=
  existsb (fun u => String.eqb (User.Email u) email) us.

Lemma registered_find_from email us : forall i,
  registered email us
  = match find_from (fun u => String.eqb (User.Email u) email) i us with
    | Some _ => true
    | None => false
    end.
Proof.
  induction us as [|u rest IH]; intros i; cbn; [reflexivity|].
  destruct (String.eqb (User.Email u) email); cbn; [reflexivity | apply IH].
Qed.

(** The user a registration appends. *)
Definition newUser (req : RegisterRequest.t) (us : list User.t) : User.t :=
  User.mk (Z.of_nat (List.length us) + 1) (RegisterRequest.Email req)
    (RegisterRequest.Name req) (RegisterRequest.Password req).

(** The table after a request. *)
Definition users_after (r : Route) (us : list User.t) : list User.t :=
  match r with
  | POST_auth_register (Some req) =>
      if registered (RegisterRequest.Email req) us then us
      else (us ++ [newUser req us])%list
  | _ => us
  end.

(** The answer to a registration. *)
Definition register_answer (req : RegisterRequest.t) (us : list User.t)
    : Response :=
  if registered (RegisterRequest.Email req) us
  then mkResponse http.StatusConflict (JError "User already exists")
  else mkResponse http.StatusCreated
         (JRegister (User.ID (newUser req us)) (RegisterRequest.Email req)
            (RegisterRequest.Name req) "User created successfully").

(** What a request leaves as it was. *)
Definition rest_kept (w w' : World) : Prop :=
  products w' = products w /\ orders w' = orders w
  /\ orderCounter w' = orderCounter w
  /\ randSrc w' = randSrc w /\ signSrc w' = signSrc w
  /\ clockSrc w' = clockSrc w.

Lemma register_run (R : Type) info req w :
  exists w',
    serve (R:=R) info (POST_auth_register (Some req)) w
    = (Next (register_answer req (users w)), w')
    /\ users w' = users_after (POST_auth_register (Some req)) (users w)
    /\ rest_kept w w'.
Proof.
  unfold serve, loggingMiddleware, handler, registerHandler, for_range,
    register_answer, users_after, rest_kept.
  go_run.
  rewrite (for_range_search
             (fun u => String.eqb (User.Email u) (RegisterRequest.Email req)));
    [ | intros i x w0 Hx; rewrite Hx; reflexivity
      | intros i x w0 Hx; rewrite Hx; cbn; congruence ].
  rewrite (registered_find_from _ _ 0%nat).
  destruct (find_from _ 0%nat (users w)) as [[j u]|] eqn:Hj; cbn.
  - destruct (find_from_nth _ _ _ _ _ Hj) as (k & _ & _ & Hu).
    rewrite Hu. cbn. eexists. split; [reflexivity|]. cbn. tauto.
  - eexists. split; [reflexivity|]. cbn. tauto.
Qed.

(** The answer to a login that is not hit by the simulated database
    failure; [signed] is what signing gives. *)
Definition login_answer (req : LoginRequest.t) (signed : option string)
    (us : list User.t) : Response :=
  match find (credentials_match req) us with
  | None => mkResponse http.StatusUnauthorized (JError "Invalid credentials")
  | Some user =>
      match signed with
      | None =>
          mkResponse http.StatusInternalServerError
            (JError "Internal server error")
      | Some token =>
          mkResponse http.StatusOK
            (JLogin token (User.ID user) (User.Email user) (User.Name user))
      end
  end.

Lemma login_run (R : Type) info req w :
  (randSrc w (S (tick w)) mod 100 <? 15) = false ->
  exists w',
    serve (R:=R) info (POST_auth_login (Some req)) w
    = (Next (login_answer req (signSrc w (S (S (S (tick w))))) (users w)),
       w')
    /\ users w' = users w /\ rest_kept w w'.
Proof.
  intros Hdraw.
  unfold serve, loggingMiddleware, handler, loginHandler, SignedString,
    login_answer, rest_kept.
  go_run. rewrite Hdraw. cbn.
  destruct (find (credentials_match req) (users w)) as [u|]; cbn.
  - destruct (signSrc w (S (S (S (tick w))))); cbn;
      (eexists; split; [reflexivity|]; cbn; tauto).
  - eexists; split; [reflexivity|]; cbn; tauto.
Qed.

(** Every request is answered, and changes the table as [users_after]
    says. *)
Lemma serve_users (R : Type) info r w :
  exists resp w',
    serve (R:=R) info r w = (Next resp, w')
    /\ users w' = users_after r (users w).
Proof.
  destruct r as [[req|]|[req|]|id].
  - unfold serve, loggingMiddleware, handler, loginHandler, SignedString.
    go_run. repeat (go_case; cbn);
      (do 2 eexists; split; [reflexivity|]; reflexivity).
  - unfold serve, loggingMiddleware, handler, loginHandler.
    go_run. do 2 eexists; split; reflexivity.
  - destruct (register_run R info req w) as (w' & E & Hu & _).
    eauto.
  - unfold serve, loggingMiddleware, handler, registerHandler.
    go_run. do 2 eexists; split; reflexivity.
  - destruct (OrderFacts.serve_get_user R info id w) as (resp & w' & E & H).
    do 2 eexists. split; [exact E|]. cbn. apply H.
Qed.

(** X5. A registration is answered 409, and changes nothing, when its
    email is that of a user of the table; otherwise it is answered 201
    and appends one user, with the email, name and password of the
    request, whose identifier is the number of users plus one.  There is
    no other check: empty fields are accepted. *)
Theorem register_once_per_email info req w :
  exists w',
    serve (R:=unit) info (POST_auth_register (Some req)) w
    = (Next (if registered (RegisterRequest.Email req) (users w)
             then mkResponse http.StatusConflict (JError "User already exists")
             else mkResponse http.StatusCreated
                    (JRegister (Z.of_nat (List.length (users w)) + 1)
                       (RegisterRequest.Email req) (RegisterRequest.Name req)
                       "User created successfully")),
       w')
    /\ users w'
       = (if registered (RegisterRequest.Email req) (users w)
          then users w
          else users w
               ++ [User.mk (Z.of_nat (List.length (users w)) + 1)
                     (RegisterRequest.Email req) (RegisterRequest.Name req)
                     (RegisterRequest.Password req)])%list
    /\ products w' = products w
    /\ orders w' = orders w.
Proof.
  destruct (register_run unit info req w) as (w' & E & Hu & Hp & Ho & _).
  exists w'. split; [exact E|]. split; [exact Hu|]. split; assumption.
Qed.

(** No user matches a login with an email that is not in the table. *)
Lemma find_free email password us :
  registered email us = false ->
  find (credentials_match (LoginRequest.mk email password)) us = None.
Proof.
  unfold registered, credentials_match.
  induction us as [|u rest IH]; cbn; [reflexivity|].
  destruct (String.eqb (User.Email u) email); cbn; [discriminate | exact IH].
Qed.

Lemma find_past {A} (f : A -> bool) (l l' : list A) :
  find f l = None -> find f (l ++ l') = find f l'.
Proof.
  induction l as [|x rest IH]; cbn; [reflexivity|].
  destruct (f x); [discriminate | exact IH].
Qed.

(** X6. Registering and then logging in.  When the email is free, the
    registration is answered 201; a login with the same email and
    password that follows it is answered 200 with a token and the
    identifier, email and name the registration answered (the
    identifier is the number of users before it, plus one), provided
    the simulated database failure is not drawn and signing succeeds;
    with any other password it is answered 401. *)
Theorem register_then_login info info' req w :
  registered (RegisterRequest.Email req) (users w) = false ->
  (forall t, (randSrc w t mod 100 <? 15) = false) ->
  (forall t, signSrc w t <> None) ->
  exists w1 w2 token id,
    serve (R:=unit) info (POST_auth_register (Some req)) w
    = (Next (mkResponse http.StatusCreated
               (JRegister id (RegisterRequest.Email req)
                  (RegisterRequest.Name req) "User created successfully")),
       w1)
    /\ serve (R:=unit) info'
         (POST_auth_login
            (Some (LoginRequest.mk (RegisterRequest.Email req)
                     (RegisterRequest.Password req)))) w1
       = (Next (mkResponse http.StatusOK
                  (JLogin token id (RegisterRequest.Email req)
                     (RegisterRequest.Name req))),
          w2)
    /\ id = Z.of_nat (List.length (users w)) + 1
    /\ forall password, password <> RegisterRequest.Password req ->
       exists w3,
         serve (R:=unit) info'
           (POST_auth_login
              (Some (LoginRequest.mk (RegisterRequest.Email req) password)))
           w1
         = (Next (mkResponse http.StatusUnauthorized
                    (JError "Invalid credentials")), w3).
Proof.
  intros Hfree Hdraw Hsign.
  destruct (register_run unit info req w)
    as (w1 & E1 & Hu1 & _ & _ & _ & Hr & Hs & _).
  unfold register_answer in E1. cbn in Hu1. rewrite Hfree in E1, Hu1.
  assert (Hmiss : forall password,
            find (credentials_match
                    (LoginRequest.mk (RegisterRequest.Email req) password))
              (users w) = None).
  { intros password. apply find_free. exact Hfree. }
  assert (Hfind : forall password,
            find (credentials_match
                    (LoginRequest.mk (RegisterRequest.Email req) password))
              (users w1)
            = if String.eqb (RegisterRequest.Password req) password
              then Some (newUser req (users w)) else None).
  { intros password. rewrite Hu1, find_past by apply Hmiss. cbn.
    unfold credentials_match. cbn. rewrite String.eqb_refl. cbn.
    destruct (String.eqb (RegisterRequest.Password req) password);
      reflexivity. }
  destruct (signSrc w (S (S (S (tick w1))))) as [token|] eqn:Htoken;
    [|elim (Hsign _ Htoken)].
  exists w1.
  destruct (login_run unit info'
              (LoginRequest.mk (RegisterRequest.Email req)
                 (RegisterRequest.Password req)) w1) as (w2 & E2 & _).
  { rewrite Hr. apply Hdraw. }
  unfold login_answer in E2.
  rewrite Hfind, String.eqb_refl, Hs, Htoken in E2. cbn in E2.
  exists w2, token, (Z.of_nat (List.length (users w)) + 1).
  split; [exact E1|]. split; [exact E2|]. split; [reflexivity|].
  intros password Hpw.
  destruct (login_run unit info'
              (LoginRequest.mk (RegisterRequest.Email req) password) w1)
    as (w3 & E3 & _).
  { rewrite Hr. apply Hdraw. }
  unfold login_answer in E3. rewrite Hfind in E3.
  destruct (String.eqb (RegisterRequest.Password req) password) eqn:He;
    [apply String.eqb_eq in He; congruence|].
  exists w3. exact E3.
Qed.

(** A new customer, in the quiet environment. *)
Lemma register_then_login_witness :
  exists w1 w2 token id,
    serve (R:=unit) CatalogFacts.curl
      (POST_auth_register
         (Some (RegisterRequest.mk "bob@example.com" "Bob" "s3cret"))) calm
    = (Next (mkResponse http.StatusCreated
               (JRegister id "bob@example.com" "Bob"
                  "User created successfully")), w1)
    /\ serve (R:=unit) CatalogFacts.curl
         (POST_auth_login
            (Some (LoginRequest.mk "bob@example.com" "s3cret"))) w1
       = (Next (mkResponse http.StatusOK
                  (JLogin token id "bob@example.com" "Bob")), w2).
Proof.
  destruct (register_then_login CatalogFacts.curl CatalogFacts.curl
              (RegisterRequest.mk "bob@example.com" "Bob" "s3cret") calm)
    as (w1 & w2 & token & id & E1 & E2 & _).
  - reflexivity.
  - intros t. reflexivity.
  - intros t. discriminate.
  - exists w1, w2, token, id. split; assumption.
Defined.

(** The identifiers of the table are the ranks 1, 2, ... of its users,
    and no two users share an email. *)
Definition numbered (us : list User.t) : Prop :=
  map User.ID us = map (fun i => Z.of_nat i + 1) (seq 0 (List.length us)).

Definition accounts_ok (us : list User.t) : Prop :=
  numbered us /\ NoDup (map User.Email us).

Lemma registered_In email us :
  registered email us = false -> ~ In email (map User.Email us).
Proof.
  unfold registered. intros Hfree Hin.
  apply in_map_iff in Hin. destruct Hin as (u & <- & Hu).
  assert (H : existsb (fun v => String.eqb (User.Email v) (User.Email u)) us
              = true).
  { apply existsb_exists. exists u. split; [exact Hu|].
    apply String.eqb_refl. }
  congruence.
Qed.

Lemma users_after_ok r us : accounts_ok us -> accounts_ok (users_after r us).
Proof.
  intros [Hn Hd].
  destruct r as [?|[req|]|?]; cbn; try (split; assumption).
  destruct (registered (RegisterRequest.Email req) us) eqn:Hfree;
    [split; assumption|].
  split.
  - unfold numbered in *. rewrite length_app. cbn.
    rewrite Nat.add_1_r, seq_S, !map_app, Hn. reflexivity.
  - rewrite map_app. cbn. apply NoDup_app; [exact Hd | | ].
    + constructor; [intros [] | constructor].
    + intros a Ha [<-|[]]. exact (registered_In _ _ Hfree Ha).
Qed.

Lemma users_after_grows r us :
  exists new, users_after r us = (us ++ new)%list /\ (List.length new <= 1)%nat.
Proof.
  destruct r as [?|[req|]|?]; cbn;
    try (exists []; rewrite app_nil_r; split; [reflexivity | cbn; lia]).
  destruct (registered _ us).
  - exists []. rewrite app_nil_r. split; [reflexivity | cbn; lia].
  - eexists [_]. split; [reflexivity | cbn; lia].
Qed.

(** X7. Every login, registration and get-user request is answered,
    and keeps the table well formed: identifiers stay the ranks
    1, 2, ... of the users and emails stay distinct.  A request never
    removes or changes a stored user; it appends at most one. *)
Theorem requests_keep_accounts_ok info r w :
  accounts_ok (users w) ->
  exists resp w' new,
    serve (R:=unit) info r w = (Next resp, w')
    /\ accounts_ok (users w')
    /\ users w' = (users w ++ new)%list
    /\ (List.length new <= 1)%nat.
Proof.
  intros Hok.
  destruct (serve_users unit info r w) as (resp & w' & E & Hu).
  destruct (users_after_grows r (users w)) as (new & Hnew & Hlen).
  exists resp, w', new. rewrite Hu.
  split; [exact E|]. split; [apply users_after_ok; exact Hok|].
  split; assumption.
Qed.

(** The table of the source is well formed. *)
Lemma initial_users_ok : accounts_ok initial_users.
Proof.
  split; [reflexivity|]. cbn.
  repeat constructor; cbn; intuition discriminate.
Qed.

Lemma requests_keep_accounts_ok_witness :
  exists resp w',
    serve (R:=unit) CatalogFacts.curl
      (POST_auth_register
         (Some (RegisterRequest.mk "bob@example.com" "Bob" "s3cret"))) calm
    = (Next resp, w')
    /\ accounts_ok (users w').
Proof.
  destruct (requests_keep_accounts_ok CatalogFacts.curl
              (POST_auth_register
                 (Some (RegisterRequest.mk "bob@example.com" "Bob" "s3cret")))
              calm initial_users_ok)
    as (resp & w' & new & E & Hok & _).
  exists resp, w'. split; assumption.
Defined.

(** A user without its password. *)
Definition public (u : User.t) : User.t := with_Password "" u.

(** Two requests that differ at most in the password they carry, to
    tables that differ at most in the passwords they store; for a login,
    the same users match. *)
Definition same_but_passwords (r r' : Route) (us us' : list User.t) : Prop :=
  map public us' = map public us
  /\ match r, r' with
     | POST_auth_login (Some q), POST_auth_login (Some q') =>
         LoginRequest.Email q' = LoginRequest.Email q
         /\ map (credentials_match q') us' = map (credentials_match q) us
     | POST_auth_login None, POST_auth_login None => True
     | POST_auth_register (Some q), POST_auth_register (Some q') =>
         RegisterRequest.Email q' = RegisterRequest.Email q
         /\ RegisterRequest.Name q' = RegisterRequest.Name q
     | POST_auth_register None, POST_auth_register None => True
     | GET_users_id id, GET_users_id id' => id' = id
     | _, _ => False
     end.

Lemma find_from_public (f : User.t -> bool) :
  (forall u u', public u' = public u -> f u' = f u) ->
  forall us us' i,
    map public us' = map public us ->
    match find_from f i us, find_from f i us' with
    | Some (j, u), Some (j', u') => public u' = public u
    | None, None => True
    | _, _ => False
    end.
Proof.
  intros Hf. induction us as [|u rest IH]; intros [|u' rest'] i; cbn;
    try discriminate; [trivial|].
  intros [= Hid Hemail Hname Hrest].
  assert (Hp : public u' = public u).
  { destruct u, u'; cbn in *; unfold public, with_Password; cbn; congruence. }
  rewrite (Hf _ _ Hp). destruct (f u); [exact Hp | apply IH; exact Hrest].
Qed.

Lemma find_matching (f f' : User.t -> bool) : forall us us',
  map public us' = map public us ->
  map f' us' = map f us ->
  match find f us, find f' us' with
  | Some u, Some u' => public u' = public u
  | None, None => True
  | _, _ => False
  end.
Proof.
  induction us as [|u rest IH]; intros [|u' rest']; cbn;
    try discriminate; [trivial|].
  intros [= Hid Hemail Hname Hrest] [= Hf Hfrest].
  rewrite Hf. destruct (f u).
  - destruct u, u'; cbn in *; unfold public, with_Password; cbn; congruence.
  - apply IH; assumption.
Qed.

Lemma public_fields u u' :
  public u' = public u ->
  User.ID u' = User.ID u /\ User.Email u' = User.Email u
  /\ User.Name u' = User.Name u.
Proof. destruct u, u'; cbn. intros [= -> -> ->]. auto. Qed.

Lemma map_public_length us us' :
  map public us' = map public us -> List.length us' = List.length us.
Proof.
  intros H. rewrite <- (length_map public us'), H. apply length_map.
Qed.

(** X8. Passwords are not observable.  Two requests that differ at most
    in the password they carry, served from tables that differ at most
    in the passwords they store, are answered alike and leave the same
    log lines and spans, as long as a login matches the same users in
    both; the tables after them still differ at most in passwords. *)
Theorem passwords_stay_private info r r' us' w :
  same_but_passwords r r' (users w) us' ->
  exists resp w1 w1',
    serve (R:=unit) info r w = (Next resp, w1)
    /\ serve (R:=unit) info r' (set_users us' w) = (Next resp, w1')
    /\ events w1' = events w1
    /\ map public (users w1') = map public (users w1).
Proof.
  intros [Hpub Hreq].
  destruct r as [[q|]|[q|]|id], r' as [[q'|]|[q'|]|id']; cbn in Hreq;
    try contradiction.
  - (* login *)
    destruct Hreq as [Hemail Hmatch].
    pose proof (find_matching _ _ _ _ Hpub Hmatch) as Hfind.
    unfold serve, loggingMiddleware, handler, loginHandler, SignedString.
    go_run. rewrite Hemail.
    destruct (randSrc w (S (tick w)) mod 100 <? 15); cbn;
      [do 3 eexists; repeat split; exact Hpub|].
    destruct (find (credentials_match q) (users w)) as [u|],
      (find (credentials_match q') us') as [u'|]; try contradiction; cbn;
      [|do 3 eexists; repeat split; exact Hpub].
    destruct (public_fields _ _ Hfind) as (-> & -> & ->).
    destruct (signSrc w (S (S (S (tick w))))); cbn;
      do 3 eexists; repeat split; exact Hpub.
  - unfold serve, loggingMiddleware, handler, loginHandler.
    go_run. do 3 eexists; repeat split; exact Hpub.
  - (* register *)
    destruct Hreq as [Hemail Hname].
    assert (Htest : forall u u', public u' = public u ->
              String.eqb (User.Email u') (RegisterRequest.Email q)
              = String.eqb (User.Email u) (RegisterRequest.Email q)).
    { intros u u' H. destruct (public_fields _ _ H) as (_ & -> & _).
      reflexivity. }
    pose proof (find_from_public _ Htest _ _ 0%nat Hpub) as Hfind.
    unfold serve, loggingMiddleware, handler, registerHandler, for_range.
    go_run. rewrite Hemail, Hname.
    rewrite !(for_range_search
               (fun u => String.eqb (User.Email u) (RegisterRequest.Email q)));
      try (intros i x w0 Hx; rewrite Hx; cbn; first [reflexivity | congruence]).
    destruct (find_from _ 0%nat (users w)) as [[j u]|] eqn:Hj,
      (find_from _ 0%nat us') as [[j' u']|] eqn:Hj'; try contradiction; cbn.
    + destruct (find_from_nth _ _ _ _ _ Hj) as (k & _ & _ & Hu).
      destruct (find_from_nth _ _ _ _ _ Hj') as (k' & _ & _ & Hu').
      rewrite Hu, Hu'. cbn.
      do 3 eexists; repeat split; exact Hpub.
    + rewrite (map_public_length _ _ Hpub).
      do 3 eexists. split; [reflexivity|]. split; [reflexivity|].
      split; [reflexivity|]. cbn. rewrite !map_app, Hpub. reflexivity.
  - unfold serve, loggingMiddleware, handler, registerHandler.
    go_run. do 3 eexists; repeat split; exact Hpub.
  - (* a user by identifier *)
    subst id'.
    unfold serve, loggingMiddleware, handler, getUserHandler, for_range.
    go_run.
    destruct (strconv.Atoi id) as [uid|]; cbn;
      [|do 3 eexists; repeat split; exact Hpub].
    assert (Htest : forall u u', public u' = public u ->
              (User.ID u' =? uid) = (User.ID u =? uid)).
    { intros u u' H. destruct (public_fields _ _ H) as (-> & _).
      reflexivity. }
    pose proof (find_from_public _ Htest _ _ 0%nat Hpub) as Hfind.
    rewrite !(for_range_search (fun u => User.ID u =? uid));
      try (intros i x w0 Hx; rewrite Hx; cbn; first [reflexivity | congruence]).
    destruct (find_from _ 0%nat (users w)) as [[j u]|] eqn:Hj,
      (find_from _ 0%nat us') as [[j' u']|] eqn:Hj'; try contradiction; cbn.
    + destruct (find_from_nth _ _ _ _ _ Hj) as (k & _ & _ & Hu).
      destruct (find_from_nth _ _ _ _ _ Hj') as (k' & _ & _ & Hu').
      rewrite Hu, Hu'. cbn. fold (public u). fold (public u').
      rewrite Hfind. do 3 eexists; repeat split; exact Hpub.
    + do 3 eexists; repeat split; exact Hpub.
Qed.

(** A login of the first user of the source, and the same login when
    that user has another password and gives it. *)
Lemma passwords_stay_private_witness :
  exists resp w1 w1',
    serve (R:=unit) CatalogFacts.curl
      (POST_auth_login
         (Some (LoginRequest.mk "john@example.com" "password123"))) calm
    = (Next resp, w1)
    /\ serve (R:=unit) CatalogFacts.curl
         (POST_auth_login
            (Some (LoginRequest.mk "john@example.com" "hunter2")))
         (set_users
            (User.mk 1 "john@example.com" "John Doe" "hunter2"
             :: tl initial_users) calm)
       = (Next resp, w1')
    /\ events w1' = events w1.
Proof.
  destruct (passwords_stay_private CatalogFacts.curl
              (POST_auth_login
                 (Some (LoginRequest.mk "john@example.com" "password123")))
              (POST_auth_login
                 (Some (LoginRequest.mk "john@example.com" "hunter2")))
              (User.mk 1 "john@example.com" "John Doe" "hunter2"
               :: tl initial_users) calm)
    as (resp & w1 & w1' & E & E' & Hev & _).
  - split; [reflexivity|]. split; reflexivity.
  - exists resp, w1, w1'. repeat split; assumption.
Defined.

End AccountFacts.

(* ================================================================== *)
(** ** traffic-generator: what the order workflow sends *)

Module WorkloadFacts.
Import TrafficGenerator.

(** The requests [makeRequest] sent, newest first. *)
Fixpoint requests (evs : list Event) : list (string * URL) :=
  match evs with
  | [] => []
  | HTTPDo method url :: rest => (method, url) :: requests rest
  | _ :: rest => requests rest
  end.

(** The names of the spans started, newest first. *)
Fixpoint span_names (evs : list Event) : list string :=
  match evs with
  | [] => []
  | SpanStart _ _ name :: rest => name :: span_names rest
  | _ :: rest => span_names rest
  end.

(** The items of an order are drawn without a trace in the events. *)
Lemma random_items_run (R : Type) n : forall w,
  exists items w',
    random_items (R:=R) n w = (Next items, w')
    /\ events w' = events w /\ nextID w' = nextID w
    /\ peerSrc w' = peerSrc w /\ randSrc w' = randSrc w
    /\ tick w' = (tick w + 2 * n)%nat.
Proof.
  induction n as [|n IH]; intros w; cbn [random_items].
  - do 2 eexists. split; [reflexivity|]. repeat split. lia.
  - go_run.
    match goal with
    | |- context [random_items n ?w0] =>
        destruct (IH w0) as (items & w' & E & He & Hn & Hp & Hr & Ht);
        rewrite E
    end.
    cbn in *. do 2 eexists. split; [reflexivity|].
    repeat split; try assumption. lia.
Qed.

#[local] Arguments random_items : simpl never.

(** What a run of [createOrder] gives. *)
Lemma createOrder_run ctx userID w :
  exists w' new,
    createOrder ctx userID w = (Return 0, w')
    /\ events w' = (new ++ events w)%list
    /\ requests new = [("POST", mkURL order_service ["orders"])]
    /\ span_names new = ["HTTP POST"; "create_order"].
Proof.
  unfold createOrder, makeRequest. go_run.
  match goal with
  | |- context [random_items ?n ?w0] =>
      destruct (random_items_run Z n w0) as (items & w1 & E & He & _);
      rewrite E
  end.
  cbn in He |- *.
  destruct (peerSrc w1 (tick w1)) as [code|]; cbn.
  - destruct (code =? http.StatusCreated); cbn;
      (do 2 eexists; split; [reflexivity|]; cbn; rewrite He;
       split; [solve_new | split; reflexivity]).
  - do 2 eexists; split; [reflexivity|]; cbn; rewrite He.
    split; [solve_new | split; reflexivity].
Qed.

(** X9. [createOrder] never reports an order.  Whatever the order
    service answers, also 201, the function returns 0: the body of the
    response was read to its end and closed by [makeRequest], so no
    [id] is found in it.  It sends its one request, [POST /orders], and
    starts two spans: its own, [create_order], and then the client span
    of the transport, [HTTP POST]. *)
Theorem createOrder_reports_no_order ctx userID w :
  exists w' new,
    createOrder ctx userID w = (Return 0, w')
    /\ events w' = (new ++ events w)%list
    /\ requests new = [("POST", mkURL order_service ["orders"])]
    /\ span_names new = ["HTTP POST"; "create_order"].
Proof. exact (createOrder_run ctx userID w). Qed.

Lemma requests_app a b : requests (a ++ b) = (requests a ++ requests b)%list.
Proof.
  induction a as [|e a IH]; [reflexivity|].
  destruct e; cbn; rewrite ?IH; reflexivity.
Qed.

Lemma span_names_app a b :
  span_names (a ++ b) = (span_names a ++ span_names b)%list.
Proof.
  induction a as [|e a IH]; [reflexivity|].
  destruct e; cbn; rewrite ?IH; reflexivity.
Qed.

#[local] Arguments createOrder : simpl never.

(** A name is none of the names listed. *)
Ltac not_among :=
  let H := fresh in
  intros H; cbn in H;
  repeat (destruct H as [H|H]; [discriminate H|]);
  contradiction.

(** The three requests an iteration of the order workflow may send. *)
Definition order_workflow_request (r : string * URL) : Prop :=
  r = ("POST", mkURL order_service ["orders"])
  \/ r = ("GET", mkURL order_service ["orders"])
  \/ exists userID,
       1 <= userID <= 5
       /\ r = ("GET",
               mkURL order_service ["orders"; "user"; strconv.Itoa userID]).

(** X10. An iteration of [generateOrderTraffic] sends exactly one
    request: [POST /orders], [GET /orders] or [GET /orders/user/N] with
    N from 1 to 5.  The payment, the order lookup and the status update
    that follow a created order in the source are never reached, as
    [createOrder] returns 0: no span of theirs is started. *)
Theorem order_workflow_sends_one_request w :
  exists w' new r,
    generateOrderTraffic w = (Next tt, w')
    /\ events w' = (new ++ events w)%list
    /\ requests new = [r]
    /\ order_workflow_request r
    /\ ~ In "process_payment" (span_names new)
    /\ ~ In "get_order" (span_names new)
    /\ ~ In "update_order_status" (span_names new).
Proof.
  unfold generateOrderTraffic, getUserOrders, getAllOrders, makeRequest.
  go_run.
  destruct (randSrc w (tick w) mod 100 <? 40) eqn:H40; cbn.
  - match goal with
    | |- context [createOrder ?c ?u ?w0] =>
        destruct (createOrder_run c u w0) as (w1 & new & E & He & Hr & Hs);
        rewrite E
    end.
    cbn in He |- *.
    eexists. eexists (_ :: new ++ [_; _])%list. eexists.
    split; [reflexivity|]. cbn.
    split; [rewrite He, <- app_assoc; reflexivity|].
    rewrite requests_app, span_names_app, Hr, Hs. cbn.
    split; [reflexivity|]. split; [left; reflexivity|].
    repeat split; not_among.
  - destruct (randSrc w (tick w) mod 100 <? 70) eqn:H70; cbn.
    + pose proof (Z.mod_pos_bound (randSrc w (S (tick w))) 5 ltac:(lia)).
      destruct (peerSrc w (S (S (tick w)))); cbn;
        (do 3 eexists; split; [reflexivity|]; cbn;
         split; [solve_new|]; cbn; split; [reflexivity|];
         split; [right; right; eexists; split; [|reflexivity]; lia|];
         repeat split; not_among).
    + destruct (peerSrc w (S (tick w))); cbn;
        (do 3 eexists; split; [reflexivity|]; cbn;
         split; [solve_new|]; cbn; split; [reflexivity|];
         split; [right; left; reflexivity|];
         repeat split; not_among).
Qed.

(* ------------------------------------------------------------------ *)
(** *** Start-up and the loops *)

(** While it is observed, [select {}] neither returns nor panics: every
    iteration of a loop runs to its end. *)
Lemma select_forever_runs ticks : forall w,
  fst (select_forever ticks w) = Running.
Proof.
  induction ticks as [|ticks IH]; intros w; [reflexivity|].
  cbn [select_forever]. unfold next_tick, gets, bind.
  cbn -[nth_error loops Nat.modulo].
  destruct (nth_error loops (schedSrc w (tick w) mod 7)) as [[name it]|]
    eqn:Hnth.
  - apply nth_error_In in Hnth.
    pose proof (keeps_call spans (P:=False) (Rt:=False) (R':=unit) it
                  (keeps_weaken spans False False False True it
                     (fun H => H) (fun _ => I)
                     (SpanFacts.loops_spans name it Hnth))) as Hk.
    match goal with
    | |- context [call it ?w1] =>
        destruct (Hk w1) as (_ & Ho);
        destruct (call it w1) as [res w2]
    end.
    cbn in Ho. destruct res as [[]| | |]; try contradiction.
    apply IH.
  - cbn. apply IH.
Qed.

(** X11. However long [main] is observed, it has neither returned nor
    panicked: it is polling a service or serving the ticks of its
    loops.  No iteration of the seven loops indexes a list out of range
    or reads a response that is nil, whatever the services answer. *)
Theorem main_never_leaves polls ticks w :
  fst (main polls ticks w) = Running.
Proof.
  unfold main, bind, call, logrus_Info, logrus_log, go_, emit, modify.
  cbn -[waitForServices select_forever].
  match goal with
  | |- context [waitForServices polls ?w1] =>
      destruct (GeneratorFacts.waitForServices_spec polls w1)
        as (new & _ & _ & R);
      destruct (waitForServices polls w1) as [res w2]
  end.
  cbn in R. destruct res as [[]|[]| |]; try contradiction; cbn.
  - match goal with
    | |- context [select_forever ticks ?w3] =>
        pose proof (select_forever_runs ticks w3) as Hs;
        destruct (select_forever ticks w3) as [res w4]
    end.
    cbn in Hs. subst res. reflexivity.
  - reflexivity.
Qed.

(** The polls of start-up, newest first. *)
Fixpoint polls_of (evs : list Event) : list URL :=
  match evs with
  | [] => []
  | HTTPGet url :: rest => url :: polls_of rest
  | _ :: rest => polls_of rest
  end.

(** The pauses, in milliseconds, newest first. *)
Fixpoint sleeps (evs : list Event) : list Z :=
  match evs with
  | [] => []
  | Sleep ms :: rest => ms :: sleeps rest
  | _ :: rest => sleeps rest
  end.

Lemma polls_of_app a b : polls_of (a ++ b) = (polls_of a ++ polls_of b)%list.
Proof.
  induction a as [|e a IH]; [reflexivity|].
  destruct e; cbn; rewrite ?IH; reflexivity.
Qed.

Lemma sleeps_app a b : sleeps (a ++ b) = (sleeps a ++ sleeps b)%list.
Proof.
  induction a as [|e a IH]; [reflexivity|].
  destruct e; cbn; rewrite ?IH; reflexivity.
Qed.

(** A service that never answers 200 is polled for ever. *)
Lemma poll_waits service rounds : forall w,
  (forall t, peerSrc w t <> Some http.StatusOK) ->
  exists w' new,
    poll rounds service w = (Running, w')
    /\ events w' = (new ++ events w)%list
    /\ polls_of new = repeat service rounds
    /\ sleeps new = repeat 5000 rounds
    /\ GeneratorFacts.no_traffic new = true.
Proof.
  induction rounds as [|rounds IH]; intros w Hdown; cbn [poll].
  - exists w, []. repeat split.
  - unfold http_Get, logrus_Info, logrus_log, time_Sleep, next_tick, gets,
      emit, modify, ret, bind.
    cbn -[poll Z.eqb].
    destruct (match peerSrc w (tick w) with
              | Some code => code =? http.StatusOK
              | None => false
              end) eqn:Hnow.
    + exfalso. apply (Hdown (tick w)).
      destruct (peerSrc w (tick w)) as [code|]; [|discriminate].
      apply Z.eqb_eq in Hnow. congruence.
    + match goal with
      | |- context [poll rounds service ?w1] =>
          destruct (IH w1) as (w' & new & E & He & Hp & Hs & Hn);
          [exact Hdown|]; rewrite E
      end.
      cbn in He.
      exists w'. eexists (new ++ [_; _; _; _])%list.
      split; [reflexivity|].
      split; [rewrite He, <- app_assoc; reflexivity|].
      rewrite polls_of_app, sleeps_app, Hp, Hs.
      unfold GeneratorFacts.no_traffic in *. rewrite forallb_app, Hn. cbn.
      rewrite <- !repeat_cons. repeat split.
Qed.

(** X12. Start-up has no timeout.  When no request is ever answered
    200, [main] stays in [waitForServices], at the first service:
    observed for [polls] polls, it has sent [polls] requests, all to
    the health endpoint of the user service, has slept five seconds
    after each, and has started no loop, no span and no traffic. *)
Theorem startup_waits_for_ever polls ticks w :
  (forall t, peerSrc w t <> Some http.StatusOK) ->
  exists new,
    events (snd (main polls ticks w)) = (new ++ events w)%list
    /\ polls_of new = repeat (mkURL user_service ["health"]) polls
    /\ sleeps new = repeat 5000 polls
    /\ GeneratorFacts.no_traffic new = true.
Proof.
  intros Hdown.
  unfold main, bind, call, logrus_Info, logrus_log, go_, emit, modify.
  cbn -[waitForServices select_forever].
  unfold waitForServices, for_range, services. cbn [for_range_from].
  unfold bind.
  match goal with
  | |- context [poll polls ?s ?w1] =>
      destruct (poll_waits s polls w1) as (w' & new & E & He & Hp & Hs & Hn);
      [exact Hdown|]; rewrite E
  end.
  cbn in He |- *.
  eexists (new ++ [_])%list.
  split; [rewrite He, <- app_assoc; reflexivity|].
  rewrite polls_of_app, sleeps_app, Hp, Hs.
  unfold GeneratorFacts.no_traffic in *. rewrite forallb_app, Hn. cbn.
  rewrite !app_nil_r. repeat split.
Qed.

(** Every service is down. *)
Lemma startup_waits_for_ever_witness :
  exists new,
    events (snd (main 3 5 (boot (fun _ => 50) (fun _ => true)
                             (fun _ => None) (fun _ => 0)
                             (fun _ => Some "token") (fun _ => 0%nat))))
    = (new ++ [])%list
    /\ polls_of new = repeat (mkURL user_service ["health"]) 3.
Proof.
  destruct (startup_waits_for_ever 3 5
              (boot (fun _ => 50) (fun _ => true) (fun _ => None)
                 (fun _ => 0) (fun _ => Some "token") (fun _ => 0%nat)))
    as (new & E & Hp & _).
  - intros t. discriminate.
  - exists new. split; assumption.
Defined.

(** X13. Start-up comes to an end.  When every [polls] requests in a
    row have one that is answered 200, [main] leaves
    [waitForServices] and starts its seven loops, in the order of the
    source, having sent no traffic before. *)
Theorem startup_starts_the_loops polls ticks w :
  GeneratorFacts.answers_within polls w ->
  exists later startup,
    events (snd (main polls ticks w))
    = (later ++ map Spawn (rev (map fst loops)) ++ startup ++ events w)%list
    /\ GeneratorFacts.no_traffic startup = true
    /\ forall service,
         In service services -> GeneratorFacts.answered_ready service startup.
Proof.
  intros Hlive.
  unfold main, bind, call, logrus_Info, logrus_log, go_, emit, modify.
  cbn -[waitForServices select_forever].
  match goal with
  | |- context [waitForServices polls ?w1] =>
      destruct (GeneratorFacts.waitForServices_spec polls w1)
        as (new & E & N & R);
      pose proof (GeneratorFacts.waitForServices_returns polls w1 Hlive)
        as Hret;
      destruct (waitForServices polls w1) as [res w2]
  end.
  cbn in E, N, R, Hret. subst res. cbn -[select_forever].
  match goal with
  | |- context [select_forever ticks ?w3] =>
      destruct (GeneratorFacts.select_forever_extends ticks w3)
        as (later & E')
  end.
  cbn in E'.
  exists later. eexists (new ++ [_])%list.
  split; [rewrite E', E; cbn; rewrite <- !app_assoc; reflexivity|].
  split; [unfold GeneratorFacts.no_traffic in *;
          rewrite forallb_app, N; reflexivity|].
  intros s Hs.
  apply (GeneratorFacts.answered_ready_app s [] new _ (R s Hs)).
Qed.

Lemma startup_starts_the_loops_witness :
  exists later startup,
    events (snd (main 1 2 calm))
    = (later ++ map Spawn (rev (map fst loops)) ++ startup ++ [])%list.
Proof.
  destruct (startup_starts_the_loops 1 2 calm) as (later & startup & E & _).
  - intros t. exists t. split; [lia | reflexivity].
  - exists later, startup. exact E.
Defined.

End WorkloadFacts.

(* ================================================================== *)
(** ** order-service: orders after they are created *)

Module QueryFacts.
Import OrderService.
Import OrderQueries.

(** The first order with an identifier, and its index. *)
Definition locate (oid : Z) (os : list Order.t) : option (nat * Order.t) :=
  find_from (fun o => Order.ID o =? oid) 0%nat os.

Definition lookup (oid : Z) (os : list Order.t) : option Order.t :=
  option_map snd (locate oid os).

(** The table after a request; [now] is the clock read by an update. *)
Definition orders_after (r : Route) (now : Z) (os : list Order.t)
    : list Order.t :=
  match r with
  | PUT_orders_id_status id (Some status) =>
      match strconv.Atoi id with
      | Some oid =>
          match locate oid os with
          | Some (j, o) =>
              ProductService.replace_nth j
                (with_UpdatedAt now (with_Status status o)) os
          | None => os
          end
      | None => os
      end
  | _ => os
  end.

(** The answer to a request. *)
Definition answer (r : Route) (now : Z) (os : list Order.t) : Response :=
  match r with
  | GET_orders_id id =>
      match strconv.Atoi id with
      | None => mkResponse http.StatusBadRequest (JError "Invalid order ID")
      | Some oid =>
          match lookup oid os with
          | Some o => mkResponse http.StatusOK (JOrder o)
          | None => mkResponse http.StatusNotFound (JError "Order not found")
          end
      end
  | PUT_orders_id_status id body =>
      match strconv.Atoi id, body with
      | None, _ => mkResponse http.StatusBadRequest (JError "Invalid order ID")
      | Some _, None =>
          mkResponse http.StatusBadRequest (JError "Invalid request")
      | Some oid, Some status =>
          match lookup oid os with
          | Some o =>
              mkResponse http.StatusOK
                (JOrder (with_UpdatedAt now (with_Status status o)))
          | None => mkResponse http.StatusNotFound (JError "Order not found")
          end
      end
  end.

Ltac search_loop oid :=
  rewrite (for_range_search (fun x => Order.ID x =? oid));
  [ | intros i x w0 Hx; rewrite Hx; reflexivity
    | intros i x w0 Hx; rewrite Hx; repeat (go_case; cbn in * ); congruence ].

(** What a request does; the access log reads the clock once before
    the handler runs. *)
Lemma serve_query_answer (R : Type) info r w :
  let now := clockSrc w (S (tick w)) in
  exists w',
    serve (R:=R) info r w = (Next (answer r now (orders w)), w')
    /\ orders w' = orders_after r now (orders w)
    /\ orderCounter w' = orderCounter w
    /\ users w' = users w
    /\ products w' = products w.
Proof.
  intros now. subst now.
  destruct r as [id|id body].
  - unfold serve, loggingMiddleware, handler, getOrderHandler, for_range,
      answer, orders_after, lookup, locate.
    destruct (strconv.Atoi id) as [oid|]; go_run.
    + search_loop oid.
      destruct (find_from _ 0%nat (orders w)) as [[j o]|] eqn:Hj; cbn.
      * destruct (find_from_nth _ _ _ _ _ Hj) as (k & _ & _ & Ho).
        rewrite Ho. cbn. eexists. split; [reflexivity|]. cbn. auto.
      * eexists. split; [reflexivity|]. cbn. auto.
    + eexists. split; [reflexivity|]. cbn. auto.
  - unfold serve, loggingMiddleware, handler, updateOrderStatusHandler,
      for_range, orders_set, orders_at, answer, orders_after, lookup, locate.
    destruct (strconv.Atoi id) as [oid|]; [destruct body as [status|]|];
      go_run.
    + search_loop oid.
      destruct (find_from _ 0%nat (orders w)) as [[j o]|] eqn:Hj; cbn.
      * destruct (find_from_nth _ _ _ _ _ Hj) as (k & -> & Hnth & Ho).
        rewrite Ho. cbn in Hnth |- *. rewrite Hnth. cbn.
        rewrite (ProductFacts.nth_replace_nth _ _ _ _ Hnth). cbn.
        rewrite (ProductFacts.nth_replace_nth _ _ _ _
                   (ProductFacts.nth_replace_nth _ _ _ _ Hnth)). cbn.
        eexists. split; [reflexivity|]. cbn.
        rewrite CatalogFacts.replace_nth_twice. auto.
      * eexists. split; [reflexivity|]. cbn. auto.
    + eexists. split; [reflexivity|]. cbn. auto.
    + destruct body; eexists; (split; [reflexivity|]); cbn; auto.
Qed.

(* ------------------------------------------------------------------ *)
(** *** Identifiers *)

(** Every stored order has an identifier below the counter. *)
Definition numbered (c : Z) (os : list Order.t) : Prop :=
  Forall (fun o => Order.ID o < c) os.

Lemma numbered_unique c os o :
  numbered c os -> NoDup (map Order.ID os) -> Order.ID o = c ->
  NoDup (map Order.ID (os ++ [o])).
Proof.
  intros Hn Hd Ho. rewrite map_app. cbn.
  apply NoDup_app; [exact Hd | repeat constructor; intros [] |].
  intros a Ha [<-|[]].
  apply in_map_iff in Ha. destruct Ha as (x & Hx & Hin).
  unfold numbered in Hn. rewrite Forall_forall in Hn.
  specialize (Hn x Hin). lia.
Qed.

Lemma map_ID_replace_nth (os : list Order.t) : forall j o v,
  nth_error os j = Some o -> Order.ID v = Order.ID o ->
  map Order.ID (ProductService.replace_nth j v os) = map Order.ID os.
Proof.
  induction os as [|x rest IH]; intros [|j] o v H Hv; cbn in *;
    try discriminate.
  - injection H as ->. rewrite Hv. reflexivity.
  - f_equal. eapply IH; eassumption.
Qed.

Lemma orders_after_ids r now os :
  map Order.ID (orders_after r now os) = map Order.ID os.
Proof.
  destruct r as [id|id [status|]]; cbn; try reflexivity.
  destruct (strconv.Atoi id) as [oid|]; [|reflexivity].
  destruct (locate oid os) as [[j o]|] eqn:Hj; [|reflexivity].
  destruct (find_from_nth _ _ _ _ _ Hj) as (k & -> & Hnth & _).
  apply (map_ID_replace_nth _ _ o); [exact Hnth | reflexivity].
Qed.

(** The requests of the order service that are modelled. *)
Inductive Request : Type :=
| Create (body : option CreateOrderRequest.t)
| Query (r : Route).

Definition serve_request (info : RequestInfo) (q : Request)
    : Go unit Response :=
  match q with
  | Create body => serve_createOrder info body
  | Query r => serve info r
  end.

Definition well_formed_request (q : Request) : Prop :=
  match q with
  | Create (Some req) =>
      OrderFacts.well_formed (CreateOrderRequest.Items req)
  | _ => True
  end.

Lemma serve_createOrder_unbound info w :
  exists w',
    serve_createOrder (R:=unit) info None w
    = (Next (mkResponse http.StatusBadRequest (JError "Invalid request")), w')
    /\ orders w' = orders w /\ orderCounter w' = orderCounter w
    /\ products w' = products w.
Proof.
  unfold serve_createOrder, loggingMiddleware, createOrderHandler.
  go_run. eexists. split; [reflexivity|]. cbn. auto.
Qed.

(** X14. Identifiers of orders are never reused.  As long as the
    counter has not reached the largest [int], every create-order,
    get-order and update-status request leaves the stored orders with
    distinct identifiers, all below the counter; the counter never
    decreases, and a request that is not answered 201 leaves the
    identifiers and the counter as they were. *)
Theorem order_ids_stay_distinct info q w :
  well_formed_request q ->
  GoInt.min_int <= orderCounter w < GoInt.max_int ->
  numbered (orderCounter w) (orders w) ->
  NoDup (map Order.ID (orders w)) ->
  exists resp w',
    serve_request info q w = (Next resp, w')
    /\ numbered (orderCounter w') (orders w')
    /\ NoDup (map Order.ID (orders w'))
    /\ orderCounter w <= orderCounter w'
    /\ (StatusCode resp <> http.StatusCreated ->
        map Order.ID (orders w') = map Order.ID (orders w)
        /\ orderCounter w' = orderCounter w).
Proof.
  intros Hwf Hmax Hn Hd.
  assert (Hsame : forall resp w',
            orders w' = orders w -> orderCounter w' = orderCounter w ->
            numbered (orderCounter w') (orders w')
            /\ NoDup (map Order.ID (orders w'))
            /\ orderCounter w <= orderCounter w'
            /\ (StatusCode resp <> http.StatusCreated ->
                map Order.ID (orders w') = map Order.ID (orders w)
                /\ orderCounter w' = orderCounter w)).
  { intros resp w' -> ->. repeat split; auto; lia. }
  destruct q as [[req|]|r]; cbn [serve_request].
  - cbn in Hwf.
    destruct (OrderFacts.serve_createOrder_spec info req w Hwf)
      as (resp & w' & k & outcome & E & _ & _ & _ & _ & _ & _ & Hout & _).
    exists resp, w'. split; [exact E|].
    destruct outcome as [order| | |].
    + destruct Hout as (-> & _ & _ & _ & Hid & _ & _ & _ & Ho & Hc).
      assert (Hc' : orderCounter w' = orderCounter w + 1).
      { rewrite Hc. unfold GoInt.add. apply GoIntFacts.wrap_small.
        unfold GoInt.in_range, GoInt.max_int, GoInt.min_int in *. lia. }
      rewrite Ho, Hc'. split; [|split; [|split]].
      * apply Forall_app. split.
        -- eapply Forall_impl; [|exact Hn]. cbn. intros; lia.
        -- repeat constructor. lia.
      * apply (numbered_unique (orderCounter w)); assumption.
      * lia.
      * cbn. intros H. exfalso. apply H. reflexivity.
    + destruct Hout as (_ & _ & _ & _ & Ho & Hc). apply Hsame; assumption.
    + destruct Hout as (_ & _ & _ & _ & Ho & Hc). apply Hsame; assumption.
    + destruct Hout as (_ & _ & _ & _ & Ho & Hc). apply Hsame; assumption.
  - destruct (serve_createOrder_unbound info w) as (w' & E & Ho & Hc & _).
    do 2 eexists. split; [exact E|]. apply Hsame; assumption.
  - destruct (serve_query_answer unit info r w) as (w' & E & Ho & Hc & _).
    do 2 eexists. split; [exact E|].
    pose proof (orders_after_ids r (clockSrc w (S (tick w))) (orders w))
      as Hids.
    rewrite <- Ho in Hids.
    assert (Hn' : numbered (orderCounter w') (orders w')).
    { unfold numbered in *. rewrite Hc.
      rewrite Forall_forall in *. intros o Hin.
      assert (In (Order.ID o) (map Order.ID (orders w')))
        by (apply in_map; exact Hin).
      rewrite Hids in H. apply in_map_iff in H.
      destruct H as (o' & <- & Hin'). apply Hn, Hin'. }
    split; [exact Hn'|]. rewrite Hids, Hc.
    repeat split; auto; lia.
Qed.

(** The table at start-up; an order for two laptops and a yoga mat. *)
Lemma order_ids_stay_distinct_witness :
  exists resp w',
    serve_request OrderFacts.from_curl
      (Create (Some (CreateOrderRequest.mk 1
                       [RequestItem.mk 1 2; RequestItem.mk 6 1]))) calm
    = (Next resp, w')
    /\ NoDup (map Order.ID (orders w')).
Proof.
  destruct (order_ids_stay_distinct OrderFacts.from_curl
              (Create (Some (CreateOrderRequest.mk 1
                               [RequestItem.mk 1 2; RequestItem.mk 6 1])))
              calm)
    as (resp & w' & E & _ & Hd & _).
  - repeat constructor; vm_compute; discriminate.
  - vm_compute. split; [discriminate | reflexivity].
  - constructor.
  - constructor.
  - exists resp, w'. split; assumption.
Defined.

(* ------------------------------------------------------------------ *)
(** *** Reading back *)








End QueryFacts.

(* ================================================================== *)
(** ** order-service: what a create-order request leaves behind *)

Module CheckoutFacts.
Import OrderService.
Import OrderFacts.

(** The identity service's answer for a user that is not in the
    table. *)
Lemma serve_get_unknown_user (R : Type) info uid w :
  GoInt.in_range uid ->
  user_known uid (users w) = false ->
  exists resp w',
    UserService.serve (R:=R) info
      (UserService.GET_users_id (strconv.Itoa uid)) w
    = (Next resp, w')
    /\ StatusCode resp = http.StatusNotFound
    /\ frame w w' /\ sends_nothing w w' /\ grants_nothing w w'.
Proof.
  intros Hrange Hunknown.
  unfold UserService.serve, UserService.loggingMiddleware,
    UserService.handler, UserService.getUserHandler, for_range.
  rewrite (strconvFacts.Atoi_Itoa _ Hrange).
  go_run.
  rewrite (for_range_search (fun u => User.ID u =? uid));
    try (intros i x w0 Hx; rewrite Hx; cbn; first [reflexivity | congruence]).
  assert (Hnone : find_from (fun u => User.ID u =? uid) 0%nat (users w)
                  = None).
  { revert Hunknown. unfold user_known. generalize 0%nat.
    induction (users w) as [|u rest IH]; intros i; cbn; [reflexivity|].
    destruct (User.ID u =? uid); cbn; [discriminate | apply IH]. }
  rewrite Hnone. cbn.
  do 2 eexists. split; [reflexivity|]. cbn. repeat split.
Qed.

#[local] Arguments UserService.serve : simpl never.

(** [validateUser] for a user that is not in the table, or when the
    request does not arrive. *)
Lemma validateUser_invalid ctx userID w :
  GoInt.in_range userID ->
  user_known userID (users w) = false \/ netSrc w (tick w) = false ->
  exists err w',
    validateUser ctx userID w = (Return (false, err), w')
    /\ frame w w' /\ grants_nothing w w'
    /\ count is_price_lookup (events w') = count is_price_lookup (events w)
    /\ count is_reservation (events w') = count is_reservation (events w).
Proof.
  intros Hrange Hcase.
  unfold validateUser, httpClient_Do_user, httpClient_Do, otelhttp_Start,
    recovered. go_run.
  destruct (netSrc w (tick w)) eqn:Hnet; cbn.
  - destruct Hcase as [Hunknown|]; [|discriminate].
    match goal with
    | |- context [@UserService.serve ?R ?i ?r ?w0] =>
        destruct (serve_get_unknown_user R i userID w0 Hrange Hunknown)
          as (resp & w1 & E & Hcode & Hf & Hs & Hp);
        rewrite E
    end.
    cbn. rewrite Hcode. cbn.
    do 2 eexists. split; [reflexivity|].
    split; [frame_done|]. split; [frame_done|]. split; frame_done.
  - do 2 eexists. split; [reflexivity|].
    split; [frame_done|]. split; [frame_done|]. split; frame_done.
Qed.

#[local] Arguments validateUser : simpl never.

(** X17. A create-order request for a user that is not in the table of
    the user service is answered 400 ["Invalid user"]; so is one whose
    request to the user service does not arrive.  Nothing is asked of
    the catalog, and no table and no counter changes. *)
Theorem createOrder_rejects_unknown_user info req w :
  let UserID := CreateOrderRequest.UserID req in
  GoInt.in_range UserID ->
  user_known UserID (users w) = false \/ netSrc w (S (tick w)) = false ->
  exists w',
    serve_createOrder (R:=unit) info (Some req) w
    = (Next (mkResponse http.StatusBadRequest (JError "Invalid user")), w')
    /\ users w' = users w /\ products w' = products w
    /\ orders w' = orders w /\ orderCounter w' = orderCounter w
    /\ count is_price_lookup (events w') = count is_price_lookup (events w)
    /\ count is_reservation (events w') = count is_reservation (events w).
Proof.
  intros UserID Hrange Hcase.
  unfold serve_createOrder, loggingMiddleware, createOrderHandler.
  fold UserID. go_run.
  match goal with
  | |- context [validateUser ?c ?u ?w0] =>
      destruct (validateUser_invalid c u w0 Hrange Hcase)
        as (err & w1 & E1 & Hf1 & (Hp1 & _) & Hl1 & Hr1);
      rewrite E1
  end.
  assert (Hg1 : ginWrites w1 = []) by (destruct Hf1; assumption).
  cbn. rewrite Bool.orb_true_r. cbn. rewrite Hg1. cbn.
  eexists. split; [reflexivity|].
  destruct Hf1. unfold count in *. cbn in *.
  repeat split; congruence.
Qed.

(** A customer number that nobody has. *)
Lemma createOrder_rejects_unknown_user_witness :
  exists w',
    serve_createOrder (R:=unit) from_curl
      (Some (CreateOrderRequest.mk 99 [RequestItem.mk 1 2])) calm
    = (Next (mkResponse http.StatusBadRequest (JError "Invalid user")), w')
    /\ products w' = products calm.
Proof.
  destruct (createOrder_rejects_unknown_user from_curl
              (CreateOrderRequest.mk 99 [RequestItem.mk 1 2]) calm)
    as (w' & E & _ & Hp & _).
  - vm_compute. split; discriminate.
  - left. reflexivity.
  - exists w'. split; assumption.
Defined.

(* ------------------------------------------------------------------ *)
(** *** Stock taken by an order *)

(** The quantity of a product an order asks for, over all its items. *)
Definition ordered (pid : Z) (items : list RequestItem.t) : Z :=
  fold_right (fun item sum =>
    if RequestItem.ProductID item =? pid
    then RequestItem.Quantity item + sum else sum) 0 items.

Lemma wrap_sub_l a b : GoInt.wrap (GoInt.wrap a - b) = GoInt.wrap (a - b).
Proof.
  replace (GoInt.wrap a - b) with (GoInt.wrap a + - b) by lia.
  rewrite CatalogFacts.wrap_add_l. reflexivity.
Qed.

Lemma lookup_replace_other pid (ps : list Product.t) : forall j p v,
  nth_error ps j = Some p ->
  (Product.ID p =? pid) = false -> (Product.ID v =? pid) = false ->
  ProductFacts.lookup pid (ProductService.replace_nth j v ps)
  = ProductFacts.lookup pid ps.
Proof.
  unfold ProductFacts.lookup.
  induction ps as [|x rest IH]; intros [|j] p v H Hp Hv; cbn in *;
    try discriminate.
  - injection H as ->. rewrite Hp, Hv; reflexivity.
  - destruct (Product.ID x =? pid); [reflexivity|]. eapply IH; eassumption.
Qed.

Lemma lookup_reserve_in_other pid pid' q ps :
  pid' <> pid ->
  ProductFacts.lookup pid (reserve_in pid' q ps) = ProductFacts.lookup pid ps.
Proof.
  intros Hne. unfold reserve_in.
  destruct (ProductFacts.locate pid' ps) as [[j p]|] eqn:Hj; [|reflexivity].
  destruct (ProductFacts.locate_nth _ _ _ _ Hj) as (Hnth & Hid).
  apply Z.eqb_eq in Hid.
  apply (lookup_replace_other pid ps j p); [exact Hnth | |];
    cbn; apply Z.eqb_neq; congruence.
Qed.

(** The stock of a product after the reservations of some items. *)
Lemma stock_after_reserve_all pid items : forall ps p,
  ProductFacts.lookup pid ps = Some p ->
  GoInt.in_range (Product.Stock p) ->
  ProductFacts.lookup pid (reserve_all items ps)
  = Some (ProductService.with_Stock
            (GoInt.wrap (Product.Stock p - ordered pid items)) p).
Proof.
  unfold reserve_all.
  induction items as [|item rest IH]; intros ps p Hp Hrange;
    cbn [fold_left ordered fold_right].
  - rewrite Z.sub_0_r, (GoIntFacts.wrap_small _ Hrange), Hp.
    destruct p; reflexivity.
  - unfold reserve_item at 2.
    destruct (Z.eqb_spec (RequestItem.ProductID item) pid) as [->|Hne].
    + rewrite (IH _ _ (stock_after_reserve_in ps pid _ p Hp))
        by apply GoIntFacts.wrap_in_range.
      fold (ordered pid rest).
      assert (Hz : GoInt.wrap
                     (GoInt.sub (Product.Stock p) (RequestItem.Quantity item)
                      - ordered pid rest)
                   = GoInt.wrap
                       (Product.Stock p
                        - (RequestItem.Quantity item + ordered pid rest))).
      { unfold GoInt.sub. rewrite wrap_sub_l. f_equal. lia. }
      cbn [Product.Stock ProductService.with_Stock]. rewrite Hz.
      reflexivity.
    + apply IH; [|exact Hrange].
      rewrite lookup_reserve_in_other by exact Hne. exact Hp.
Qed.

(** X18. A created order takes its quantities out of stock.  When a
    create-order request is answered 201, every product of the catalog
    is as it was but for its stock, which is the stock before less the
    quantities the items of the order ask of that product, as a Go
    [int]; a product no item names keeps its stock. *)
Theorem created_order_takes_its_stock info req resp w w' pid p :
  let items := CreateOrderRequest.Items req in
  well_formed items ->
  serve_createOrder (R:=unit) info (Some req) w = (Next resp, w') ->
  StatusCode resp = http.StatusCreated ->
  ProductFacts.lookup pid (products w) = Some p ->
  GoInt.in_range (Product.Stock p) ->
  ProductFacts.lookup pid (products w')
  = Some (ProductService.with_Stock
            (GoInt.wrap (Product.Stock p - ordered pid items)) p)
  /\ (ordered pid items = 0 ->
      ProductFacts.lookup pid (products w') = Some p).
Proof.
  intros items Hwf Hrun Hcode Hp Hrange.
  destruct (serve_createOrder_spec info req w Hwf)
    as (resp' & w1 & k & outcome & E & _ & _ & _ & _ & Hps & _ & Hout & _).
  rewrite Hrun in E. injection E as <- <-.
  destruct outcome as [order| | |];
    try (destruct Hout as (Hc & _); rewrite Hc in Hcode; discriminate).
  destruct Hout as (_ & -> & _).
  fold items in Hps. rewrite firstn_all in Hps.
  rewrite Hps, (stock_after_reserve_all pid items _ p Hp Hrange).
  split; [reflexivity|].
  intros ->. rewrite Z.sub_0_r, (GoIntFacts.wrap_small _ Hrange).
  destruct p; reflexivity.
Qed.

(** Two laptops and a yoga mat: 13 laptops are left of 15. *)
Lemma created_order_takes_its_stock_witness :
  let req := CreateOrderRequest.mk 1 [RequestItem.mk 1 2; RequestItem.mk 6 1] in
  let run := serve_createOrder (R:=unit) from_curl (Some req) calm in
  option_map Product.Stock (ProductFacts.lookup 1 (products (snd run)))
  = Some 13.
Proof.
  intros req run.
  destruct (created_order_takes_its_stock from_curl req
              (match fst run with
               | Next resp => resp
               | _ => mkResponse 0 JNone
               end)
              calm (snd run) 1
              (Product.mk 1 "Laptop Gaming" "High-performance gaming laptop"
                 1299.99%float "Electronics" 15
                 "https://example.com/laptop.jpg"))
    as (H & _).
  - repeat constructor; vm_compute; discriminate.
  - vm_compute. reflexivity.
  - vm_compute. reflexivity.
  - reflexivity.
  - vm_compute. split; discriminate.
  - rewrite H. reflexivity.
Defined.

End CheckoutFacts.

(* ================================================================== *)
(** ** One trace per request *)

Module TraceFacts.

(** An event of the trace [t]: a span that starts belongs to [t], and a
    log line that has a [trace_id] field holds the identifier of [t]
    there. *)
Definition in_trace (t : nat) (e : Event) : bool :=
  match e with
  | SpanStart s _ _ => trace_id s =? t
  | LogLine _ _ fields =>
      forallb (fun kv =>
        if String.eqb (fst kv) "trace_id"
        then match snd kv with
             | VTrace t' => t' =? t
             | _ => false
             end
        else true) fields
  | _ => true
  end%nat.

(** The events from [w] to [w'] all pass [ok]. *)
Definition only (ok : Event -> bool) (w w' : World) : Prop :=
  exists new, events w' = (new ++ events w)%list /\ forallb ok new = true.

Lemma only_refl ok w : only ok w w.
Proof. exists []. split; reflexivity. Qed.

Lemma only_trans ok a b c : only ok a b -> only ok b c -> only ok a c.
Proof.
  intros (n1 & E1 & H1) (n2 & E2 & H2). exists (n2 ++ n1)%list.
  split; [rewrite E2, E1; apply app_assoc|].
  rewrite forallb_app, H1, H2. reflexivity.
Qed.

Lemma only_quiet ok w w' :
  events w' = events w -> (nextID w <= nextID w')%nat -> only ok w w'.
Proof. intros E _. exists []. split; [exact E | reflexivity]. Qed.

Lemma only_emit ok e w :
  ok e = true -> only ok w (set_events (e :: events w) w).
Proof.
  intros H. exists [e]. split; [reflexivity | cbn; rewrite H; reflexivity].
Qed.

Definition traced (t : nat) : Invariant :=
  mkInvariant (only (in_trace t)) (in_trace t)
    (only_refl _) (only_trans _) (only_quiet _) (only_emit _).

(** A span started in a context of the trace [t] is in [t], and so is
    the context it gives. *)
Lemma keeps_traced_start {R A} (P Rt : Prop) t n name
    (k : Ctx * Span -> Go R A) :
  (forall n', keeps (traced t) P Rt (k (Some (mkSpan n' t), mkSpan n' t))) ->
  keeps (traced t) P Rt (bind (tracer_Start (Some (mkSpan n t)) name) k).
Proof.
  intros Hk w.
  unfold tracer_Start, fresh_id, emit, modify, ret, bind. cbn.
  match goal with
  | |- context [k ?x ?w1] =>
      destruct (Hk (nextID w) w1) as ((new & E & Hin) & Ho);
      destruct (k x w1) as [res w2]
  end.
  cbn in *. split; [|exact Ho].
  exists (new ++ [SpanStart (mkSpan (nextID w) t) (Some n) name])%list.
  split; [rewrite E, <- app_assoc; reflexivity|].
  rewrite forallb_app, Hin. cbn. rewrite Nat.eqb_refl. reflexivity.
Qed.

(** The rules of the judgement, with the trace of a context followed
    into the spans started in it. *)
Ltac trace_step :=
  lazymatch goal with
  | |- keeps (traced _) _ _ (bind (tracer_Start _ _) _) =>
      cbn [Propagated OrderService.outbound UserRoutes.outbound];
      apply keeps_traced_start; intros ?; cbv beta iota
  | |- keeps (traced _) _ _ (bind (otelhttp_Start _ _) _) =>
      unfold otelhttp_Start
  | |- keeps (traced _) _ _ (emit _) =>
      apply keeps_emit; cbn; rewrite ?Nat.eqb_refl; reflexivity
  | |- _ => keeps_step
  end.

(** The trace of a request: the one propagated to it, or the one its
    first span opens. *)
Definition root_trace (ctx : Ctx) (w : World) : nat :=
  match ctx with
  | Some parent => trace_id parent
  | None => nextID w
  end.

(** Every event of a run is in the trace of the request. *)
Definition in_one_trace {R A} (ctx : Ctx) (m : Go R A) : Prop :=
  forall w,
    exists new,
      events (snd (m w)) = (new ++ events w)%list
      /\ forallb (in_trace (root_trace ctx w)) new = true.

Lemma root_start_in_one_trace {R A} ctx name (k : Ctx * Span -> Go R A) :
  (forall n t, keeps (traced t) True True
                 (k (Some (mkSpan n t), mkSpan n t))) ->
  in_one_trace ctx (bind (tracer_Start ctx name) k).
Proof.
  intros Hk w.
  unfold tracer_Start, fresh_id, emit, modify, ret, bind. cbn.
  match goal with
  | |- context [k (Some (mkSpan ?n ?t), _) ?w1] =>
      destruct (Hk n t w1) as ((new & E & Hin) & _);
      destruct (k (Some (mkSpan n t), mkSpan n t) w1) as [res w2];
      assert (Ht : t = root_trace ctx w) by (destruct ctx; reflexivity)
  end.
  cbn in *. rewrite <- Ht.
  eexists (new ++ [_])%list.
  split; [rewrite E, <- app_assoc; reflexivity|].
  rewrite forallb_app, Hin. cbn. rewrite Nat.eqb_refl. reflexivity.
Qed.

Lemma gin_serve_in_one_trace {R} ctx (chain : Go unit unit) :
  in_one_trace ctx chain -> in_one_trace ctx (@gin_serve R chain).
Proof.
  intros H w. unfold gin_serve, gets, modify, call, ret, bind. cbn.
  destruct (H (set_ginWrites [] w)) as (new & E & Hin).
  destruct (chain (set_ginWrites [] w)) as [[[]|[]| |] w1]; cbn in *;
    exists new; auto.
Qed.



(** X19. A request is served in one trace: the trace propagated to it
    in its headers, or the trace its server span opens when none is.
    This holds of every request to the three services, on any of the
    routes their [main] functions register.  Every span started while
    the request is served belongs to that trace: the server span of the
    engine, the span of the handler, the spans of the calls to a peer,
    the client spans the transport starts around them and the spans of
    the peer that serves them.  Every log line written that has a
    [trace_id] field holds the identifier of that trace. *)
Theorem request_stays_in_one_trace info q w :
  exists new,
    events (snd (Services.serve (R:=unit) info q w))
    = (new ++ events w)%list
    /\ forallb (in_trace (root_trace (Propagated info) w)) new = true.
Proof.
  revert w.
  change (in_one_trace (Propagated info) (Services.serve (R:=unit) info q)).
  destruct q as [r|r|r|r|body|r|r]; cbn [Services.serve];
    unfold UserService.serve, UserRoutes.serve, ProductService.serve,
      ProductRoutes.serve, OrderService.serve_createOrder,
      OrderQueries.serve, OrderRoutes.serve;
    apply gin_serve_in_one_trace; unfold otelgin_Middleware;
    apply root_start_in_one_trace; intros n t; cbv beta iota;
    repeat trace_step.
Qed.

(* ------------------------------------------------------------------ *)
(** *** The access log *)

#[local] Arguments UserService.handler : simpl never.
#[local] Arguments ProductService.handler : simpl never.
#[local] Arguments OrderQueries.handler : simpl never.
#[local] Arguments OrderService.createOrderHandler : simpl never.




(* ------------------------------------------------------------------ *)
(** *** The traffic generator *)

(** [makeRequest] in a context of the trace [t] logs the identifier of
    [t]; what follows the call is run on a response or on an error. *)
Lemma keeps_traced_makeRequest {R B} (P Rt : Prop) t n method url payload
    (k : option Response * TrafficGenerator.error -> Go R B) :
  (forall resp, keeps (traced t) P Rt (k (Some resp, None))) ->
  (forall msg, keeps (traced t) P Rt (k (None, Some msg))) ->
  keeps (traced t) P Rt
    (bind (call (TrafficGenerator.makeRequest (Some (mkSpan n t)) method url
                   payload)) k).
Proof.
  intros Hok Herr.
  apply keeps_ext with
    (m' := ' (_, client) <-
             tracer_Start (Some (mkSpan n t)) ("HTTP " ++ method) ;;
           emit (HTTPDo method url) ;;
           tk <- next_tick ;;
           src <- gets peerSrc ;;
           emit (HTTPResult url (src tk)) ;;
           match src tk with
           | None =>
               emit (SpanEnd client) ;;
               emit (LogLine ErrorLevel "HTTP request failed"
                       [ ("service", VStr TrafficGenerator.serviceName);
                         ("method", VStr method);
                         ("url", VStr (url_String url));
                         ("error", VStr "request failed");
                         ("trace_id", VTrace t) ]) ;;
               k (None, Some "request failed")
           | Some code =>
               emit (SpanAttr client "http.status_code" (VInt code)) ;;
               emit (SpanEnd client) ;;
               emit (LogLine InfoLevel "HTTP request completed"
                       [ ("service", VStr TrafficGenerator.serviceName);
                         ("method", VStr method);
                         ("url", VStr (url_String url));
                         ("status_code", VInt code);
                         ("trace_id", VTrace t) ]) ;;
               k (Some (mkResponse code JNone), None)
           end).
  - intros w.
    unfold TrafficGenerator.makeRequest, otelhttp_Start, io_Copy_Discard,
      tracer_Start, span_End, fresh_id, logrus_Error, logrus_Info,
      logrus_log, next_tick, gets, emit, modify, return_, ret, call, bind.
    cbn.
    destruct (peerSrc w (tick w)); reflexivity.
  - apply keeps_traced_start. intros n'. cbv beta iota.
    repeat first
      [ apply keeps_bind; [|intros ?]
      | apply keeps_emit; cbn; rewrite ?Nat.eqb_refl; reflexivity
      | apply keeps_next_tick
      | apply keeps_gets
      | match goal with
        | |- keeps _ _ _ (match ?x with _ => _ end) => destruct x
        end
      | solve [auto] ].
Qed.

Ltac generator_trace_step :=
  lazymatch goal with
  | |- keeps (traced _) _ _
         (bind (call (TrafficGenerator.makeRequest _ _ _ _)) _) =>
      apply keeps_traced_makeRequest;
      [ intros ?; cbv beta iota delta [TrafficGenerator.is_error]
      | intros ?; cbv beta iota delta [TrafficGenerator.is_error] ]
  | |- keeps _ _ _ (TrafficGenerator.random_items _) =>
      apply keeps_random_items
  | |- _ => trace_step
  end.

(** X21. An iteration of each of the seven loops of the generator is
    one trace: the workflow span opens a fresh trace, every span of the
    iteration belongs to it (the workflow span, the spans of the calls
    and the client span the transport starts around each request), and
    every line [makeRequest] logs holds its identifier, whatever the
    services answer. *)
Theorem workflow_is_one_trace name iteration :
  In (name, iteration) TrafficGenerator.loops ->
  in_one_trace None iteration.
Proof.
  intros Hin. cbn in Hin.
  repeat destruct Hin as [[= <- <-]|Hin]; try contradiction;
    match goal with
    | |- in_one_trace _ ?it => let h := head_of it in unfold h
    end;
    apply root_start_in_one_trace; intros n t; cbv beta iota;
    repeat generator_trace_step.
Qed.

Lemma workflow_is_one_trace_witness :
  in_one_trace None TrafficGenerator.generateOrderTraffic.
Proof.
  apply (workflow_is_one_trace "generateOrderTraffic").
  cbn. tauto.
Defined.

End TraceFacts.
